(** * keyborder: the EN/RU layout converter of layout_indicator_tray.py

    A shallow embedding of the text-conversion engine (layout mapper, window
    classifier, the three acquisition/replacement paths and the synthetic
    input driver) together with the properties of its specification. *)

From Stdlib Require Import ZArith String Ascii Lia.
From Stdlib Require Floats Uint63.
From stdpp Require Import base decidable option list gmap.

Open Scope Z_scope.

(** ** Python strings

    A Python [str] is a sequence of Unicode code points; [len], indexing,
    [in] on one character and [str.translate] all work per code point. *)

Abbreviation str := (list Z).

(** String literals of this file are UTF-8 byte strings; [py] decodes one
    into the code points Python sees for the same literal (sequences of one,
    two and three bytes are all the tables need). *)
Fixpoint utf8_decode (bs : list Z) : str :=
  match bs with
  | [] => []
  | b0 :: r0 =>
    if b0 <? 128 then b0 :: utf8_decode r0
    else
      match r0 with
      | [] => []
      | b1 :: r1 =>
        if b0 <? 224 then ((b0 - 192) * 64 + (b1 - 128)) :: utf8_decode r1
        else
          match r1 with
          | [] => []
          | b2 :: r2 =>
            ((b0 - 224) * 4096 + (b1 - 128) * 64 + (b2 - 128)) :: utf8_decode r2
          end
      end
  end.

Definition py (s : string) : str :=
  utf8_decode ((λ a, Z.of_N (N_of_ascii a)) <$> list_ascii_of_string s).

(** The double quote character, which both tables contain. *)
Definition dquote : Z := 34.

(** ** Character tables (source lines 63-68) *)

Definition EN_CHARS : str :=
  py "`qwertyuiop[]asdfghjkl;'zxcvbnm,./~QWERTYUIOP{}ASDFGHJKL:"
    ++ [dquote] ++ py "ZXCVBNM<>?@#$^&".

Definition RU_CHARS : str :=
  py "ёйцукенгшщзхъфывапролджэячсмитьбю.ЁЙЦУКЕНГШЩЗХЪФЫВАПРОЛДЖЭЯЧСМИТЬБЮ,"
    ++ [dquote] ++ py "№;:?".

(** A dict built from its items left to right: a later duplicate key
    overrides an earlier one.  [str.maketrans(x, y)] is the dict from
    [ord(x[i])] to [ord(y[i])], and a [ValueError] ([None] here) when the two
    strings differ in length. *)
Definition py_dict_from (d : gmap Z Z) (items : list (Z * Z)) : gmap Z Z :=
  foldl (λ d kv, <[kv.1 := kv.2]> d) d items.

Definition py_dict (items : list (Z * Z)) : gmap Z Z := py_dict_from ∅ items.

Definition maketrans (x y : str) : option (gmap Z Z) :=
  if decide (length x = length y) then Some (py_dict (zip x y)) else None.

(** [str.translate(table)] for a table whose values are ordinals: a code
    point with an entry is replaced, one without is kept. *)
Definition translate (table : gmap Z Z) (s : str) : str :=
  (λ c, default c (table !! c)) <$> s.

Definition EN_TO_RU : gmap Z Z := default ∅ (maketrans EN_CHARS RU_CHARS).
Definition RU_TO_EN : gmap Z Z := default ∅ (maketrans RU_CHARS EN_CHARS).

(** ** Layout mapper (source lines 200-213) *)

(** The two values ['en'] and ['ru'] that [detect_layout] returns. *)
Inductive layout := en | ru.

Global Instance layout_eq_dec : EqDecision layout.
Proof. solve_decision. Defined.

(** [c in table] for a one-character string [c]. *)
Definition char_in (c : Z) (table : str) : bool := bool_decide (c ∈ table).

(** The builtin [sum] over integers: starts from 0 and adds left to right. *)
Definition py_sum (l : list Z) : Z := foldl Z.add 0 l.

(** [sum(1 for c in text if c in table)] *)
Definition count_chars (table text : str) : Z :=
  py_sum ((λ _, 1) <$> List.filter (λ c, char_in c table) text).

Definition detect_layout (text : str) : layout :=
  let en_count := count_chars EN_CHARS text in
  let ru_count := count_chars RU_CHARS text in
  if (en_count >=? ru_count) then en else ru.

Definition convert_text (text : str) : str :=
  let layout := detect_layout text in
  if decide (layout = en) then translate EN_TO_RU text
  else translate RU_TO_EN text.

(** ** Hotkey and layout constants (source lines 71-78) *)

Definition HKL_EN : Z := 0x04090409.
Definition HKL_RU : Z := 0x04190419.

(** ** ctypes structures and integer fields

    Assigning a Python int to a [WORD] or [DWORD] field keeps its low 16 or
    32 bits (ctypes does no overflow checking). *)

Definition WORD (n : Z) : Z := n mod 2 ^ 16.
Definition DWORD (n : Z) : Z := n mod 2 ^ 32.

Record KEYBDINPUT := {
  wVk : Z;
  wScan : Z;
  dwFlags : Z;
  time : Z;
  dwExtraInfo : option Z
}.

Record INPUT := { type : Z; ki : KEYBDINPUT }.

Record COORD := { X : Z; Y : Z }.

Record SMALL_RECT := { Left : Z; Top : Z; Right : Z; Bottom : Z }.

Record CONSOLE_SCREEN_BUFFER_INFO := {
  dwSize : COORD;
  dwCursorPosition : COORD;
  wAttributes : Z;
  srWindow : SMALL_RECT;
  dwMaximumWindowSize : COORD
}.

(** ** The operating system as seen by the program

    Every foreign call the conversion engine makes, indexed by the type of
    what Python gets back.  Handles, [BOOL]s and counts are integers ([0] is
    [NULL] / [FALSE]); an out-parameter is returned next to the result;
    [time.sleep] takes its delay in milliseconds. *)

Inductive call : Type → Type :=
  | GetForegroundWindow : call Z
  | GetClassNameW (hwnd nMaxCount : Z) : call str
  | SendInput (cInputs : Z) (pInputs : list INPUT) : call Z
  | PostMessageW (hwnd Msg wParam lParam : Z) : call Z
  | OpenClipboard (hWndNewOwner : option Z) : call Z
  | EmptyClipboard : call Z
  | CloseClipboard : call Z
  | GetClipboardData (uFormat : Z) : call Z
  | SetClipboardData (uFormat hMem : Z) : call Z
  | GlobalAlloc (uFlags dwBytes : Z) : call Z
  | GlobalLock (hMem : Z) : call Z
  | GlobalUnlock (hMem : Z) : call Z
  | wstring_at (ptr : Z) : call str
  | memmove (dst : Z) (src : list Z) (count : Z) : call unit
  | GetWindowThreadProcessId (hwnd : Z) : call (Z * Z)
  | FreeConsole : call Z
  | AttachConsole (dwProcessId : Z) : call Z
  | GetStdHandle (nStdHandle : Z) : call Z
  | GetConsoleScreenBufferInfo (hConsoleOutput : Z)
      : call (Z * CONSOLE_SCREEN_BUFFER_INFO)
  | ReadConsoleOutputCharacterW (hConsoleOutput nLength : Z) (dwReadCoord : COORD)
      : call (Z * (str * Z))
  | sleep (ms : Z) : call unit.

(** One entry of the call log. *)
Inductive event :=
  | Ev {R : Type} (c : call R).

(** Python exceptions the modelled code can raise. *)
Inductive exn := ValueError | UnicodeEncodeError.

Inductive result (A : Type) :=
  | Ok (a : A)
  | Raise (e : exn).
Arguments Ok {A} a.
Arguments Raise {A} e.

(** The world: the state of the operating system, of which the program
    knows nothing, and the log of the calls made so far. *)
Record World (St : Type) := mkWorld { os_state : St; log : list event }.
Arguments mkWorld {St} os_state log.
Arguments os_state {St} w.
Arguments log {St} w.

(** How an operating system answers: any function from a call and a state
    to an answer and a next state. *)
Definition OS (St : Type) : Type := ∀ R, call R → St → R * St.

(** ** Python string helpers used by the acquisition code *)

(** [str.isspace] on one code point. *)
Definition py_isspace (c : Z) : bool :=
  bool_decide (c ∈ [9; 10; 11; 12; 13; 28; 29; 30; 31; 32; 133; 160; 5760;
                    8192; 8193; 8194; 8195; 8196; 8197; 8198; 8199; 8200;
                    8201; 8202; 8232; 8233; 8239; 8287; 12288]).

Fixpoint lstrip (s : str) : str :=
  match s with
  | [] => []
  | c :: r => if py_isspace c then lstrip r else s
  end.

Definition rstrip (s : str) : str := reverse (lstrip (reverse s)).

Definition strip (s : str) : str := lstrip (rstrip s).

(** [str.split()] without arguments: the maximal runs of non-whitespace. *)
Fixpoint split_from (cur : str) (s : str) : list str :=
  match s with
  | [] => if decide (cur = []) then [] else [reverse cur]
  | c :: r =>
    if py_isspace c
    then (if decide (cur = []) then split_from [] r
          else reverse cur :: split_from [] r)
    else split_from (c :: cur) r
  end.

Definition split (s : str) : list str := split_from [] s.

(** [s.encode('utf-16-le')]: two bytes per BMP code point, a surrogate pair
    above it; a lone surrogate code point raises [UnicodeEncodeError]. *)
Definition utf16_units (c : Z) : option (list Z) :=
  if bool_decide (0xD800 ≤ c ≤ 0xDFFF) then None
  else if c <? 0x10000 then Some [c]
  else Some [0xD800 + (c - 0x10000) / 0x400; 0xDC00 + (c - 0x10000) mod 0x400].

Definition le_bytes (u : Z) : list Z := [u mod 256; u / 256].

Definition encode_utf_16_le (s : str) : option (list Z) :=
  units ← mapM utf16_units s; Some (mjoin units ≫= le_bytes).

(** [buffer.value] of a ctypes character buffer: up to the first NUL. *)
Fixpoint value (buffer : list Z) : str :=
  match buffer with
  | [] => []
  | c :: r => if c =? 0 then [] else c :: value r
  end.

(** ** The monad of the conversion engine

    A computation takes the world, may raise, and leaves a world whose log
    has grown by the calls it made. *)

Definition M (St A : Type) : Type := World St → result A * World St.

Global Instance M_ret {St} : MRet (M St) := λ A a w, (Ok a, w).

Global Instance M_bind {St} : MBind (M St) := λ A B f m w,
  match m w with
  | (Ok a, w') => f a w'
  | (Raise e, w') => (Raise e, w')
  end.

Definition raise {St A} (e : exn) : M St A := λ w, (Raise e, w).

(** [try: body finally: final] *)
Definition try_finally {St A} (body : M St A) (final : M St unit) : M St A :=
  λ w,
    let '(r, w') := body w in
    match final w' with
    | (Ok _, w'') => (r, w'')
    | (Raise e, w'') => (Raise e, w'')
    end.

(** [for a in l: body(a)] *)
Fixpoint for_ {St A} (l : list A) (body : A → M St unit) : M St unit :=
  match l with
  | [] => mret tt
  | a :: r => body a;; for_ r body
  end.

(** Truth value of an integer, and of an optional string ([None] and the
    empty string are false). *)
Definition truthy (n : Z) : bool := negb (n =? 0).

Definition nonempty (t : option str) : bool :=
  match t with
  | Some (_ :: _) => true
  | _ => false
  end.

(** The text held by an optional string tested non-empty. *)
Definition text_of (t : option str) : str := default [] t.

Section Engine.
Context {St : Type} (os : OS St).

(** A foreign call: the system answers and moves on, the log records it. *)
Definition os_call {R} (c : call R) : M St R := λ w,
  let '(r, s) := os R c (os_state w) in
  (Ok r, mkWorld s (log w ++ [Ev c])).

(** Calls made for their effect only. *)
Definition os_call_ {R} (c : call R) : M St unit := os_call c;; mret tt.

Definition get_foreground_hwnd : M St Z := os_call GetForegroundWindow.

Definition get_window_class (hwnd : Z) : M St str :=
  os_call (GetClassNameW hwnd 256).

Definition is_console_window (hwnd : Z) : M St bool :=
  let console_classes :=
    [py "ConsoleWindowClass"; py "CASCADIA_HOSTING_WINDOW_CLASS";
     py "PseudoConsoleWindow"] in
  cls ← get_window_class hwnd;
  mret (bool_decide (cls ∈ console_classes)).

Definition is_classic_console (hwnd : Z) : M St bool :=
  cls ← get_window_class hwnd;
  mret (bool_decide (cls = py "ConsoleWindowClass")).

(** *** Synthetic input driver (source lines 274-396) *)

Definition scan_codes : gmap Z Z :=
  py_dict [(0x11, 0x1D); (0x10, 0x2A); (0x25, 0x4B); (0x43, 0x2E);
           (0x56, 0x2F); (0x58, 0x2D); (0x2D, 0x52)].

Definition key_input (vk flags : Z) : INPUT :=
  let INPUT_KEYBOARD := 1 in
  {| type := DWORD INPUT_KEYBOARD;
     ki := {| wVk := WORD vk;
              wScan := WORD (default 0 (scan_codes !! vk));
              dwFlags := DWORD flags;
              time := DWORD 0;
              dwExtraInfo := None |} |}.

Definition send_input_keys (keys : list (Z * Z)) : M St bool :=
  let n := Z.of_nat (length keys) in
  let inputs := (λ k, key_input k.1 k.2) <$> keys in
  result ← os_call (SendInput n inputs);
  mret (bool_decide (result = n)).

Definition send_key_press (vk : Z) : M St bool :=
  let KEYEVENTF_KEYUP := 0x0002 in
  let keys := [(vk, 0); (vk, KEYEVENTF_KEYUP)] in
  send_input_keys keys.

Definition send_two_modifier_combo (mod1_vk mod2_vk key_vk : Z) : M St bool :=
  let KEYEVENTF_KEYUP := 0x0002 in
  let KEYEVENTF_EXTENDEDKEY := 0x0001 in
  let extended_keys : gset Z :=
    {[0x25; 0x26; 0x27; 0x28; 0x2D; 0x2E; 0x24; 0x23; 0x21; 0x22]} in
  let key_flags :=
    if bool_decide (key_vk ∈ extended_keys) then KEYEVENTF_EXTENDEDKEY else 0 in
  let keys :=
    [(mod1_vk, 0);
     (mod2_vk, 0);
     (key_vk, key_flags);
     (key_vk, Z.lor key_flags KEYEVENTF_KEYUP);
     (mod2_vk, KEYEVENTF_KEYUP);
     (mod1_vk, KEYEVENTF_KEYUP)] in
  send_input_keys keys.

Definition unicode_input (char flags : Z) : INPUT :=
  let INPUT_KEYBOARD := 1 in
  {| type := DWORD INPUT_KEYBOARD;
     ki := {| wVk := WORD 0;
              wScan := WORD char;
              dwFlags := DWORD flags;
              time := DWORD 0;
              dwExtraInfo := None |} |}.

Definition type_text (text : str) : M St unit :=
  let KEYEVENTF_UNICODE := 0x0004 in
  let KEYEVENTF_KEYUP := 0x0002 in
  for_ text (λ char,
    let inputs :=
      [unicode_input char KEYEVENTF_UNICODE;
       unicode_input char (Z.lor KEYEVENTF_UNICODE KEYEVENTF_KEYUP)] in
    os_call (SendInput 2 inputs);;
    os_call (sleep 10)).

Definition switch_keyboard_layout (to_lang : layout) : M St unit :=
  let WM_INPUTLANGCHANGEREQUEST := 0x0050 in
  let hkl := if decide (to_lang = en) then HKL_EN else HKL_RU in
  hwnd ← get_foreground_hwnd;
  if truthy hwnd
  then os_call_ (PostMessageW hwnd WM_INPUTLANGCHANGEREQUEST 0 hkl)
  else mret tt.

Definition send_key_combo (modifier_vk key_vk : Z) : M St bool :=
  let KEYEVENTF_KEYUP := 0x0002 in
  let keys :=
    [(modifier_vk, 0);
     (key_vk, 0);
     (key_vk, KEYEVENTF_KEYUP);
     (modifier_vk, KEYEVENTF_KEYUP)] in
  send_input_keys keys.

Definition send_ctrl_key (key_vk : Z) : M St bool :=
  let VK_CONTROL := 0x11 in
  send_key_combo VK_CONTROL key_vk.

Definition send_shift_key (key_vk : Z) : M St bool :=
  let VK_SHIFT := 0x10 in
  send_key_combo VK_SHIFT key_vk.

(** *** Clipboard mediator (source lines 399-478) *)

Definition get_clipboard_text : M St (option str) :=
  let CF_UNICODETEXT := 13 in
  opened ← os_call (OpenClipboard None);
  if negb (truthy opened) then mret None
  else
    try_finally
      (h_data ← os_call (GetClipboardData CF_UNICODETEXT);
       if negb (truthy h_data) then mret None
       else
         p_data ← os_call (GlobalLock h_data);
         if negb (truthy p_data) then mret None
         else
           try_finally
             (text ← os_call (wstring_at p_data);
              mret (Some text))
             (os_call_ (GlobalUnlock h_data)))
      (os_call_ CloseClipboard).

Definition set_clipboard_text (text : str) : M St bool :=
  let CF_UNICODETEXT := 13 in
  let GMEM_MOVEABLE := 0x0002 in
  match encode_utf_16_le (text ++ [0]) with
  | None => raise UnicodeEncodeError
  | Some text_bytes =>
    let len_bytes := Z.of_nat (length text_bytes) in
    opened ← os_call (OpenClipboard None);
    if negb (truthy opened) then mret false
    else
      try_finally
        (os_call EmptyClipboard;;
         h_mem ← os_call (GlobalAlloc GMEM_MOVEABLE len_bytes);
         if negb (truthy h_mem) then mret false
         else
           p_mem ← os_call (GlobalLock h_mem);
           if negb (truthy p_mem) then mret false
           else
             os_call (memmove p_mem text_bytes len_bytes);;
             os_call (GlobalUnlock h_mem);;
             os_call (SetClipboardData CF_UNICODETEXT h_mem);;
             mret true)
        (os_call_ CloseClipboard)
  end.

Definition clear_clipboard : M St unit :=
  opened ← os_call (OpenClipboard None);
  if truthy opened
  then os_call EmptyClipboard;; os_call_ CloseClipboard
  else mret tt.

(** *** Console buffer reader (source lines 481-554) *)

Definition get_console_last_word (hwnd : Z) : M St (option str) :=
  tid_pid ← os_call (GetWindowThreadProcessId hwnd);
  let pid := tid_pid.2 in
  os_call FreeConsole;;
  attached ← os_call (AttachConsole pid);
  if negb (truthy attached) then mret None
  else
    let STD_OUTPUT_HANDLE := -11 in
    h_console ← os_call (GetStdHandle STD_OUTPUT_HANDLE);
    if negb (truthy h_console) || (h_console =? -1)
    then os_call FreeConsole;; mret None
    else
      info ← os_call (GetConsoleScreenBufferInfo h_console);
      let csbi := info.2 in
      if negb (truthy info.1) then mret None
      else
        let cursor_x := X (dwCursorPosition csbi) in
        let cursor_y := Y (dwCursorPosition csbi) in
        if cursor_x =? 0 then mret None
        else
          let buffer_size := cursor_x in
          (* create_unicode_buffer(buffer_size + 1): a zeroed array, or
             ValueError for a negative length *)
          if buffer_size + 1 <? 0 then raise ValueError
          else
            let coord := {| X := 0; Y := cursor_y |} in
            out ← os_call (ReadConsoleOutputCharacterW h_console buffer_size coord);
            let written := take (Z.to_nat buffer_size) out.2.1 in
            let chars_read := out.2.2 in
            let buffer :=
              written ++ replicate (Z.to_nat (buffer_size + 1) - length written) 0 in
            let line := take (Z.to_nat chars_read) (value buffer) in
            os_call FreeConsole;;
            let line := rstrip line in
            if decide (line = []) then mret None
            else
              let words := split line in
              match last words with
              | Some word => mret (Some word)
              | None => mret None
              end.

(** *** The three conversion paths (source lines 557-718) *)

Definition convert_in_terminal (hwnd : Z) : M St bool :=
  let VK_BACKSPACE := 0x08 in
  let VK_C := 0x43 in
  os_call (sleep 100);;
  clear_clipboard;;
  let VK_CONTROL := 0x11 in
  let VK_SHIFT := 0x10 in
  send_two_modifier_combo VK_CONTROL VK_SHIFT VK_C;;
  os_call (sleep 200);;
  word ← get_clipboard_text;
  if negb (nonempty word) then mret false
  else
    let word := strip (text_of word) in
    if decide (word = []) then mret false
    else
      let source_layout := detect_layout word in
      let converted := convert_text word in
      if decide (converted = word) then mret false
      else
        let target_layout := if decide (source_layout = en) then ru else en in
        let VK_END := 0x23 in
        send_key_press VK_END;;
        os_call (sleep 30);;
        for_ (seq 0 (length word)) (λ _,
          send_key_press VK_BACKSPACE;;
          os_call (sleep 10));;
        os_call (sleep 50);;
        type_text converted;;
        os_call (sleep 50);;
        switch_keyboard_layout target_layout;;
        mret true.

Definition convert_in_console (hwnd : Z) : M St bool :=
  let VK_BACKSPACE := 0x08 in
  os_call (sleep 100);;
  word ← get_console_last_word hwnd;
  if negb (nonempty word) then mret false
  else
    let word := text_of word in
    let source_layout := detect_layout word in
    let converted := convert_text word in
    if decide (converted = word) then mret false
    else
      let target_layout := if decide (source_layout = en) then ru else en in
      for_ (seq 0 (length word)) (λ _,
        send_key_press VK_BACKSPACE;;
        os_call (sleep 10));;
      os_call (sleep 50);;
      type_text converted;;
      os_call (sleep 50);;
      switch_keyboard_layout target_layout;;
      mret true.

Definition convert_selected_text : M St bool :=
  hwnd ← get_foreground_hwnd;
  console ← is_console_window hwnd;
  if (console : bool)
  then
    classic ← is_classic_console hwnd;
    if (classic : bool) then convert_in_console hwnd else convert_in_terminal hwnd
  else
    let VK_INSERT := 0x2D in
    let VK_CONTROL := 0x11 in
    let VK_SHIFT := 0x10 in
    let VK_LEFT := 0x25 in
    os_call (sleep 50);;
    clear_clipboard;;
    send_ctrl_key VK_INSERT;;
    os_call (sleep 80);;
    selected_text ← get_clipboard_text;
    selected_text ←
      (if negb (nonempty selected_text)
       then
         send_two_modifier_combo VK_CONTROL VK_SHIFT VK_LEFT;;
         os_call (sleep 30);;
         send_ctrl_key VK_INSERT;;
         os_call (sleep 50);;
         get_clipboard_text
       else mret selected_text);
    if negb (nonempty selected_text) then mret false
    else
      let selected_text := text_of selected_text in
      let source_layout := detect_layout selected_text in
      let converted := convert_text selected_text in
      if decide (converted = selected_text) then mret false
      else
        let target_layout := if decide (source_layout = en) then ru else en in
        ok ← set_clipboard_text converted;
        if negb ok then mret false
        else
          let VK_V := 0x56 in
          send_ctrl_key VK_V;;
          os_call (sleep 20);;
          switch_keyboard_layout target_layout;;
          mret true.
End Engine.

(** ** Specification-side vocabulary for the layout mapper *)

(** The character table behind each layout, and the opposite layout. *)
Definition table (a : layout) : str :=
  match a with en => EN_CHARS | ru => RU_CHARS end.

Definition other (a : layout) : layout :=
  match a with en => ru | ru => en end.

(** Number of characters of [text] that occur in [tbl], counted the way the
    specification words it (one per position whose character is in the
    table). *)
Fixpoint occurrences (tbl text : str) : nat :=
  match text with
  | [] => 0%nat
  | c :: r => ((if decide (c ∈ tbl) then 1 else 0) + occurrences tbl r)%nat
  end.

(** The punctuation characters present in both tables. *)
Definition shared_chars : str := py ".,;:?" ++ [dquote].

(** The translation table [convert_text] applies for each detected layout. *)
Definition translation (a : layout) : gmap Z Z :=
  match a with en => EN_TO_RU | ru => RU_TO_EN end.

(** ** The stages of a conversion attempt

    The source writes each path as one function.  The definitions below name
    its stages (window classification, text acquisition, replacement) so
    that properties can speak about the world between two stages; the
    [_stages] lemmas further down show that each path is the sequence of its
    stages. *)

Inductive WindowCategory := Plain | LegacyConsole | ModernTerminal.

Section Stages.
Context {St : Type} (os : OS St).

(** The dispatch at the head of [convert_selected_text] (lines 656-662). *)
Definition classify (hwnd : Z) : M St WindowCategory :=
  console ← is_console_window os hwnd;
  if (console : bool)
  then
    classic ← is_classic_console os hwnd;
    mret (if (classic : bool) then LegacyConsole else ModernTerminal)
  else mret Plain.

(** LegacyConsole, lines 618-621 and 623-648. *)
Definition console_acquire (hwnd : Z) : M St (option str) :=
  os_call os (sleep 100);;
  get_console_last_word os hwnd.

Definition console_replace (word : option str) : M St bool :=
  let VK_BACKSPACE := 0x08 in
  if negb (nonempty word) then mret false
  else
    let word := text_of word in
    let source_layout := detect_layout word in
    let converted := convert_text word in
    if decide (converted = word) then mret false
    else
      let target_layout := if decide (source_layout = en) then ru else en in
      for_ (seq 0 (length word)) (λ _,
        send_key_press os VK_BACKSPACE;;
        os_call os (sleep 10));;
      os_call os (sleep 50);;
      type_text os converted;;
      os_call os (sleep 50);;
      switch_keyboard_layout os target_layout;;
      mret true.

(** ModernTerminal, lines 565-581 and 583-610.  The acquired text is the
    clipboard text with surrounding whitespace removed. *)
Definition terminal_acquire : M St (option str) :=
  let VK_C := 0x43 in
  let VK_CONTROL := 0x11 in
  let VK_SHIFT := 0x10 in
  os_call os (sleep 100);;
  clear_clipboard os;;
  send_two_modifier_combo os VK_CONTROL VK_SHIFT VK_C;;
  os_call os (sleep 200);;
  word ← get_clipboard_text os;
  if negb (nonempty word) then mret None
  else mret (Some (strip (text_of word))).

Definition terminal_replace (word : option str) : M St bool :=
  let VK_BACKSPACE := 0x08 in
  if negb (nonempty word) then mret false
  else
    let word := text_of word in
    let source_layout := detect_layout word in
    let converted := convert_text word in
    if decide (converted = word) then mret false
    else
      let target_layout := if decide (source_layout = en) then ru else en in
      let VK_END := 0x23 in
      send_key_press os VK_END;;
      os_call os (sleep 30);;
      for_ (seq 0 (length word)) (λ _,
        send_key_press os VK_BACKSPACE;;
        os_call os (sleep 10));;
      os_call os (sleep 50);;
      type_text os converted;;
      os_call os (sleep 50);;
      switch_keyboard_layout os target_layout;;
      mret true.

(** Plain, lines 671-681, 684-693 and 695-718. *)
Definition plain_primary_copy : M St (option str) :=
  let VK_INSERT := 0x2D in
  os_call os (sleep 50);;
  clear_clipboard os;;
  send_ctrl_key os VK_INSERT;;
  os_call os (sleep 80);;
  get_clipboard_text os.

Definition plain_fallback_copy : M St (option str) :=
  let VK_INSERT := 0x2D in
  let VK_CONTROL := 0x11 in
  let VK_SHIFT := 0x10 in
  let VK_LEFT := 0x25 in
  send_two_modifier_combo os VK_CONTROL VK_SHIFT VK_LEFT;;
  os_call os (sleep 30);;
  send_ctrl_key os VK_INSERT;;
  os_call os (sleep 50);;
  get_clipboard_text os.

Definition plain_acquire : M St (option str) :=
  selected_text ← plain_primary_copy;
  if negb (nonempty selected_text) then plain_fallback_copy
  else mret selected_text.

Definition plain_replace (selected_text : option str) : M St bool :=
  if negb (nonempty selected_text) then mret false
  else
    let selected_text := text_of selected_text in
    let source_layout := detect_layout selected_text in
    let converted := convert_text selected_text in
    if decide (converted = selected_text) then mret false
    else
      let target_layout := if decide (source_layout = en) then ru else en in
      ok ← set_clipboard_text os converted;
      if negb ok then mret false
      else
        let VK_V := 0x56 in
        send_ctrl_key os VK_V;;
        os_call os (sleep 20);;
        switch_keyboard_layout os target_layout;;
        mret true.

(** The two stages of each category, and the path they make up. *)
Definition acquire (category : WindowCategory) (hwnd : Z) : M St (option str) :=
  match category with
  | LegacyConsole => console_acquire hwnd
  | ModernTerminal => terminal_acquire
  | Plain => plain_acquire
  end.

Definition replace (category : WindowCategory) : option str → M St bool :=
  match category with
  | LegacyConsole => console_replace
  | ModernTerminal => terminal_replace
  | Plain => plain_replace
  end.

Definition convert_as (category : WindowCategory) (hwnd : Z) : M St bool :=
  acquire category hwnd ≫= replace category.

(** A hotkey press in world [w0] finds the foreground window [hwnd],
    classifies it as [category] and reaches that path in world [w]. *)
Definition enters (w0 : World St) (category : WindowCategory) (hwnd : Z)
    (w : World St) : Prop :=
  ∃ wa,
    get_foreground_hwnd os w0 = (Ok hwnd, wa) ∧
    classify hwnd wa = (Ok category, w).
End Stages.

(** ** The point of the layout switch

    Every replacement that succeeds ends with [switch_keyboard_layout].
    [rewrite_text] is the part of the replacement stage that comes before it
    (lines 592-606 for ModernTerminal, 635-644 for LegacyConsole, 707-713 for
    Plain); it returns [False] where the Plain path gives up because the
    clipboard write failed.  The [replace_rewrite_text] lemma further down
    shows that the replacement stage is [rewrite_text] followed by the
    switch.  [foreground_at w] is the window the system names when it is asked
    in world [w]. *)
Section SwitchPoint.
Context {St : Type} (os : OS St).

Definition foreground_at (w : World St) : Z :=
  (os Z GetForegroundWindow (os_state w)).1.

Definition rewrite_text (category : WindowCategory) (word : str) : M St bool :=
  let VK_BACKSPACE := 0x08 in
  let converted := convert_text word in
  match category with
  | LegacyConsole =>
    for_ (seq 0 (length word)) (λ _,
      send_key_press os VK_BACKSPACE;;
      os_call os (sleep 10));;
    os_call os (sleep 50);;
    type_text os converted;;
    os_call os (sleep 50);;
    mret true
  | ModernTerminal =>
    let VK_END := 0x23 in
    send_key_press os VK_END;;
    os_call os (sleep 30);;
    for_ (seq 0 (length word)) (λ _,
      send_key_press os VK_BACKSPACE;;
      os_call os (sleep 10));;
    os_call os (sleep 50);;
    type_text os converted;;
    os_call os (sleep 50);;
    mret true
  | Plain =>
    ok ← set_clipboard_text os converted;
    if negb ok then mret false
    else
      let VK_V := 0x56 in
      send_ctrl_key os VK_V;;
      os_call os (sleep 20);;
      mret true
  end.
End SwitchPoint.

(** [logs m l]: from any world, [m] returns normally and the calls it makes
    are exactly [l]. *)
Definition logs {St A} (m : M St A) (l : list event) : Prop :=
  ∀ w, ∃ a w', m w = (Ok a, w') ∧ log w' = log w ++ l.

(** ** Reading the call log *)

Global Instance KEYBDINPUT_eq_dec : EqDecision KEYBDINPUT.
Proof. solve_decision. Defined.

Global Instance INPUT_eq_dec : EqDecision INPUT.
Proof. solve_decision. Defined.

(** The batches handed to [SendInput], in order. *)
Definition sent_batch (e : event) : option (list INPUT) :=
  match e with
  | @Ev R c =>
    match c with
    | SendInput _ pInputs => Some pInputs
    | _ => None
    end
  end.

Definition sent (l : list event) : list (list INPUT) := omap sent_batch l.

(** The messages posted, in order: window, message, wParam, lParam. *)
Definition posted_message (e : event) : option (Z * Z * Z * Z) :=
  match e with
  | @Ev R c =>
    match c with
    | PostMessageW hwnd Msg wParam lParam => Some (hwnd, Msg, wParam, lParam)
    | _ => None
    end
  end.

Definition posted (l : list event) : list (Z * Z * Z * Z) := omap posted_message l.

(** The [FreeConsole] / [AttachConsole] calls, in order ([true] for an
    attach). *)
Definition console_attachment (e : event) : option bool :=
  match e with
  | @Ev R c =>
    match c with
    | AttachConsole _ => Some true
    | FreeConsole => Some false
    | _ => None
    end
  end.

Definition attachments (l : list event) : list bool := omap console_attachment l.

(** A key press as [send_key_press] batches it, and the batches of the
    combos the engine uses. *)
Definition key_press (vk : Z) : list INPUT := [key_input vk 0; key_input vk 0x0002].

Definition backspace_press : list INPUT := key_press 0x08.

Definition combo (modifier_vk key_vk : Z) : list INPUT :=
  [key_input modifier_vk 0; key_input key_vk 0;
   key_input key_vk 0x0002; key_input modifier_vk 0x0002].

Definition ctrl_shift_left : list INPUT :=
  [key_input 0x11 0; key_input 0x10 0; key_input 0x25 0x0001;
   key_input 0x25 0x0003; key_input 0x10 0x0002; key_input 0x11 0x0002].

(** The down/up pair that injects one character. *)
Definition unicode_press (char : Z) : list INPUT :=
  [unicode_input char 0x0004; unicode_input char 0x0006].

(** The calls of the deletion loop, of [type_text] and of
    [switch_keyboard_layout] when the foreground window it finds is [hwnd]. *)
Definition backspace_calls (n : nat) : list event :=
  mjoin (replicate n [Ev (SendInput 2 backspace_press); Ev (sleep 10)]).

Definition typing_calls (text : str) : list event :=
  text ≫= λ char, [Ev (SendInput 2 (unicode_press char)); Ev (sleep 10)].

Definition switch_calls (hwnd : Z) (to_lang : layout) : list event :=
  Ev GetForegroundWindow ::
  (if truthy hwnd
   then [Ev (PostMessageW hwnd 0x0050 0 (if decide (to_lang = en) then HKL_EN else HKL_RU))]
   else []).

(** ** A scripted desktop

    A test double for the operating system: a foreground window of a given
    class, a clipboard whose successive reads are scripted, and a console
    whose row and cursor are given.  Every call succeeds unless the script
    says otherwise. *)

Record Desktop := {
  foreground : Z;
  class_name : str;
  clipboard_reads : list str;
  held_text : str;
  attach_ok : Z;
  buffer_info_ok : Z;
  cursor : COORD;
  console_row : str
}.

Definition desktop_os : OS Desktop := λ R c,
  match c in call R return Desktop → R * Desktop with
  | GetForegroundWindow => λ d, (foreground d, d)
  | GetClassNameW _ _ => λ d, (class_name d, d)
  | SendInput cInputs _ => λ d, (cInputs, d)
  | PostMessageW _ _ _ _ => λ d, (1, d)
  | OpenClipboard _ => λ d, (1, d)
  | EmptyClipboard => λ d, (1, d)
  | CloseClipboard => λ d, (1, d)
  | GetClipboardData _ => λ d,
    match clipboard_reads d with
    | [] => (0, d)
    | t :: r =>
      (if decide (t = []) then 0 else 77,
       {| foreground := foreground d; class_name := class_name d;
          clipboard_reads := r; held_text := t;
          attach_ok := attach_ok d; buffer_info_ok := buffer_info_ok d;
          cursor := cursor d; console_row := console_row d |})
    end
  | SetClipboardData _ hMem => λ d, (hMem, d)
  | GlobalAlloc _ _ => λ d, (88, d)
  | GlobalLock _ => λ d, (99, d)
  | GlobalUnlock _ => λ d, (1, d)
  | wstring_at _ => λ d, (held_text d, d)
  | memmove _ _ _ => λ d, (tt, d)
  | GetWindowThreadProcessId _ => λ d, ((11, 4242), d)
  | FreeConsole => λ d, (1, d)
  | AttachConsole _ => λ d, (attach_ok d, d)
  | GetStdHandle _ => λ d, (7, d)
  | GetConsoleScreenBufferInfo _ => λ d,
    ((buffer_info_ok d,
      {| dwSize := {| X := 120; Y := 9001 |};
         dwCursorPosition := cursor d;
         wAttributes := 7;
         srWindow := {| Left := 0; Top := 0; Right := 119; Bottom := 29 |};
         dwMaximumWindowSize := {| X := 120; Y := 30 |} |}), d)
  | ReadConsoleOutputCharacterW _ nLength _ => λ d,
    let row := take (Z.to_nat nLength) (console_row d) in
    ((1, (row, Z.of_nat (length row))), d)
  | sleep _ => λ d, (tt, d)
  end.

(** An ordinary text field whose successive clipboard reads are scripted. *)
Definition text_field (reads : list str) : World Desktop :=
  mkWorld {| foreground := 5; class_name := py "Notepad";
             clipboard_reads := reads; held_text := [];
             attach_ok := 0; buffer_info_ok := 0;
             cursor := {| X := 0; Y := 0 |}; console_row := [] |} [].

(** A modern terminal window, with scripted clipboard reads. *)
Definition terminal_window (reads : list str) : World Desktop :=
  mkWorld {| foreground := 6; class_name := py "CASCADIA_HOSTING_WINDOW_CLASS";
             clipboard_reads := reads; held_text := [];
             attach_ok := 0; buffer_info_ok := 0;
             cursor := {| X := 0; Y := 0 |}; console_row := [] |} [].

(** A legacy console window showing [row] with the cursor at column [x];
    [attach] and [info_ok] are the answers of [AttachConsole] and
    [GetConsoleScreenBufferInfo]. *)
Definition console_window (attach info_ok x : Z) (row : str) : World Desktop :=
  mkWorld {| foreground := 7; class_name := py "ConsoleWindowClass";
             clipboard_reads := []; held_text := [];
             attach_ok := attach; buffer_info_ok := info_ok;
             cursor := {| X := x; Y := 3 |}; console_row := row |} [].

(** ** Reading a batch of key events

    Bit 0 of [dwFlags] is [KEYEVENTF_EXTENDEDKEY], bit 1 [KEYEVENTF_KEYUP]
    and bit 2 [KEYEVENTF_UNICODE]. *)

Definition is_extended (i : INPUT) : bool := Z.testbit (dwFlags (ki i)) 0.
Definition is_key_up (i : INPUT) : bool := Z.testbit (dwFlags (ki i)) 1.
Definition is_unicode (i : INPUT) : bool := Z.testbit (dwFlags (ki i)) 2.

(** The keys held down once a batch has been played on top of the keys
    [held] (most recent first).  A key-down event presses its virtual key.
    A key-up event has to release the key pressed last and still held: a
    batch that releases another key first, or a key that is not held, does
    not play ([None]).  A batch that plays therefore releases its keys in
    the reverse order of their presses. *)
Definition release (vk : Z) (held : list Z) : option (list Z) :=
  match held with
  | k :: r => if decide (k = vk) then Some r else None
  | [] => None
  end.

Fixpoint play (held : list Z) (batch : list INPUT) : option (list Z) :=
  match batch with
  | [] => Some held
  | i :: batch =>
    if is_key_up i
    then held ← release (wVk (ki i)) held; play held batch
    else play (wVk (ki i) :: held) batch
  end.

(** The characters a batch injects: the scan codes of its Unicode key-down
    events; and the characters injected along a log. *)
Definition injected (batch : list INPUT) : str :=
  omap (λ i, if is_unicode i && negb (is_key_up i) then Some (wScan (ki i)) else None)
    batch.

Definition typed (l : list event) : str := sent l ≫= injected.

(** The batch of [send_two_modifier_combo]. *)
Definition two_modifier_batch (mod1_vk mod2_vk key_vk : Z) : list INPUT :=
  let key_flags :=
    if bool_decide (key_vk ∈ ({[0x25; 0x26; 0x27; 0x28; 0x2D; 0x2E; 0x24; 0x23;
                               0x21; 0x22]} : gset Z))
    then 0x0001 else 0 in
  [key_input mod1_vk 0; key_input mod2_vk 0; key_input key_vk key_flags;
   key_input key_vk (Z.lor key_flags 0x0002);
   key_input mod2_vk 0x0002; key_input mod1_vk 0x0002].

(** The clipboard brackets of a log: [true] for an [OpenClipboard], [false]
    for a [CloseClipboard]. *)
Definition clipboard_bracket (e : event) : option bool :=
  match e with
  | @Ev R c =>
    match c with
    | OpenClipboard _ => Some true
    | CloseClipboard => Some false
    | _ => None
    end
  end.

Definition brackets (l : list event) : list bool := omap clipboard_bracket l.

(** ** The border overlay (source lines 37-55, 86-193 and 721-1018)

    The overlay only reads from user32.  One call of its code is run against
    one snapshot of the desktop, a [User32] record holding what each query
    answers; successive calls may see different snapshots.  A Tk window is
    modelled by the attributes the code sets and reads back: geometry,
    background colour and opacity.  [get_foreground_hwnd], which the
    conversion engine above logs as a call, is here read off the snapshot. *)

Module Overlay.
Import PrimFloat.

(** *** Configuration (lines 37-55) *)

Definition KLID_COLORS : gmap Z (str * str) :=
  {[ 0xF0010409 := (py "#8B008B", py "US-Intl");
     0x04090409 := (py "#00CED1", py "US");
     0x04190419 := (py "#DC143C", py "RU") ]}.

Definition LANG_COLORS : gmap Z (str * str) :=
  {[ 0x0409 := (py "#3498db", py "EN");
     0x0419 := (py "#DC143C", py "RU") ]}.

Definition DEFAULT_COLOR : str * str := (py "#7f8c8d", py "??").

Definition BORDER_THICKNESS : Z := 6.

(** The binary64 values of the literals [0.8] and [0.05]. *)
Definition BORDER_OPACITY_OUTER : float := 0x1.999999999999ap-1.
Definition BORDER_OPACITY_INNER : float := 0x1.999999999999ap-5.

Definition SHOW_ALL_EDGES : bool := true.

(** *** Window and monitor queries (lines 81-193) *)

Record RECT := { left : Z; top : Z; right : Z; bottom : Z }.

Record MONITORINFO := {
  cbSize : Z;
  rcMonitor : RECT;
  rcWork : RECT;
  dwFlags : Z
}.

(** A query that fills a structure answers with its return value and the
    structure; [EnumDisplayMonitors] is the list of monitor handles it
    passes to the callback. *)
Record User32 := {
  GetForegroundWindow : Z;
  GetWindowThreadProcessId : Z → Z;
  GetKeyboardLayout : Z → Z;
  GetWindowRect : Z → Z * RECT;
  MonitorFromWindow : Z → Z → Z;
  GetMonitorInfoW : Z → Z * MONITORINFO;
  EnumDisplayMonitors : list Z
}.

Definition get_foreground_hwnd (user32 : User32) : Z := GetForegroundWindow user32.

Definition get_keyboard_layout_for_hwnd (user32 : User32) (hwnd : Z) : str * str :=
  let thread_id := GetWindowThreadProcessId user32 hwnd in
  let hkl := GetKeyboardLayout user32 thread_id in
  let hkl_value := Z.land hkl 0xFFFFFFFF in
  match KLID_COLORS !! hkl_value with
  | Some entry => entry
  | None =>
    let lang_id := Z.land hkl_value 0xFFFF in
    match LANG_COLORS !! lang_id with
    | Some entry => entry
    | None => DEFAULT_COLOR
    end
  end.

Definition get_keyboard_layout (user32 : User32) : str * str :=
  get_keyboard_layout_for_hwnd user32 (get_foreground_hwnd user32).

(** The callback appends the work area of every monitor whose
    [GetMonitorInfoW] succeeds, and always asks for the next monitor. *)
Definition get_all_monitors (user32 : User32) : list (Z * Z * Z * Z) :=
  omap (λ hMonitor,
          let '(ok, info) := GetMonitorInfoW user32 hMonitor in
          if truthy ok
          then
            let work := rcWork info in
            Some (left work, top work, right work, bottom work)
          else None)
       (EnumDisplayMonitors user32).

Definition is_fullscreen (user32 : User32) (hwnd : Z) : bool :=
  if negb (truthy hwnd) then false
  else
    let '(ok, window_rect) := GetWindowRect user32 hwnd in
    if negb (truthy ok) then false
    else
      let MONITOR_DEFAULTTONEAREST := 2 in
      let hMonitor := MonitorFromWindow user32 hwnd MONITOR_DEFAULTTONEAREST in
      if negb (truthy hMonitor) then false
      else
        let '(ok, info) := GetMonitorInfoW user32 hMonitor in
        if negb (truthy ok) then false
        else
          let mon := rcMonitor info in
          let win := window_rect in
          (left win <=? left mon) && (top win <=? top mon) &&
          (right win >=? right mon) && (bottom win >=? bottom mon).

(** *** Border windows (lines 721-821) *)

(** A layer: the geometry [w x h + x + y] of its window, the background of
    its canvas, the window's opacity and the opacity it was created with. *)
Record BorderLayer := {
  geometry : Z * Z * Z * Z;
  bg : str;
  alpha : float;
  base_alpha : float
}.

Definition BorderLayer_init (x y w h : Z) (color : str) (alpha : float) : BorderLayer :=
  {| geometry := (w, h, x, y); bg := color; alpha := alpha; base_alpha := alpha |}.

Definition BorderLayer_set_color (color : str) (self : BorderLayer) : BorderLayer :=
  {| geometry := geometry self; bg := color; alpha := alpha self;
     base_alpha := base_alpha self |}.

Definition BorderLayer_set_alpha (alpha : float) (self : BorderLayer) : BorderLayer :=
  {| geometry := geometry self; bg := bg self; alpha := alpha;
     base_alpha := base_alpha self |}.

(** The four values of [edge]. *)
Inductive Edge := Top | Bottom | Left | Right.

Record BorderWindow := { edge : Edge; layers : list BorderLayer }.

(** A small non-negative Python int as a float, and [range(n)]. *)
Definition float_of_int (i : Z) : float := of_uint63 (Uint63.of_Z i).

Definition range (n : Z) : list Z := seqZ 0 n.

Definition BorderWindow_init (edge : Edge) (color : str)
    (work_area : Z * Z * Z * Z) : BorderWindow :=
  let '(work_left, work_top, work_right, work_bottom) := work_area in
  let work_w := work_right - work_left in
  let work_h := work_bottom - work_top in
  {| edge := edge;
     layers :=
       (λ i,
          let '(x, y, w, h, t) :=
            match edge with
            | Top =>
              (work_left, work_top + i, work_w, 1,
               (float_of_int i / float_of_int (Z.max 1 (BORDER_THICKNESS - 1)))%float)
            | Bottom =>
              (work_left, work_bottom - BORDER_THICKNESS + i, work_w, 1,
               (1 - float_of_int i / float_of_int (Z.max 1 (BORDER_THICKNESS - 1)))%float)
            | Left =>
              (work_left + i, work_top, 1, work_h,
               (float_of_int i / float_of_int (Z.max 1 (BORDER_THICKNESS - 1)))%float)
            | Right =>
              (work_right - BORDER_THICKNESS + i, work_top, 1, work_h,
               (1 - float_of_int i / float_of_int (Z.max 1 (BORDER_THICKNESS - 1)))%float)
            end in
          let alpha :=
            (BORDER_OPACITY_OUTER + t * (BORDER_OPACITY_INNER - BORDER_OPACITY_OUTER))%float in
          BorderLayer_init x y w h color alpha)
       <$> range BORDER_THICKNESS |}.

Definition BorderWindow_set_color (color : str) (self : BorderWindow) : BorderWindow :=
  {| edge := edge self; layers := BorderLayer_set_color color <$> layers self |}.

Definition BorderWindow_set_visible (visible : bool) (self : BorderWindow) : BorderWindow :=
  {| edge := edge self;
     layers :=
       (λ layer,
          let alpha := if visible then base_alpha layer else 0%float in
          BorderLayer_set_alpha alpha layer) <$> layers self |}.

(** *** The indicator (lines 824-1018) *)

(** The tray icon: the fill colour of its image and its title. *)
Record TrayIcon := { icon : str; title : str }.

Record LayoutIndicator := {
  borders : list BorderWindow;
  current_color : option str;
  current_name : option str;
  running : bool;
  tray_icon : option TrayIcon;
  borders_visible : bool;
  fullscreen_hidden : bool;
  current_monitors : option (list (Z * Z * Z * Z))
}.

(** [a or b] on an optional string. *)
Definition or_else (a : option str) (b : str) : str :=
  if nonempty a then text_of a else b.

Definition _create_borders (user32 : User32) (self : LayoutIndicator) : LayoutIndicator :=
  let edges := if SHOW_ALL_EDGES then [Top; Bottom; Left; Right] else [Bottom] in
  let monitors := get_all_monitors user32 in
  let color := or_else (current_color self) DEFAULT_COLOR.1 in
  {| borders :=
       monitors ≫= λ work_area,
         (λ edge,
            let border := BorderWindow_init edge color work_area in
            if negb (borders_visible self) || fullscreen_hidden self
            then BorderWindow_set_visible false border
            else border) <$> edges;
     current_color := current_color self;
     current_name := current_name self;
     running := running self;
     tray_icon := tray_icon self;
     borders_visible := borders_visible self;
     fullscreen_hidden := fullscreen_hidden self;
     current_monitors := Some monitors |}.

Definition set_fullscreen_hidden (hidden : bool) (self : LayoutIndicator) : LayoutIndicator :=
  {| borders := borders self;
     current_color := current_color self;
     current_name := current_name self;
     running := running self;
     tray_icon := tray_icon self;
     borders_visible := borders_visible self;
     fullscreen_hidden := hidden;
     current_monitors := current_monitors self |}.

Definition set_borders (borders : list BorderWindow) (self : LayoutIndicator) : LayoutIndicator :=
  {| borders := borders;
     current_color := current_color self;
     current_name := current_name self;
     running := running self;
     tray_icon := tray_icon self;
     borders_visible := borders_visible self;
     fullscreen_hidden := fullscreen_hidden self;
     current_monitors := current_monitors self |}.

Definition _create_tray_image (color : str) : str := color.

Definition _update_tray_icon (color name : str) (self : LayoutIndicator) : LayoutIndicator :=
  match tray_icon self with
  | Some _ =>
    {| borders := borders self;
       current_color := current_color self;
       current_name := current_name self;
       running := running self;
       tray_icon := Some {| icon := _create_tray_image color;
                            title := py "Layout: " ++ name |};
       borders_visible := borders_visible self;
       fullscreen_hidden := fullscreen_hidden self;
       current_monitors := current_monitors self |}
  | None => self
  end.

Section Indicator.
Variable HAS_TRAY : bool.

Definition _check_layout (user32 : User32) (self : LayoutIndicator) : LayoutIndicator :=
  if negb (running self) then self
  else
    let monitors := get_all_monitors user32 in
    let self :=
      if bool_decide (Some monitors ≠ current_monitors self)
      then _create_borders user32 self
      else self in
    let hwnd := get_foreground_hwnd user32 in
    let fullscreen := is_fullscreen user32 hwnd in
    let self :=
      if fullscreen && negb (fullscreen_hidden self)
      then
        let self := set_fullscreen_hidden true self in
        set_borders (BorderWindow_set_visible false <$> borders self) self
      else if negb fullscreen && fullscreen_hidden self
      then
        let self := set_fullscreen_hidden false self in
        if borders_visible self
        then set_borders (BorderWindow_set_visible true <$> borders self) self
        else self
      else self in
    let '(color, name) := get_keyboard_layout_for_hwnd user32 hwnd in
    if bool_decide (Some color ≠ current_color self)
    then
      let self :=
        {| borders := BorderWindow_set_color color <$> borders self;
           current_color := Some color;
           current_name := Some name;
           running := running self;
           tray_icon := tray_icon self;
           borders_visible := borders_visible self;
           fullscreen_hidden := fullscreen_hidden self;
           current_monitors := current_monitors self |} in
      if bool_decide (is_Some (tray_icon self)) && HAS_TRAY
      then _update_tray_icon color name self
      else self
    else self.

Definition toggle_borders (self : LayoutIndicator) : LayoutIndicator :=
  let self :=
    {| borders := borders self;
       current_color := current_color self;
       current_name := current_name self;
       running := running self;
       tray_icon := tray_icon self;
       borders_visible := negb (borders_visible self);
       fullscreen_hidden := fullscreen_hidden self;
       current_monitors := current_monitors self |} in
  if negb (fullscreen_hidden self)
  then set_borders (BorderWindow_set_visible (borders_visible self) <$> borders self) self
  else self.

Definition on_quit (self : LayoutIndicator) : LayoutIndicator :=
  {| borders := borders self;
     current_color := current_color self;
     current_name := current_name self;
     running := false;
     tray_icon := tray_icon self;
     borders_visible := borders_visible self;
     fullscreen_hidden := fullscreen_hidden self;
     current_monitors := current_monitors self |}.

Definition _setup_tray (self : LayoutIndicator) : LayoutIndicator :=
  let image := _create_tray_image (or_else (current_color self) DEFAULT_COLOR.1) in
  {| borders := borders self;
     current_color := current_color self;
     current_name := current_name self;
     running := running self;
     tray_icon := Some {| icon := image;
                          title := py "Layout: " ++ or_else (current_name self) (py "?") |};
     borders_visible := borders_visible self;
     fullscreen_hidden := fullscreen_hidden self;
     current_monitors := current_monitors self |}.

Definition __init__ (user32 : User32) : LayoutIndicator :=
  let self :=
    {| borders := [];
       current_color := None;
       current_name := None;
       running := true;
       tray_icon := None;
       borders_visible := true;
       fullscreen_hidden := false;
       current_monitors := None |} in
  let self := _create_borders user32 self in
  let self := _check_layout user32 self in
  if HAS_TRAY then _setup_tray self else self.

(** What happens to the indicator after its construction: the timer runs
    [_check_layout] against the desktop of that moment, the tray menu runs
    [toggle_borders] or [on_quit]; each call runs to its end before the
    next. *)
Inductive Event :=
  | Timer (user32 : User32)
  | ToggleBorders
  | Exit.

Definition handle (self : LayoutIndicator) (e : Event) : LayoutIndicator :=
  match e with
  | Timer user32 => _check_layout user32 self
  | ToggleBorders => toggle_borders self
  | Exit => on_quit self
  end.

Definition after (user32 : User32) (events : list Event) : LayoutIndicator :=
  foldl handle (__init__ user32) events.
End Indicator.

(** *** The steps of [_check_layout]

    The source writes the timer callback as one method.  The definitions
    below name its three steps (monitor change, lines 885-888; fullscreen
    change, lines 890-902; layout change, lines 904-915) so that properties
    can be proved one step at a time; [check_layout_steps] further down shows
    that the method is their sequence. *)

Definition refresh_borders (user32 : User32) (self : LayoutIndicator) : LayoutIndicator :=
  let monitors := get_all_monitors user32 in
  if bool_decide (Some monitors ≠ current_monitors self)
  then _create_borders user32 self
  else self.

Definition track_fullscreen (fullscreen : bool) (self : LayoutIndicator) : LayoutIndicator :=
  if fullscreen && negb (fullscreen_hidden self)
  then
    let self := set_fullscreen_hidden true self in
    set_borders (BorderWindow_set_visible false <$> borders self) self
  else if negb fullscreen && fullscreen_hidden self
  then
    let self := set_fullscreen_hidden false self in
    if borders_visible self
    then set_borders (BorderWindow_set_visible true <$> borders self) self
    else self
  else self.

Definition track_layout (HAS_TRAY : bool) (layout : str * str)
    (self : LayoutIndicator) : LayoutIndicator :=
  let '(color, name) := layout in
  if bool_decide (Some color ≠ current_color self)
  then
    let self :=
      {| borders := BorderWindow_set_color color <$> borders self;
         current_color := Some color;
         current_name := Some name;
         running := running self;
         tray_icon := tray_icon self;
         borders_visible := borders_visible self;
         fullscreen_hidden := fullscreen_hidden self;
         current_monitors := current_monitors self |} in
    if bool_decide (is_Some (tray_icon self)) && HAS_TRAY
    then _update_tray_icon color name self
    else self
  else self.

(** *** Vocabulary for the properties of the overlay *)

(** The entries of the two colour tables and the default. *)
Definition entries : list (str * str) :=
  [(py "#8B008B", py "US-Intl"); (py "#00CED1", py "US"); (py "#DC143C", py "RU");
   (py "#3498db", py "EN"); DEFAULT_COLOR].

(** Whether the borders are meant to be seen. *)
Definition shown (self : LayoutIndicator) : bool :=
  borders_visible self && negb (fullscreen_hidden self).

(** The borders of a set of monitors: one per monitor and edge, freshly
    made in [color], hidden unless [visible]. *)
Definition borders_for (monitors : list (Z * Z * Z * Z)) (color : str)
    (visible : bool) : list BorderWindow :=
  monitors ≫= λ work_area,
    (λ edge,
       let border := BorderWindow_init edge color work_area in
       if visible then border else BorderWindow_set_visible false border)
    <$> [Top; Bottom; Left; Right].

(** The state of an indicator whose windows, name and tray icon agree with
    its recorded monitors, colour and flags. *)
Definition consistent (HAS_TRAY : bool) (self : LayoutIndicator) : Prop :=
  ∃ monitors,
    current_monitors self = Some monitors ∧
    borders self =
      borders_for monitors (or_else (current_color self) DEFAULT_COLOR.1) (shown self) ∧
    ((current_color self = None ∧ current_name self = None) ∨
     ∃ color name, (color, name) ∈ entries ∧
       current_color self = Some color ∧ current_name self = Some name) ∧
    match tray_icon self with
    | None => True
    | Some tray =>
      HAS_TRAY = true ∧
      tray = {| icon := or_else (current_color self) DEFAULT_COLOR.1;
                title := py "Layout: " ++ or_else (current_name self) (py "?") |}
    end.

(** Once constructed, the indicator has a colour and, exactly when pystray
    was imported, a tray icon; no handler changes that. *)
Definition constructed (HAS_TRAY : bool) (self : LayoutIndicator) : Prop :=
  is_Some (current_color self) ∧ (is_Some (tray_icon self) ↔ HAS_TRAY = true).

(** How far layer [i] of an edge lies from the boundary of the work area. *)
Definition depth (e : Edge) (i : Z) : Z :=
  match e with
  | Top | Left => i
  | Bottom | Right => BORDER_THICKNESS - 1 - i
  end.

(** A desktop with one 1920 x 1080 monitor whose taskbar takes the bottom
    40 rows, and a foreground window with the given layout and rectangle. *)
Definition single_monitor (hkl : Z) (window : RECT) : User32 :=
  {| GetForegroundWindow := 5;
     GetWindowThreadProcessId := λ _, 11;
     GetKeyboardLayout := λ _, hkl;
     GetWindowRect := λ _, (1, window);
     MonitorFromWindow := λ _ _, 1;
     GetMonitorInfoW := λ _,
       (1, {| cbSize := 40;
              rcMonitor := {| left := 0; top := 0; right := 1920; bottom := 1080 |};
              rcWork := {| left := 0; top := 0; right := 1920; bottom := 1040 |};
              dwFlags := 1 |});
     EnumDisplayMonitors := [1] |}.

(** The pixels of a work area; those within [BORDER_THICKNESS] of an
    edge, counted from that edge toward the inside, wherever the opposite
    edge is; those within the span of the work area along an edge; and the
    strip of an edge, the pixels of the work area within [BORDER_THICKNESS]
    of it. *)
Definition in_work_area (work_area : Z * Z * Z * Z) (px py : Z) : Prop :=
  let '(work_left, work_top, work_right, work_bottom) := work_area in
  work_left ≤ px < work_right ∧ work_top ≤ py < work_bottom.

Definition near_edge (e : Edge) (work_area : Z * Z * Z * Z) (px py : Z) : Prop :=
  let '(work_left, work_top, work_right, work_bottom) := work_area in
  match e with
  | Top => work_top ≤ py < work_top + BORDER_THICKNESS
  | Bottom => work_bottom - BORDER_THICKNESS ≤ py < work_bottom
  | Left => work_left ≤ px < work_left + BORDER_THICKNESS
  | Right => work_right - BORDER_THICKNESS ≤ px < work_right
  end.

Definition along_edge (e : Edge) (work_area : Z * Z * Z * Z) (px py : Z) : Prop :=
  let '(work_left, work_top, work_right, work_bottom) := work_area in
  match e with
  | Top | Bottom => work_left ≤ px < work_right
  | Left | Right => work_top ≤ py < work_bottom
  end.

Definition in_strip (e : Edge) (work_area : Z * Z * Z * Z) (px py : Z) : Prop :=
  in_work_area work_area px py ∧ near_edge e work_area px py.

(** A work area at least [BORDER_THICKNESS] pixels deep across an edge. *)
Definition deep_enough (e : Edge) (work_area : Z * Z * Z * Z) : Prop :=
  let '(work_left, work_top, work_right, work_bottom) := work_area in
  match e with
  | Top | Bottom => BORDER_THICKNESS ≤ work_bottom - work_top
  | Left | Right => BORDER_THICKNESS ≤ work_right - work_left
  end.

(** The pixels of a layer's window. *)
Definition covers (layer : BorderLayer) (px py : Z) : Prop :=
  let '(w, h, x, y) := geometry layer in
  x ≤ px < x + w ∧ y ≤ py < y + h.
End Overlay.

(** ** The cost of a run

    The milliseconds passed to [time.sleep] by the calls of a log. *)
Definition sleep_ms (e : event) : Z :=
  match e with
  | @Ev R c =>
    match c with
    | sleep ms => ms
    | _ => 0
    end
  end.

Definition slept (l : list event) : Z := foldr (λ e total, sleep_ms e + total) 0 l.


(** ** Footprints of a computation

    [emits P m]: from any world [m] ends, by returning or by raising, and
    every call it has made satisfies [P]. *)
Definition emits {St A} (P : event → Prop) (m : M St A) : Prop :=
  ∀ w, ∃ r w' l, m w = (r, w') ∧ log w' = log w ++ l ∧ Forall P l.

(** The calls of the clipboard mediator, and those of the console buffer
    reader. *)
Definition clipboard_call (e : event) : bool :=
  match e with
  | @Ev R c =>
    match c with
    | OpenClipboard _ | EmptyClipboard | CloseClipboard | GetClipboardData _
    | SetClipboardData _ _ | GlobalAlloc _ _ | GlobalLock _ | GlobalUnlock _
    | wstring_at _ | memmove _ _ _ => true
    | _ => false
    end
  end.

Definition console_call (e : event) : bool :=
  match e with
  | @Ev R c =>
    match c with
    | GetWindowThreadProcessId _ | FreeConsole | AttachConsole _ | GetStdHandle _
    | GetConsoleScreenBufferInfo _ | ReadConsoleOutputCharacterW _ _ _ => true
    | _ => false
    end
  end.

(** The shortcuts that copy or select and leave the text as it is:
    Ctrl+Insert, Ctrl+Shift+Left and Ctrl+Shift+C. *)
Definition copy_shortcuts : list (list INPUT) :=
  [combo 0x11 0x2D; ctrl_shift_left; two_modifier_batch 0x11 0x10 0x43].

(** A call that posts no message and sends, if anything, one of the copy
    shortcuts. *)
Definition copies_only (e : event) : Prop :=
  posted_message e = None ∧
  ∀ batch, sent_batch e = Some batch → batch ∈ copy_shortcuts.

(** ** Proof automation *)
(** Symbolic execution of foreign calls: name each answer and follow both
    outcomes of every test on it. *)
Ltac run_os :=
  repeat first
    [ progress cbn [os_state log fst snd negb orb]
    | match goal with
      | |- context [?os ?R ?c ?s] =>
        match type of c with
        | call _ =>
          let r := fresh "r" in let s' := fresh "s" in
          destruct (os R c s) as [r s']
        end
      | |- context [truthy ?x] => destruct (truthy x)
      end ].

(** Closes a goal asking for the result, the final world and the calls made
    once execution has reached a value. *)
Ltac run_done :=
  eexists _, _, _; split; [reflexivity|]; cbn [log];
  rewrite <- ?(assoc_L (++)); split; [reflexivity|].

(** * Properties of the layout mapper *)

Lemma EN_CHARS_codepoints :
  EN_CHARS =
  [96; 113; 119; 101; 114; 116; 121; 117; 105; 111; 112; 91; 93; 97; 115;
   100; 102; 103; 104; 106; 107; 108; 59; 39; 122; 120; 99; 118; 98; 110;
   109; 44; 46; 47; 126; 81; 87; 69; 82; 84; 89; 85; 73; 79; 80; 123; 125;
   65; 83; 68; 70; 71; 72; 74; 75; 76; 58; 34; 90; 88; 67; 86; 66; 78; 77;
   60; 62; 63; 64; 35; 36; 94; 38].
Proof. reflexivity. Qed.

Lemma RU_CHARS_codepoints :
  RU_CHARS =
  [1105; 1081; 1094; 1091; 1082; 1077; 1085; 1075; 1096; 1097; 1079; 1093;
   1098; 1092; 1099; 1074; 1072; 1087; 1088; 1086; 1083; 1076; 1078; 1101;
   1103; 1095; 1089; 1084; 1080; 1090; 1100; 1073; 1102; 46; 1025; 1049;
   1062; 1059; 1050; 1045; 1053; 1043; 1064; 1065; 1047; 1061; 1066; 1060;
   1067; 1042; 1040; 1055; 1056; 1054; 1051; 1044; 1046; 1069; 1071; 1063;
   1057; 1052; 1048; 1058; 1068; 1041; 1070; 44; 34; 8470; 59; 58; 63].
Proof. reflexivity. Qed.

Lemma tables_same_length : length EN_CHARS = length RU_CHARS.
Proof. reflexivity. Qed.

Lemma EN_CHARS_NoDup : NoDup EN_CHARS.
Proof. compute_done. Qed.

Lemma RU_CHARS_NoDup : NoDup RU_CHARS.
Proof. compute_done. Qed.

(** The module-level [maketrans] calls do not raise. *)
Lemma EN_TO_RU_built : maketrans EN_CHARS RU_CHARS = Some EN_TO_RU.
Proof. reflexivity. Qed.

Lemma RU_TO_EN_built : maketrans RU_CHARS EN_CHARS = Some RU_TO_EN.
Proof. reflexivity. Qed.

Lemma EN_TO_RU_dict : EN_TO_RU = py_dict (zip EN_CHARS RU_CHARS).
Proof. reflexivity. Qed.

Lemma RU_TO_EN_dict : RU_TO_EN = py_dict (zip RU_CHARS EN_CHARS).
Proof. reflexivity. Qed.

Section PyDict.
Implicit Types (items : list (Z * Z)) (d : gmap Z Z).

Lemma py_dict_from_absent items d k :
  k ∉ items.*1 → py_dict_from d items !! k = d !! k.
Proof.
  revert d. induction items as [|[k' v'] items IH]; intros d Hk; [done|].
  cbn in Hk. apply not_elem_of_cons in Hk as [Hne Hk].
  cbn [py_dict_from foldl fst snd]. change (foldl ?f ?a items) with (py_dict_from a items).
  rewrite IH by done. by rewrite lookup_insert_ne.
Qed.

Lemma py_dict_from_present items d k v :
  NoDup items.*1 → (k, v) ∈ items → py_dict_from d items !! k = Some v.
Proof.
  revert d. induction items as [|[k' v'] items IH]; intros d Hnd Hin.
  - by apply elem_of_nil in Hin.
  - cbn in Hnd. apply NoDup_cons in Hnd as [Hfresh Hnd].
    apply elem_of_cons in Hin as [Heq|Hin].
    + injection Heq as -> ->. cbn [py_dict_from foldl fst snd].
      change (foldl ?f ?a items) with (py_dict_from a items).
      rewrite py_dict_from_absent by done. apply lookup_insert_eq.
    + cbn [py_dict_from foldl]. change (foldl ?f ?a items) with (py_dict_from a items).
      by apply IH.
Qed.

Lemma py_dict_absent x y k : k ∉ x → py_dict (zip x y) !! k = None.
Proof.
  intros Hk. unfold py_dict. change (py_dict_from ∅ (zip x y) !! k = None).
  rewrite py_dict_from_absent; [done|].
  intros Hin. apply Hk. apply list_elem_of_fmap in Hin as [[a b] [-> Hin]].
  by apply elem_of_zip_l in Hin.
Qed.

Lemma py_dict_at x y i k v :
  NoDup x → length x = length y →
  x !! i = Some k → y !! i = Some v → py_dict (zip x y) !! k = Some v.
Proof.
  intros Hnd Hlen Hx Hy. unfold py_dict.
  change (py_dict_from ∅ (zip x y) !! k = Some v).
  apply py_dict_from_present.
  - rewrite fst_zip by lia. done.
  - apply list_elem_of_lookup. exists i.
    rewrite lookup_zip_with, Hx, Hy. done.
Qed.
End PyDict.

Lemma convert_text_translation s :
  convert_text s = translate (translation (detect_layout s)) s.
Proof. unfold convert_text. by destruct (detect_layout s). Qed.

Lemma table_NoDup a : NoDup (table a).
Proof. destruct a; [apply EN_CHARS_NoDup | apply RU_CHARS_NoDup]. Qed.

Lemma table_length a : length (table a) = length (table (other a)).
Proof. by destruct a. Qed.

Lemma translation_dict a :
  translation a = py_dict (zip (table a) (table (other a))).
Proof. by destruct a. Qed.

(** A character of a table is sent to the character at the same position of
    the other table. *)
Lemma translation_positional a i c v :
  table a !! i = Some c → table (other a) !! i = Some v →
  translation a !! c = Some v.
Proof.
  intros Hc Hv. rewrite translation_dict.
  eapply py_dict_at; eauto using table_NoDup, table_length.
Qed.

Lemma translation_outside a c : c ∉ table a → translation a !! c = None.
Proof. intros Hc. rewrite translation_dict. by apply py_dict_absent. Qed.

Lemma other_involutive a : other (other a) = a.
Proof. by destruct a. Qed.

(** Going through one table and back through the other is the identity on
    the characters of the first. *)
Lemma translation_inverse a c :
  c ∈ table a →
  ∃ v, translation a !! c = Some v ∧ v ∈ table (other a) ∧
       translation (other a) !! v = Some c.
Proof.
  intros [i Hi]%list_elem_of_lookup.
  destruct (lookup_lt_is_Some_2 (table (other a)) i) as [v Hv].
  { rewrite <- table_length. by eapply lookup_lt_Some. }
  exists v. split_and!.
  - by eapply translation_positional.
  - apply list_elem_of_lookup. eauto.
  - eapply translation_positional; [done|]. by rewrite other_involutive.
Qed.

Lemma translate_lookup d s i :
  translate d s !! i = (λ c, default c (d !! c)) <$> s !! i.
Proof. unfold translate. apply list_lookup_fmap. Qed.

Lemma length_translate d s : length (translate d s) = length s.
Proof. unfold translate. apply length_fmap. Qed.

Lemma translate_into_other a s :
  Forall (.∈ table a) s → Forall (.∈ table (other a)) (translate (translation a) s).
Proof.
  intros Hs. unfold translate. apply Forall_fmap.
  eapply Forall_impl; [exact Hs|]. intros c Hc. cbn.
  destruct (translation_inverse a c Hc) as (v & -> & Hv & _). done.
Qed.

Lemma translate_there_and_back a s :
  Forall (.∈ table a) s →
  translate (translation (other a)) (translate (translation a) s) = s.
Proof.
  induction 1 as [|c s Hc Hs IH]; [done|].
  unfold translate in *. cbn. rewrite IH. f_equal.
  destruct (translation_inverse a c Hc) as (v & -> & _ & Hback).
  cbn. by rewrite Hback.
Qed.

(** *** Counting *)

Lemma char_in_true c t : char_in c t = true ↔ c ∈ t.
Proof. unfold char_in. apply bool_decide_eq_true. Qed.

Lemma py_sum_ones {A} (l : list A) (a : Z) :
  foldl Z.add a ((λ _, 1) <$> l) = a + Z.of_nat (length l).
Proof.
  revert a. induction l as [|x l IH]; intros a; cbn [fmap list_fmap foldl length].
  - lia.
  - rewrite IH. lia.
Qed.

Lemma count_chars_occurrences t s :
  count_chars t s = Z.of_nat (occurrences t s).
Proof.
  unfold count_chars, py_sum. rewrite py_sum_ones.
  induction s as [|c s IH]; [done|].
  cbn [List.filter occurrences]. unfold char_in at 1.
  destruct (decide (c ∈ t)) as [Hc|Hc].
  - rewrite bool_decide_eq_true_2 by done. cbn [length]. lia.
  - rewrite bool_decide_eq_false_2 by done. lia.
Qed.

Lemma detect_layout_occurrences s :
  detect_layout s =
  if decide (occurrences RU_CHARS s ≤ occurrences EN_CHARS s)%nat then en else ru.
Proof.
  unfold detect_layout. rewrite !count_chars_occurrences.
  destruct (decide _) as [H|H].
  - rewrite (proj2 (Z.geb_le _ _)); [done|lia].
  - destruct (Z.geb_spec (Z.of_nat (occurrences EN_CHARS s))
                (Z.of_nat (occurrences RU_CHARS s))); [lia|done].
Qed.

Lemma occurrences_le t s : (occurrences t s ≤ length s)%nat.
Proof. induction s; cbn; [lia|]. case_decide; lia. Qed.

Lemma occurrences_all t s : Forall (.∈ t) s ↔ occurrences t s = length s.
Proof.
  induction s as [|c s IH]; cbn; [by split; [|constructor]|].
  pose proof (occurrences_le t s). rewrite Forall_cons. case_decide.
  - rewrite IH. split; [intros [_ ?]; lia | intros ?; split; [done|lia]].
  - split; [by intros [? _]|lia].
Qed.

Lemma occurrences_none t s : Forall (.∉ t) s → occurrences t s = 0%nat.
Proof.
  induction 1 as [|c s Hc Hs IH]; cbn; [done|].
  rewrite decide_False by done. lia.
Qed.

Lemma detect_layout_pure_en s : Forall (.∈ EN_CHARS) s → detect_layout s = en.
Proof.
  intros Hs%occurrences_all. rewrite detect_layout_occurrences.
  pose proof (occurrences_le RU_CHARS s). rewrite decide_True; [done|lia].
Qed.

(** A string of RU-table characters is detected as RU unless every one of
    its characters is in the EN table too. *)
Lemma detect_layout_pure_ru s :
  Forall (.∈ RU_CHARS) s → detect_layout s = ru ∨ Forall (.∈ EN_CHARS) s.
Proof.
  intros Hs%occurrences_all. rewrite detect_layout_occurrences.
  case_decide as Hle; [right|by left].
  apply occurrences_all. pose proof (occurrences_le EN_CHARS s). lia.
Qed.

Lemma detect_layout_pure a s :
  Forall (.∈ table a) s → detect_layout s = a ∨ Forall (.∈ table (other a)) s.
Proof.
  destruct a; cbn [table other]; intros Hs.
  - left. exact (detect_layout_pure_en s Hs).
  - exact (detect_layout_pure_ru s Hs).
Qed.

Lemma length_convert_text s : length (convert_text s) = length s.
Proof. rewrite convert_text_translation. apply length_translate. Qed.

Lemma shared_chars_spec c : c ∈ EN_CHARS ∧ c ∈ RU_CHARS ↔ c ∈ shared_chars.
Proof.
  split.
  - intros [Hen Hru]. revert c Hen Hru.
    apply (proj1 (Forall_forall (λ c, c ∈ RU_CHARS → c ∈ shared_chars) EN_CHARS)).
    compute_done.
  - revert c.
    apply (proj1 (Forall_forall (λ c, c ∈ EN_CHARS ∧ c ∈ RU_CHARS) shared_chars)).
    compute_done.
Qed.

Example detect_ghbdtn : detect_layout (py "ghbdtn") = en.
Proof. reflexivity. Qed.

Example convert_ghbdtn : convert_text (py "ghbdtn") = py "привет".
Proof. reflexivity. Qed.

Example convert_mixed : convert_text (py "hi мир 42") = py "hi vbh 42".
Proof. reflexivity. Qed.

(** C5.  [detect_layout] answers EN exactly when at least as many characters
    of the text are in the EN table as in the RU table, and RU otherwise; the
    empty text and any text without table characters are therefore EN. *)
Theorem detect_layout_tie_break (text : str) :
  (((occurrences EN_CHARS text) ≥ (occurrences RU_CHARS text))%nat →
     detect_layout text = en)
  ∧ ((occurrences EN_CHARS text < occurrences RU_CHARS text)%nat →
     detect_layout text = ru)
  ∧ detect_layout [] = en
  ∧ (Forall (λ c, (c ∉ EN_CHARS) ∧ (c ∉ RU_CHARS)) text → detect_layout text = en).
Proof.
  rewrite detect_layout_occurrences. split_and!.
  - intros H. by rewrite decide_True by lia.
  - intros H. by rewrite decide_False by lia.
  - reflexivity.
  - intros H.
    rewrite (occurrences_none RU_CHARS), (occurrences_none EN_CHARS); [done|..].
    + eapply Forall_impl; [exact H|]. by intros c [? _].
    + eapply Forall_impl; [exact H|]. by intros c [_ ?].
Qed.

Lemma detect_layout_tie_break_witness :
  let text := py "12 + 3 = 15!" in
  Forall (λ c, (c ∉ EN_CHARS) ∧ (c ∉ RU_CHARS)) text ∧ detect_layout text = en.
Proof.
  intros text.
  assert (H : Forall (λ c, (c ∉ EN_CHARS) ∧ (c ∉ RU_CHARS)) text) by compute_done.
  split; [exact H|].
  exact (proj2 (proj2 (proj2 (detect_layout_tie_break text))) H).
Defined.

(** C3, as stated, fails: the slash is an EN-table character, it converts to
    the full stop, and the full stop (present in both tables) is detected as
    EN again and converts to the Cyrillic letter yu. *)
Lemma round_trip_fails_on_slash :
  let s := py "/" in
  Forall (.∈ EN_CHARS) s ∧ convert_text s = py "." ∧
  convert_text (convert_text s) = py "ю" ∧ convert_text (convert_text s) ≠ s.
Proof. cbv zeta. compute_done. Qed.

(** C3, amended.  For a string drawn from one table only, converting twice
    gives the string back whenever [detect_layout] classifies the converted
    text differently from the original. *)
Theorem convert_text_round_trip (s : str) :
  Forall (.∈ EN_CHARS) s ∨ Forall (.∈ RU_CHARS) s →
  detect_layout (convert_text s) ≠ detect_layout s →
  convert_text (convert_text s) = s.
Proof.
  assert (Hgen : ∀ a, Forall (.∈ table a) s → detect_layout s = a →
            detect_layout (convert_text s) ≠ detect_layout s →
            convert_text (convert_text s) = s).
  { intros a Hs Ha Hflip.
    rewrite (convert_text_translation (convert_text s)).
    assert (detect_layout (convert_text s) = other a) as ->.
    { rewrite Ha in Hflip. destruct a, (detect_layout (convert_text s)); done. }
    rewrite convert_text_translation, Ha.
    by apply translate_there_and_back. }
  intros [Hen|Hru] Hflip.
  - apply (Hgen en); [done|by apply detect_layout_pure_en|done].
  - destruct (detect_layout_pure_ru s Hru) as [Hd|Hen].
    + by apply (Hgen ru).
    + apply (Hgen en); [done|by apply detect_layout_pure_en|done].
Qed.

Lemma convert_text_round_trip_witness :
  let s := py "ghbdtn" in
  (Forall (.∈ EN_CHARS) s ∨ Forall (.∈ RU_CHARS) s) ∧
  detect_layout (convert_text s) ≠ detect_layout s ∧
  convert_text (convert_text s) = s.
Proof.
  intros s.
  assert (H1 : Forall (.∈ EN_CHARS) s ∨ Forall (.∈ RU_CHARS) s)
    by (left; compute_done).
  assert (H2 : detect_layout (convert_text s) ≠ detect_layout s) by compute_done.
  exact (conj H1 (conj H2 (convert_text_round_trip s H1 H2))).
Defined.

(** C4, as stated, fails: the question mark is an RU-table character, at
    position 72 of that table, where the EN table has the ampersand; but the
    one-character string is detected as EN by the tie-break and converted
    through the EN-to-RU table, to a comma. *)
Lemma positional_mapping_fails_on_question_mark :
  let s := py "?" in
  Forall (.∈ table ru) s ∧
  s !! 0%nat = table ru !! 72%nat ∧
  table (other ru) !! 72%nat = Some 38 ∧
  convert_text s !! 0%nat = Some 44 ∧
  convert_text s !! 0%nat ≠ table (other ru) !! 72%nat.
Proof. cbv zeta. compute_done. Qed.

(** C4, amended.  [convert_text] keeps the length of every string and leaves
    every character outside the detected table in place; for a string drawn
    from the table of the layout that [detect_layout] selects for it, each
    character goes to the character at the same position of the other
    table.  A string of EN-table characters is always detected as EN; a
    string of RU-table characters is detected as RU unless all its characters
    are among the shared punctuation. *)
Theorem convert_text_positional (s : str) :
  length (convert_text s) = length s
  ∧ (∀ i c, s !! i = Some c → c ∉ table (detect_layout s) →
       convert_text s !! i = Some c)
  ∧ (∀ a, Forall (.∈ table a) s → detect_layout s = a →
       ∀ i c, s !! i = Some c →
         ∃ j, table a !! j = Some c ∧
              convert_text s !! i = table (other a) !! j)
  ∧ (Forall (.∈ EN_CHARS) s → detect_layout s = en)
  ∧ (Forall (.∈ RU_CHARS) s →
       detect_layout s = ru ∨ Forall (.∈ shared_chars) s).
Proof.
  split_and!.
  - apply length_convert_text.
  - intros i c Hi Hc. rewrite convert_text_translation, translate_lookup, Hi.
    cbn. by rewrite translation_outside.
  - intros a Hs Ha i c Hi.
    assert (Hc : c ∈ table a) by exact (Forall_lookup_1 _ _ _ _ Hs Hi).
    apply list_elem_of_lookup in Hc as [j Hj]. exists j. split; [done|].
    destruct (lookup_lt_is_Some_2 (table (other a)) j) as [v Hv].
    { rewrite <- table_length. by eapply lookup_lt_Some. }
    rewrite convert_text_translation, Ha, translate_lookup, Hi, Hv. cbn.
    by rewrite (translation_positional a j c v).
  - apply detect_layout_pure_en.
  - intros Hru. destruct (detect_layout_pure_ru s Hru) as [?|Hen]; [by left|right].
    apply Forall_forall. intros c [k Hk]%list_elem_of_lookup.
    apply shared_chars_spec.
    split; [exact (Forall_lookup_1 _ _ _ _ Hen Hk)|exact (Forall_lookup_1 _ _ _ _ Hru Hk)].
Qed.

Lemma convert_text_positional_witness :
  let s := py "руддш" in
  Forall (.∈ table ru) s ∧ detect_layout s = ru ∧
  ∃ j, table ru !! j = Some 1088 ∧ convert_text s !! 0%nat = table (other ru) !! j.
Proof.
  intros s.
  assert (H1 : Forall (.∈ table ru) s) by compute_done.
  assert (H2 : detect_layout s = ru) by reflexivity.
  assert (H3 : s !! 0%nat = Some 1088) by reflexivity.
  exact (conj H1 (conj H2
    (proj1 (proj2 (proj2 (convert_text_positional s))) ru H1 H2 0%nat 1088 H3))).
Defined.

(** C10.  The two tables share exactly six punctuation characters (full
    stop, comma, semicolon, colon, question mark and double quote); each of
    them counts for both alphabets, so a string made
    of them only is detected as EN by the tie-break and rewritten through the
    EN-to-RU table, which changes every one of its characters. *)
Theorem shared_punctuation_converts_as_en (s : str) :
  (∀ c, c ∈ EN_CHARS ∧ c ∈ RU_CHARS ↔ c ∈ py ".,;:?" ++ [dquote])
  ∧ (Forall (.∈ shared_chars) s →
       count_chars EN_CHARS s = Z.of_nat (length s)
       ∧ count_chars RU_CHARS s = Z.of_nat (length s)
       ∧ detect_layout s = en
       ∧ convert_text s = translate EN_TO_RU s
       ∧ ∀ i c, s !! i = Some c → convert_text s !! i ≠ Some c)
  ∧ convert_text (py ".") = py "ю".
Proof.
  split_and!; [apply shared_chars_spec| |reflexivity].
  intros Hs.
  assert (Hen : Forall (.∈ EN_CHARS) s).
  { eapply Forall_impl; [exact Hs|]. intros c Hc. by apply shared_chars_spec in Hc as []. }
  assert (Hru : Forall (.∈ RU_CHARS) s).
  { eapply Forall_impl; [exact Hs|]. intros c Hc. by apply shared_chars_spec in Hc as []. }
  assert (Hd : detect_layout s = en) by by apply detect_layout_pure_en.
  split_and!.
  - rewrite count_chars_occurrences. f_equal. by apply occurrences_all.
  - rewrite count_chars_occurrences. f_equal. by apply occurrences_all.
  - done.
  - by rewrite convert_text_translation, Hd.
  - intros i c Hi. rewrite convert_text_translation, Hd, translate_lookup, Hi.
    assert (Hc : c ∈ shared_chars) by exact (Forall_lookup_1 _ _ _ _ Hs Hi).
    clear -Hc. revert c Hc.
    apply (proj1 (Forall_forall
      (λ c, (λ c, default c (EN_TO_RU !! c)) <$> Some c ≠ Some c) shared_chars)).
    compute_done.
Qed.

Lemma shared_punctuation_converts_as_en_witness :
  let s := py "?.," in
  Forall (.∈ shared_chars) s ∧ detect_layout s = en ∧
  convert_text s = translate EN_TO_RU s.
Proof.
  intros s.
  assert (H : Forall (.∈ shared_chars) s) by compute_done.
  pose proof (proj1 (proj2 (shared_punctuation_converts_as_en s)) H) as R.
  exact (conj H (conj (proj1 (proj2 (proj2 R))) (proj1 (proj2 (proj2 (proj2 R)))))).
Defined.

Section EngineFacts.
Context {St : Type} (os : OS St).
Implicit Types (w : World St) (l : list event).

Lemma run_bind {A B} (m : M St A) (f : A → M St B) w a w' :
  m w = (Ok a, w') → (m ≫= f) w = f a w'.
Proof. intros H. unfold mbind, M_bind. by rewrite H. Qed.

Lemma run_bind_raise {A B} (m : M St A) (f : A → M St B) w e w' :
  m w = (Raise e, w') → (m ≫= f) w = (Raise e, w').
Proof. intros H. unfold mbind, M_bind. by rewrite H. Qed.

Lemma run_bind_assoc {A B C} (m : M St A) (f : A → M St B) (g : B → M St C) w :
  ((m ≫= f) ≫= g) w = (m ≫= (λ a, f a ≫= g)) w.
Proof. unfold mbind, M_bind. by destruct (m w) as [[a|e] w']. Qed.

Lemma logs_ret {A} (a : A) : logs (mret a : M St A) [].
Proof. intros w. exists a, w. by rewrite app_nil_r. Qed.

Lemma logs_call {R} (c : call R) : logs (os_call os c) [Ev c].
Proof.
  intros w. unfold os_call. destruct (os R c (os_state w)) as [r s].
  by exists r, (mkWorld s (log w ++ [Ev c])).
Qed.

Lemma logs_bind {A B} (m : M St A) (f : A → M St B) l1 l2 :
  logs m l1 → (∀ a, logs (f a) l2) → logs (m ≫= f) (l1 ++ l2).
Proof.
  intros Hm Hf w. destruct (Hm w) as (a & w1 & Hrun & Hlog).
  destruct (Hf a w1) as (b & w2 & Hrun2 & Hlog2).
  exists b, w2. split.
  - by rewrite (run_bind _ _ _ _ _ Hrun).
  - by rewrite Hlog2, Hlog, (assoc_L (++)).
Qed.

Lemma logs_for {A} (items : list A) (body : A → M St unit) (calls : A → list event) :
  (∀ a, logs (body a) (calls a)) → logs (for_ items body) (items ≫= calls).
Proof.
  intros Hbody. induction items as [|a items IH]; cbn [for_].
  - apply logs_ret.
  - change ((a :: items) ≫= calls) with (calls a ++ (items ≫= calls)).
    apply logs_bind; [apply Hbody|]. intros _. exact IH.
Qed.

Lemma logs_bind_ret {A B} (m : M St A) (g : A → B) l :
  logs m l → logs (m ≫= λ a, mret (g a)) l.
Proof.
  intros Hm. rewrite <- (app_nil_r l).
  apply logs_bind; [done|]. intros a. apply logs_ret.
Qed.

Lemma logs_seq {A B} (m : M St A) (k : M St B) l1 l2 :
  logs m l1 → logs k l2 → logs (m;; k) (l1 ++ l2).
Proof. intros Hm Hk. by apply logs_bind. Qed.

(** *** What the synthetic input driver sends *)

Lemma logs_send_input_keys keys :
  logs (send_input_keys os keys)
    [Ev (SendInput (Z.of_nat (length keys)) ((λ k, key_input k.1 k.2) <$> keys))].
Proof. unfold send_input_keys. apply logs_bind_ret, logs_call. Qed.

Lemma logs_send_key_press vk :
  logs (send_key_press os vk) [Ev (SendInput 2 (key_press vk))].
Proof. exact (logs_send_input_keys [(vk, 0); (vk, 0x0002)]). Qed.

Lemma logs_send_key_combo modifier_vk key_vk :
  logs (send_key_combo os modifier_vk key_vk)
    [Ev (SendInput 4 (combo modifier_vk key_vk))].
Proof.
  exact (logs_send_input_keys
    [(modifier_vk, 0); (key_vk, 0); (key_vk, 0x0002); (modifier_vk, 0x0002)]).
Qed.

Lemma logs_send_ctrl_key key_vk :
  logs (send_ctrl_key os key_vk) [Ev (SendInput 4 (combo 0x11 key_vk))].
Proof. apply logs_send_key_combo. Qed.

Lemma logs_select_previous_word :
  logs (send_two_modifier_combo os 0x11 0x10 0x25) [Ev (SendInput 6 ctrl_shift_left)].
Proof.
  exact (logs_send_input_keys
    [(0x11, 0); (0x10, 0); (0x25, 0x0001); (0x25, 0x0003);
     (0x10, 0x0002); (0x11, 0x0002)]).
Qed.

Lemma backspace_calls_seq k n :
  seq k n ≫= (λ _, [Ev (SendInput 2 backspace_press); Ev (sleep 10)])
  = backspace_calls n.
Proof.
  unfold backspace_calls. revert k. induction n as [|n IH]; intros k; [done|].
  cbn [seq replicate].
  transitivity ([Ev (SendInput 2 backspace_press); Ev (sleep 10)] ++
    (seq (S k) n ≫= (λ _, [Ev (SendInput 2 backspace_press); Ev (sleep 10)])));
    [reflexivity|].
  rewrite (IH (S k)). reflexivity.
Qed.

Lemma logs_backspace_loop n :
  logs (for_ (seq 0 n) (λ _, send_key_press os 0x08;; os_call os (sleep 10)))
    (backspace_calls n).
Proof.
  rewrite <- (backspace_calls_seq 0 n). apply logs_for. intros _.
  apply (logs_seq _ _ [_] [_]); [apply logs_send_key_press|apply logs_call].
Qed.

Lemma logs_type_text text : logs (type_text os text) (typing_calls text).
Proof.
  unfold type_text, typing_calls. apply logs_for. intros char.
  apply (logs_seq _ _ [_] [_]); apply logs_call.
Qed.

(** [switch_keyboard_layout] asks for the foreground window and posts the
    layout change request to it, when there is one. *)
Lemma switch_keyboard_layout_run to_lang w :
  ∃ hwnd w',
    switch_keyboard_layout os to_lang w = (Ok tt, w') ∧
    log w' = log w ++ switch_calls hwnd to_lang.
Proof.
  unfold switch_keyboard_layout, get_foreground_hwnd, switch_calls.
  destruct (logs_call GetForegroundWindow w) as (hwnd & w1 & Hrun & Hlog).
  exists hwnd. rewrite (run_bind _ _ _ _ _ Hrun).
  destruct (truthy hwnd).
  - unfold os_call_.
    destruct (logs_bind_ret (os_call os
      (PostMessageW hwnd 0x0050 0 (if decide (to_lang = en) then HKL_EN else HKL_RU)))
      (λ _, tt) _ (logs_call _) w1) as ([] & w2 & Hrun2 & Hlog2).
    exists w2. split; [done|]. rewrite Hlog2, Hlog, <- (assoc_L (++)). done.
  - exists w1. split; [done|]. by rewrite Hlog.
Qed.

(** *** The replacement stage of each path *)

Lemma convert_text_changes_nonempty word : convert_text word ≠ word → word ≠ [].
Proof. by intros H ->. Qed.

Lemma target_layout_other (source_layout : layout) :
  (if decide (source_layout = en) then ru else en) = other source_layout.
Proof. by destruct source_layout. Qed.

Lemma console_replace_run word w :
  convert_text word ≠ word →
  ∃ hwnd' w',
    console_replace os (Some word) w = (Ok true, w') ∧
    log w' = log w ++ backspace_calls (length word) ++ [Ev (sleep 50)]
               ++ typing_calls (convert_text word) ++ [Ev (sleep 50)]
               ++ switch_calls hwnd' (other (detect_layout word)).
Proof.
  intros Hne. pose proof (convert_text_changes_nonempty word Hne) as Hword.
  unfold console_replace.
  replace (nonempty (Some word)) with true by by destruct word.
  cbn [negb text_of default]. rewrite decide_False by done.
  rewrite target_layout_other.
  destruct (logs_backspace_loop (length word) w) as (? & w1 & Hrun1 & Hlog1).
  rewrite (run_bind _ _ _ _ _ Hrun1).
  destruct (logs_call (sleep 50) w1) as (? & w2 & Hrun2 & Hlog2).
  rewrite (run_bind _ _ _ _ _ Hrun2).
  destruct (logs_type_text (convert_text word) w2) as (? & w3 & Hrun3 & Hlog3).
  rewrite (run_bind _ _ _ _ _ Hrun3).
  destruct (logs_call (sleep 50) w3) as (? & w4 & Hrun4 & Hlog4).
  rewrite (run_bind _ _ _ _ _ Hrun4).
  destruct (switch_keyboard_layout_run (other (detect_layout word)) w4)
    as (hwnd' & w5 & Hrun5 & Hlog5).
  rewrite (run_bind _ _ _ _ _ Hrun5).
  exists hwnd', w5. split; [done|].
  rewrite Hlog5, Hlog4, Hlog3, Hlog2, Hlog1, <- !(assoc_L (++)). done.
Qed.

(** *** The clipboard mediator *)

Lemma set_clipboard_text_run text w :
  ∃ r w' l,
    set_clipboard_text os text w = (r, w') ∧ log w' = log w ++ l ∧
    sent l = [] ∧ posted l = [] ∧
    (r = Ok true →
     ∃ text_bytes h_mem p_mem,
       encode_utf_16_le (text ++ [0]) = Some text_bytes ∧
       l = [Ev (OpenClipboard None); Ev EmptyClipboard;
            Ev (GlobalAlloc 0x0002 (Z.of_nat (length text_bytes)));
            Ev (GlobalLock h_mem);
            Ev (memmove p_mem text_bytes (Z.of_nat (length text_bytes)));
            Ev (GlobalUnlock h_mem); Ev (SetClipboardData 13 h_mem);
            Ev CloseClipboard]).
Proof.
  unfold set_clipboard_text.
  destruct (encode_utf_16_le (text ++ [0])) as [text_bytes|].
  - unfold try_finally, os_call_, mbind, M_bind, mret, M_ret, os_call.
    run_os; run_done; (split_and!; [done|done|]); try discriminate.
    intros _. by eexists _, _, _.
  - exists (Raise UnicodeEncodeError), w, [].
    rewrite app_nil_r. by split_and!.
Qed.

Lemma get_clipboard_text_run w :
  ∃ t w' l,
    get_clipboard_text os w = (Ok t, w') ∧ log w' = log w ++ l ∧
    sent l = [] ∧ posted l = [].
Proof.
  unfold get_clipboard_text, try_finally, os_call_, mbind, M_bind, mret, M_ret, os_call.
  run_os; run_done; done.
Qed.

Lemma clear_clipboard_run w :
  ∃ u w' l,
    clear_clipboard os w = (Ok u, w') ∧ log w' = log w ++ l ∧
    sent l = [] ∧ posted l = [].
Proof.
  unfold clear_clipboard, os_call_, mbind, M_bind, mret, M_ret, os_call.
  run_os; run_done; done.
Qed.

Lemma terminal_replace_run word w :
  convert_text word ≠ word →
  ∃ hwnd' w',
    terminal_replace os (Some word) w = (Ok true, w') ∧
    log w' = log w ++ [Ev (SendInput 2 (key_press 0x23)); Ev (sleep 30)]
               ++ backspace_calls (length word) ++ [Ev (sleep 50)]
               ++ typing_calls (convert_text word) ++ [Ev (sleep 50)]
               ++ switch_calls hwnd' (other (detect_layout word)).
Proof.
  intros Hne. pose proof (convert_text_changes_nonempty word Hne) as Hword.
  unfold terminal_replace.
  replace (nonempty (Some word)) with true by by destruct word.
  cbn [negb text_of default]. rewrite decide_False by done.
  rewrite target_layout_other.
  destruct (logs_send_key_press 0x23 w) as (? & wa & Hruna & Hloga).
  rewrite (run_bind _ _ _ _ _ Hruna).
  destruct (logs_call (sleep 30) wa) as (? & wb & Hrunb & Hlogb).
  rewrite (run_bind _ _ _ _ _ Hrunb).
  destruct (logs_backspace_loop (length word) wb) as (? & w1 & Hrun1 & Hlog1).
  rewrite (run_bind _ _ _ _ _ Hrun1).
  destruct (logs_call (sleep 50) w1) as (? & w2 & Hrun2 & Hlog2).
  rewrite (run_bind _ _ _ _ _ Hrun2).
  destruct (logs_type_text (convert_text word) w2) as (? & w3 & Hrun3 & Hlog3).
  rewrite (run_bind _ _ _ _ _ Hrun3).
  destruct (logs_call (sleep 50) w3) as (? & w4 & Hrun4 & Hlog4).
  rewrite (run_bind _ _ _ _ _ Hrun4).
  destruct (switch_keyboard_layout_run (other (detect_layout word)) w4)
    as (hwnd' & w5 & Hrun5 & Hlog5).
  rewrite (run_bind _ _ _ _ _ Hrun5).
  exists hwnd', w5. split; [done|].
  rewrite Hlog5, Hlog4, Hlog3, Hlog2, Hlog1, Hlogb, Hloga, <- !(assoc_L (++)).
  done.
Qed.

(** The Plain replacement: the converted text goes to the clipboard and one
    Ctrl+V pastes it; when the clipboard write fails or raises, nothing is
    sent and nothing is posted. *)
Lemma plain_replace_run text w :
  convert_text text ≠ text →
  ∃ r w' l,
    plain_replace os (Some text) w = (r, w') ∧ log w' = log w ++ l ∧
    ((r = Ok true ∧
      ∃ text_bytes h_mem p_mem hwnd',
        encode_utf_16_le (convert_text text ++ [0]) = Some text_bytes ∧
        l = [Ev (OpenClipboard None); Ev EmptyClipboard;
             Ev (GlobalAlloc 0x0002 (Z.of_nat (length text_bytes)));
             Ev (GlobalLock h_mem);
             Ev (memmove p_mem text_bytes (Z.of_nat (length text_bytes)));
             Ev (GlobalUnlock h_mem); Ev (SetClipboardData 13 h_mem);
             Ev CloseClipboard]
            ++ [Ev (SendInput 4 (combo 0x11 0x56)); Ev (sleep 20)]
            ++ switch_calls hwnd' (other (detect_layout text)))
     ∨ (r ≠ Ok true ∧ sent l = [] ∧ posted l = [])).
Proof.
  intros Hne. pose proof (convert_text_changes_nonempty text Hne) as Htext.
  unfold plain_replace.
  replace (nonempty (Some text)) with true by by destruct text.
  cbn [negb text_of default]. rewrite decide_False by done.
  rewrite target_layout_other.
  destruct (set_clipboard_text_run (convert_text text) w)
    as (r & w1 & l & Hrun & Hlog & Hsent & Hposted & Hok).
  destruct r as [[|]|e].
  - rewrite (run_bind _ _ _ _ _ Hrun). cbn [negb].
    destruct (Hok eq_refl) as (text_bytes & h_mem & p_mem & Henc & ->).
    destruct (logs_send_ctrl_key 0x56 w1) as (? & w2 & Hrun2 & Hlog2).
    rewrite (run_bind _ _ _ _ _ Hrun2).
    destruct (logs_call (sleep 20) w2) as (? & w3 & Hrun3 & Hlog3).
    rewrite (run_bind _ _ _ _ _ Hrun3).
    destruct (switch_keyboard_layout_run (other (detect_layout text)) w3)
      as (hwnd' & w4 & Hrun4 & Hlog4).
    rewrite (run_bind _ _ _ _ _ Hrun4).
    eexists (Ok true), w4, _. split; [done|]. split; [|left; split; [done|]].
    + rewrite Hlog4, Hlog3, Hlog2, Hlog, <- !(assoc_L (++)). reflexivity.
    + by exists text_bytes, h_mem, p_mem, hwnd'.
  - rewrite (run_bind _ _ _ _ _ Hrun). cbn [negb].
    exists (Ok false), w1, l. split; [done|]. split; [done|]. by right.
  - rewrite (run_bind_raise _ _ _ _ _ Hrun).
    exists (Raise e), w1, l. split; [done|]. split; [done|]. by right.
Qed.

(** *** Each path is the sequence of its stages *)

Lemma bind_ext {A B} (m : M St A) (f g : A → M St B) w :
  (∀ a w', f a w' = g a w') → (m ≫= f) w = (m ≫= g) w.
Proof. intros H. unfold mbind, M_bind. destruct (m w) as [[a|e] w']; [apply H|done]. Qed.

Lemma run_ret_bind {A B} (a : A) (f : A → M St B) w : (mret a ≫= f) w = f a w.
Proof. done. Qed.

Lemma convert_in_console_stages hwnd w :
  convert_in_console os hwnd w = (console_acquire os hwnd ≫= console_replace os) w.
Proof.
  unfold convert_in_console, console_acquire.
  rewrite run_bind_assoc. reflexivity.
Qed.

Lemma convert_in_terminal_stages hwnd w :
  convert_in_terminal os hwnd w = (terminal_acquire os ≫= terminal_replace os) w.
Proof.
  unfold convert_in_terminal, terminal_acquire. cbv zeta.
  do 4 (rewrite run_bind_assoc; apply bind_ext; intros ? ?).
  rewrite run_bind_assoc; apply bind_ext; intros word w5.
  destruct (nonempty word); cbn [negb]; [|reflexivity].
  rewrite run_ret_bind. unfold terminal_replace.
  destruct (strip (text_of word)) as [|c stripped]; [reflexivity|].
  cbn [nonempty negb text_of default].
  rewrite (decide_False (P := c :: stripped = [])) by done. reflexivity.
Qed.

Lemma plain_path_stages w :
  (os_call os (sleep 50);;
   clear_clipboard os;;
   send_ctrl_key os 0x2D;;
   os_call os (sleep 80);;
   selected_text ← get_clipboard_text os;
   selected_text ←
     (if negb (nonempty selected_text)
      then
        send_two_modifier_combo os 0x11 0x10 0x25;;
        os_call os (sleep 30);;
        send_ctrl_key os 0x2D;;
        os_call os (sleep 50);;
        get_clipboard_text os
      else mret selected_text);
   plain_replace os selected_text) w
  = (plain_acquire os ≫= plain_replace os) w.
Proof.
  unfold plain_acquire, plain_primary_copy. cbv zeta.
  do 4 (rewrite !run_bind_assoc; apply bind_ext; intros ? ?).
  reflexivity.
Qed.

(** [convert_selected_text] asks for the foreground window, classifies it
    and runs the path of its category. *)
Lemma convert_selected_text_stages w :
  convert_selected_text os w =
  (hwnd ← get_foreground_hwnd os;
   category ← classify os hwnd;
   convert_as os category hwnd) w.
Proof.
  unfold convert_selected_text. apply bind_ext. intros hwnd w1.
  unfold classify. rewrite run_bind_assoc. apply bind_ext.
  intros [] w2.
  - rewrite run_bind_assoc. apply bind_ext. intros [] w3; rewrite run_ret_bind.
    + apply convert_in_console_stages.
    + apply convert_in_terminal_stages.
  - rewrite run_ret_bind. cbv zeta. apply plain_path_stages.
Qed.

Lemma enters_run w0 category hwnd w :
  enters os w0 category hwnd w →
  convert_selected_text os w0 = convert_as os category hwnd w.
Proof.
  intros (wa & Hfg & Hcls). rewrite convert_selected_text_stages.
  rewrite (run_bind _ _ _ _ _ Hfg). by rewrite (run_bind _ _ _ _ _ Hcls).
Qed.

Lemma convert_as_run category hwnd w word w1 :
  acquire os category hwnd w = (Ok word, w1) →
  convert_as os category hwnd w = replace os category word w1.
Proof. intros H. unfold convert_as. by rewrite (run_bind _ _ _ _ _ H). Qed.

(** An unchanged text ends the replacement stage at once. *)
Lemma replace_unchanged category word w :
  convert_text word = word → replace os category (Some word) w = (Ok false, w).
Proof.
  intros Heq.
  destruct category; cbn [replace];
    unfold plain_replace, console_replace, terminal_replace;
    (destruct (nonempty (Some word)); cbn [negb text_of default]; [|done]);
    by rewrite decide_True.
Qed.

(** C6.  On every path, when the converted text equals the acquired text
    the attempt returns false in the very world the acquisition left: no
    call at all is made after the comparison, so no backspace and no
    character injection. *)
Theorem unchanged_text_aborts w0 category hwnd w word w1 :
  enters os w0 category hwnd w →
  acquire os category hwnd w = (Ok (Some word), w1) →
  convert_text word = word →
  convert_selected_text os w0 = (Ok false, w1)
  ∧ replace os category (Some word) w1 = (Ok false, w1)
  ∧ (category = LegacyConsole → convert_in_console os hwnd w = (Ok false, w1))
  ∧ (category = ModernTerminal → convert_in_terminal os hwnd w = (Ok false, w1)).
Proof.
  intros Henter Hacq Heq.
  pose proof (replace_unchanged category word w1 Heq) as Hrep.
  assert (Has : convert_as os category hwnd w = (Ok false, w1))
    by by rewrite (convert_as_run _ _ _ _ _ Hacq).
  split_and!.
  - by rewrite (enters_run _ _ _ _ Henter).
  - done.
  - intros ->. by rewrite convert_in_console_stages.
  - intros ->. by rewrite convert_in_terminal_stages.
Qed.

(** *** Plain acquisition *)

Lemma plain_primary_copy_run w :
  ∃ t w', plain_primary_copy os w = (Ok t, w').
Proof.
  unfold plain_primary_copy. cbv zeta.
  destruct (logs_call (sleep 50) w) as (? & w1 & Hrun1 & _).
  rewrite (run_bind _ _ _ _ _ Hrun1).
  destruct (clear_clipboard_run w1) as (? & w2 & ? & Hrun2 & _).
  rewrite (run_bind _ _ _ _ _ Hrun2).
  destruct (logs_send_ctrl_key 0x2D w2) as (? & w3 & Hrun3 & _).
  rewrite (run_bind _ _ _ _ _ Hrun3).
  destruct (logs_call (sleep 80) w3) as (? & w4 & Hrun4 & _).
  rewrite (run_bind _ _ _ _ _ Hrun4).
  destruct (get_clipboard_text_run w4) as (t & w5 & ? & Hrun5 & _).
  by exists t, w5.
Qed.

Lemma plain_fallback_copy_run w :
  ∃ t w' reading,
    plain_fallback_copy os w = (Ok t, w') ∧
    log w' = log w ++ [Ev (SendInput 6 ctrl_shift_left); Ev (sleep 30);
                       Ev (SendInput 4 (combo 0x11 0x2D)); Ev (sleep 50)]
               ++ reading ∧
    sent reading = [] ∧ posted reading = [].
Proof.
  unfold plain_fallback_copy. cbv zeta.
  destruct (logs_select_previous_word w) as (? & w1 & Hrun1 & Hlog1).
  rewrite (run_bind _ _ _ _ _ Hrun1).
  destruct (logs_call (sleep 30) w1) as (? & w2 & Hrun2 & Hlog2).
  rewrite (run_bind _ _ _ _ _ Hrun2).
  destruct (logs_send_ctrl_key 0x2D w2) as (? & w3 & Hrun3 & Hlog3).
  rewrite (run_bind _ _ _ _ _ Hrun3).
  destruct (logs_call (sleep 50) w3) as (? & w4 & Hrun4 & Hlog4).
  rewrite (run_bind _ _ _ _ _ Hrun4).
  destruct (get_clipboard_text_run w4) as (t & w5 & reading & Hrun5 & Hlog5 & Hs & Hp).
  exists t, w5, reading. split_and!; [done| |done|done].
  rewrite Hlog5, Hlog4, Hlog3, Hlog2, Hlog1, <- !(assoc_L (++)). done.
Qed.

(** C7.  In the Plain path, when the clipboard read after the first copy
    yields no text, the fallback (Ctrl+Shift+Left, Ctrl+Insert, read again)
    runs once; the acquisition returns the first non-empty result, and the
    attempt returns false right after the second read when both are
    empty. *)
Theorem plain_fallback_once w0 hwnd w :
  enters os w0 Plain hwnd w →
  ∃ t1 w1,
    plain_primary_copy os w = (Ok t1, w1) ∧
    (nonempty t1 = true → acquire os Plain hwnd w = (Ok t1, w1)) ∧
    (nonempty t1 = false →
     ∃ t2 w2 reading,
       plain_fallback_copy os w1 = (Ok t2, w2) ∧
       acquire os Plain hwnd w = (Ok t2, w2) ∧
       log w2 = log w1 ++ [Ev (SendInput 6 ctrl_shift_left); Ev (sleep 30);
                           Ev (SendInput 4 (combo 0x11 0x2D)); Ev (sleep 50)]
                  ++ reading ∧
       sent reading = [] ∧
       (nonempty t2 = false → convert_selected_text os w0 = (Ok false, w2))).
Proof.
  intros Henter.
  destruct (plain_primary_copy_run w) as (t1 & w1 & Hrun1).
  exists t1, w1. split; [done|].
  cbn [acquire]. unfold plain_acquire. rewrite (run_bind _ _ _ _ _ Hrun1).
  split.
  - by intros ->.
  - intros Hempty1. rewrite Hempty1. cbn [negb].
    destruct (plain_fallback_copy_run w1) as (t2 & w2 & reading & Hrun2 & Hlog2 & Hs & _).
    exists t2, w2, reading. split_and!; [done|done|done|done|].
    intros Hempty. rewrite (enters_run _ _ _ _ Henter).
    unfold convert_as. cbn [acquire replace]. unfold plain_acquire.
    rewrite run_bind_assoc, (run_bind _ _ _ _ _ Hrun1), Hempty1. cbn [negb].
    rewrite (run_bind _ _ _ _ _ Hrun2).
    unfold plain_replace. by rewrite Hempty.
Qed.

(** *** Console attachment *)

(** After a successful attach with a valid output handle, a failing
    [GetConsoleScreenBufferInfo] or a cursor at column zero ends
    [get_console_last_word] with [None] right after that query: the log
    ends with it, and no [FreeConsole] follows the [AttachConsole]. *)
Lemma get_console_last_word_early_return hwnd w :
  let q1 := os _ (GetWindowThreadProcessId hwnd) (os_state w) in
  let q2 := os _ FreeConsole q1.2 in
  let q3 := os _ (AttachConsole q1.1.2) q2.2 in
  let q4 := os _ (GetStdHandle (-11)) q3.2 in
  let q5 := os _ (GetConsoleScreenBufferInfo q4.1) q4.2 in
  truthy q3.1 = true → truthy q4.1 = true → q4.1 ≠ -1 →
  truthy q5.1.1 = false ∨ X (dwCursorPosition q5.1.2) = 0 →
  get_console_last_word os hwnd w =
    (Ok None,
     mkWorld q5.2
       (log w ++ [Ev (GetWindowThreadProcessId hwnd); Ev FreeConsole;
                  Ev (AttachConsole q1.1.2); Ev (GetStdHandle (-11));
                  Ev (GetConsoleScreenBufferInfo q4.1)])).
Proof.
  unfold get_console_last_word, mbind, M_bind, mret, M_ret, os_call. cbv zeta.
  destruct (os _ (GetWindowThreadProcessId hwnd) (os_state w)) as [[tid pid] s1].
  cbn [fst snd os_state log].
  destruct (os _ FreeConsole s1) as [r2 s2]. cbn [fst snd os_state log].
  destruct (os _ (AttachConsole pid) s2) as [attached s3]. cbn [fst snd os_state log].
  intros ->. cbn [negb os_state log].
  destruct (os _ (GetStdHandle (-11)) s3) as [h_console s4]. cbn [fst snd os_state log].
  intros -> Hvalid. rewrite (proj2 (Z.eqb_neq h_console (-1)) Hvalid).
  cbn [negb orb os_state log].
  destruct (os _ (GetConsoleScreenBufferInfo h_console) s4) as [[ok csbi] s5].
  cbn [fst snd os_state log]. rewrite <- !(assoc_L (++)).
  intros [-> | Hzero]; cbn [negb]; [done|].
  destruct (truthy ok); cbn [negb]; [|done].
  by rewrite (proj2 (Z.eqb_eq _ 0) Hzero).
Qed.

(** *** Classification *)

(** C9.  For a window whose class-name queries are answered [cn] (the
    dispatch asks once, and once more for a console class), the category is LegacyConsole exactly when [cn] is ConsoleWindowClass,
    ModernTerminal exactly when it is one of the two other console
    classes, and Plain for any other name, the empty name of a null or
    invalid handle included; [convert_selected_text] then runs the path of
    that category. *)
Theorem classify_by_class_name hwnd cn w0 w :
  get_foreground_hwnd os w0 = (Ok hwnd, w) →
  (os str (GetClassNameW hwnd 256) (os_state w)).1 = cn →
  (os str (GetClassNameW hwnd 256)
     (os str (GetClassNameW hwnd 256) (os_state w)).2).1 = cn →
  ∃ category w',
    classify os hwnd w = (Ok category, w') ∧
    convert_selected_text os w0 = convert_as os category hwnd w' ∧
    (category = LegacyConsole ↔ cn = py "ConsoleWindowClass") ∧
    (category = ModernTerminal ↔
       cn = py "CASCADIA_HOSTING_WINDOW_CLASS" ∨ cn = py "PseudoConsoleWindow") ∧
    (cn ∉ [py "ConsoleWindowClass"; py "CASCADIA_HOSTING_WINDOW_CLASS";
           py "PseudoConsoleWindow"] → category = Plain) ∧
    (cn = [] → category = Plain).
Proof.
  intros Hfg H1 H2.
  assert (Hrun : ∃ category w',
    classify os hwnd w = (Ok category, w') ∧
    category =
      if bool_decide (cn ∈ [py "ConsoleWindowClass";
                            py "CASCADIA_HOSTING_WINDOW_CLASS";
                            py "PseudoConsoleWindow"])
      then if bool_decide (cn = py "ConsoleWindowClass")
           then LegacyConsole else ModernTerminal
      else Plain).
  { unfold classify, is_console_window, is_classic_console, get_window_class,
      mbind, M_bind, mret, M_ret, os_call.
    destruct (os str (GetClassNameW hwnd 256) (os_state w)) as [c1 s1].
    cbn [fst snd] in H1, H2. subst c1. cbn [os_state log].
    destruct (bool_decide (cn ∈ _)); [|eexists _, _; split; reflexivity].
    cbn [os_state log].
    destruct (os str (GetClassNameW hwnd 256) s1) as [c2 s2].
    cbn [fst] in H2. subst c2. eexists _, _; split; reflexivity. }
  destruct Hrun as (category & w' & Hrun & Hcat).
  exists category, w'. split; [done|]. split.
  { apply enters_run. by exists w. }
  subst category.
  destruct (bool_decide_reflect (cn ∈ [py "ConsoleWindowClass";
    py "CASCADIA_HOSTING_WINDOW_CLASS"; py "PseudoConsoleWindow"])) as [Hin|Hout].
  - destruct (bool_decide_reflect (cn = py "ConsoleWindowClass")) as [Hc|Hc].
    + split_and!; [done| |done|by rewrite Hc].
      split; [done|]. rewrite Hc. by intros [?|?].
    + split_and!; [done| |done|].
      * split; [intros _|done].
        apply elem_of_cons in Hin as [?|Hin]; [done|].
        apply elem_of_cons in Hin as [?|Hin]; [by left|].
        apply list_elem_of_singleton in Hin. by right.
      * intros ->. exfalso. revert Hin. compute_done.
  - split_and!; [|split; [done|]|done|done].
    + split; [done|]. intros ->. exfalso. apply Hout. apply list_elem_of_here.
    + intros [->| ->]; exfalso; apply Hout.
      * apply list_elem_of_further, list_elem_of_here.
      * do 2 apply list_elem_of_further. apply list_elem_of_here.
Qed.

(** *** What the replacement stage sends *)

Lemma sent_app l1 l2 : sent (l1 ++ l2) = sent l1 ++ sent l2.
Proof. apply omap_app. Qed.

Lemma posted_app l1 l2 : posted (l1 ++ l2) = posted l1 ++ posted l2.
Proof. apply omap_app. Qed.

Lemma sent_backspace_calls n : sent (backspace_calls n) = replicate n backspace_press.
Proof.
  unfold backspace_calls. induction n as [|n IH]; [done|].
  cbn [replicate]. change (mjoin (?x :: ?l)) with (x ++ mjoin l).
  rewrite sent_app, IH. done.
Qed.

Lemma posted_backspace_calls n : posted (backspace_calls n) = [].
Proof.
  unfold backspace_calls. induction n as [|n IH]; [done|].
  cbn [replicate]. change (mjoin (?x :: ?l)) with (x ++ mjoin l).
  rewrite posted_app, IH. done.
Qed.

Lemma sent_typing_calls text : sent (typing_calls text) = unicode_press <$> text.
Proof.
  unfold typing_calls. induction text as [|c text IH]; [done|].
  change ((c :: text) ≫= ?f) with (f c ++ (text ≫= f)).
  rewrite sent_app, IH. done.
Qed.

Lemma posted_typing_calls text : posted (typing_calls text) = [].
Proof.
  unfold typing_calls. induction text as [|c text IH]; [done|].
  change ((c :: text) ≫= ?f) with (f c ++ (text ≫= f)).
  rewrite posted_app, IH. done.
Qed.

Lemma sent_switch_calls hwnd to_lang : sent (switch_calls hwnd to_lang) = [].
Proof. unfold switch_calls. by destruct (truthy hwnd). Qed.

Lemma posted_switch_calls hwnd to_lang :
  posted (switch_calls hwnd to_lang) =
  if truthy hwnd
  then [(hwnd, 0x0050, 0, if decide (to_lang = en) then HKL_EN else HKL_RU)]
  else [].
Proof. unfold switch_calls. by destruct (truthy hwnd). Qed.

(** The replacement stage on a text that conversion changes. *)
Lemma replace_changed_run category word w :
  convert_text word ≠ word →
  ∃ r w' l,
    replace os category (Some word) w = (r, w') ∧ log w' = log w ++ l ∧
    match category with
    | LegacyConsole =>
      r = Ok true ∧
      ∃ hwnd',
        l = backspace_calls (length word) ++ [Ev (sleep 50)]
              ++ typing_calls (convert_text word) ++ [Ev (sleep 50)]
              ++ switch_calls hwnd' (other (detect_layout word))
    | ModernTerminal =>
      r = Ok true ∧
      ∃ hwnd',
        l = [Ev (SendInput 2 (key_press 0x23)); Ev (sleep 30)]
              ++ backspace_calls (length word) ++ [Ev (sleep 50)]
              ++ typing_calls (convert_text word) ++ [Ev (sleep 50)]
              ++ switch_calls hwnd' (other (detect_layout word))
    | Plain =>
      (r = Ok true ∧
       ∃ text_bytes h_mem p_mem hwnd',
         encode_utf_16_le (convert_text word ++ [0]) = Some text_bytes ∧
         l = [Ev (OpenClipboard None); Ev EmptyClipboard;
              Ev (GlobalAlloc 0x0002 (Z.of_nat (length text_bytes)));
              Ev (GlobalLock h_mem);
              Ev (memmove p_mem text_bytes (Z.of_nat (length text_bytes)));
              Ev (GlobalUnlock h_mem); Ev (SetClipboardData 13 h_mem);
              Ev CloseClipboard]
             ++ [Ev (SendInput 4 (combo 0x11 0x56)); Ev (sleep 20)]
             ++ switch_calls hwnd' (other (detect_layout word)))
      ∨ (r ≠ Ok true ∧ sent l = [] ∧ posted l = [])
    end.
Proof.
  intros Hne. destruct category; cbn [replace].
  - apply plain_replace_run, Hne.
  - destruct (console_replace_run word w Hne) as (hwnd' & w' & Hrun & Hlog).
    eexists (Ok true), w', _. split; [done|]. split; [done|].
    split; [done|]. by exists hwnd'.
  - destruct (terminal_replace_run word w Hne) as (hwnd' & w' & Hrun & Hlog).
    eexists (Ok true), w', _. split; [done|]. split; [done|].
    split; [done|]. by exists hwnd'.
Qed.

(** C1, amended.  In the LegacyConsole path the replacement presses
    backspace once per character of the original text, each press followed
    by a 10 ms delay, and then injects the converted text one Unicode
    down/up pair per character.  The Plain path of [convert_selected_text]
    does neither: it writes the converted text to the clipboard and sends
    one Ctrl+V; when the clipboard write fails it sends nothing. *)
Theorem replacement_by_category w0 hwnd w word w1 :
  convert_text word ≠ word →
  (enters os w0 LegacyConsole hwnd w →
   console_acquire os hwnd w = (Ok (Some word), w1) →
   ∃ w2 l,
     convert_selected_text os w0 = (Ok true, w2) ∧
     convert_in_console os hwnd w = (Ok true, w2) ∧
     log w2 = log w1 ++ l ∧
     (∃ hwnd',
        l = backspace_calls (length word) ++ [Ev (sleep 50)]
              ++ typing_calls (convert_text word) ++ [Ev (sleep 50)]
              ++ switch_calls hwnd' (other (detect_layout word))) ∧
     sent l = replicate (length word) backspace_press
                ++ (unicode_press <$> convert_text word))
  ∧ (enters os w0 Plain hwnd w →
     plain_acquire os w = (Ok (Some word), w1) →
     ∃ r w2 l,
       convert_selected_text os w0 = (r, w2) ∧ log w2 = log w1 ++ l ∧
       ((r = Ok true ∧
         ∃ text_bytes h_mem p_mem hwnd',
           encode_utf_16_le (convert_text word ++ [0]) = Some text_bytes ∧
           l = [Ev (OpenClipboard None); Ev EmptyClipboard;
                Ev (GlobalAlloc 0x0002 (Z.of_nat (length text_bytes)));
                Ev (GlobalLock h_mem);
                Ev (memmove p_mem text_bytes (Z.of_nat (length text_bytes)));
                Ev (GlobalUnlock h_mem); Ev (SetClipboardData 13 h_mem);
                Ev CloseClipboard]
               ++ [Ev (SendInput 4 (combo 0x11 0x56)); Ev (sleep 20)]
               ++ switch_calls hwnd' (other (detect_layout word)))
        ∨ (r ≠ Ok true ∧ sent l = [] ∧ posted l = [])) ∧
       (sent l = [combo 0x11 0x56] ∨ sent l = []) ∧
       (backspace_press ∉ sent l) ∧
       (∀ char, unicode_press char ∉ sent l)).
Proof.
  intros Hne. split; intros Henter Hacq.
  - destruct (replace_changed_run LegacyConsole word w1 Hne)
      as (r & w2 & l & Hrun & Hlog & -> & hwnd' & ->).
    assert (Hpath : convert_as os LegacyConsole hwnd w = (Ok true, w2))
      by by rewrite (convert_as_run LegacyConsole _ _ _ _ Hacq).
    eexists w2, _. split_and!; [|by rewrite convert_in_console_stages|done|by exists hwnd'|].
    + by rewrite (enters_run _ _ _ _ Henter).
    + rewrite !sent_app, sent_backspace_calls, sent_typing_calls, sent_switch_calls.
      cbn [sent omap sent_batch app]. by rewrite app_nil_r.
  - destruct (replace_changed_run Plain word w1 Hne) as (r & w2 & l & Hrun & Hlog & Hl).
    assert (Hpath : convert_as os Plain hwnd w = (r, w2))
      by by rewrite (convert_as_run Plain _ _ _ _ Hacq).
    exists r, w2, l. split; [by rewrite (enters_run _ _ _ _ Henter)|].
    split; [done|].
    assert (Hsent : sent l = [combo 0x11 0x56] ∨ sent l = []).
    { destruct Hl as [(_ & ? & ? & ? & hwnd' & _ & ->)|(_ & -> & _)]; [left|by right].
      rewrite !sent_app, sent_switch_calls. done. }
    split_and!; [done|done|..].
    + destruct Hsent as [-> | ->]; [|apply not_elem_of_nil].
      intros Hin%list_elem_of_singleton. revert Hin. compute_done.
    + intros char. destruct Hsent as [-> | ->]; [|apply not_elem_of_nil].
      intros Hin%list_elem_of_singleton. by apply (f_equal length) in Hin.
Qed.

(** *** The replacement up to the layout switch *)

Lemma switch_keyboard_layout_at to_lang w :
  ∃ w',
    switch_keyboard_layout os to_lang w = (Ok tt, w') ∧
    log w' = log w ++ switch_calls (foreground_at os w) to_lang.
Proof.
  unfold switch_keyboard_layout, get_foreground_hwnd, foreground_at, switch_calls,
    os_call_, mbind, M_bind, mret, M_ret, os_call.
  destruct (os Z GetForegroundWindow (os_state w)) as [hwnd s1].
  cbn [fst snd os_state log]. destruct (truthy hwnd).
  - cbn [os_state log]. destruct (os Z (PostMessageW hwnd 80 0 _) s1) as [r s2].
    eexists. split; [reflexivity|]. cbn [log]. by rewrite <- (assoc_L (++)).
  - eexists. split; reflexivity.
Qed.

Lemma replace_rewrite_text category word w :
  convert_text word ≠ word →
  replace os category (Some word) w =
  (ok ← rewrite_text os category word;
   if (ok : bool)
   then switch_keyboard_layout os (other (detect_layout word));; mret true
   else mret false) w.
Proof.
  intros Hne. pose proof (convert_text_changes_nonempty word Hne) as Hword.
  symmetry.
  destruct category; unfold replace, plain_replace, console_replace, terminal_replace,
    rewrite_text; cbv zeta;
    replace (nonempty (Some word)) with true by (by destruct word);
    cbn [negb text_of default]; rewrite decide_False by done;
    rewrite target_layout_other.
  - rewrite run_bind_assoc. apply bind_ext. intros [] w1; cbn [negb].
    + do 2 (rewrite run_bind_assoc; apply bind_ext; intros ? ?).
      by rewrite run_ret_bind.
    + by rewrite run_ret_bind.
  - do 4 (rewrite run_bind_assoc; apply bind_ext; intros ? ?).
    by rewrite run_ret_bind.
  - do 6 (rewrite run_bind_assoc; apply bind_ext; intros ? ?).
    by rewrite run_ret_bind.
Qed.

Lemma rewrite_text_console_run word w :
  ∃ w',
    rewrite_text os LegacyConsole word w = (Ok true, w') ∧
    log w' = log w ++ backspace_calls (length word) ++ [Ev (sleep 50)]
               ++ typing_calls (convert_text word) ++ [Ev (sleep 50)].
Proof.
  unfold rewrite_text. cbv zeta.
  destruct (logs_backspace_loop (length word) w) as (? & w1 & Hrun1 & Hlog1).
  rewrite (run_bind _ _ _ _ _ Hrun1).
  destruct (logs_call (sleep 50) w1) as (? & w2 & Hrun2 & Hlog2).
  rewrite (run_bind _ _ _ _ _ Hrun2).
  destruct (logs_type_text (convert_text word) w2) as (? & w3 & Hrun3 & Hlog3).
  rewrite (run_bind _ _ _ _ _ Hrun3).
  destruct (logs_call (sleep 50) w3) as (? & w4 & Hrun4 & Hlog4).
  rewrite (run_bind _ _ _ _ _ Hrun4).
  exists w4. split; [done|].
  by rewrite Hlog4, Hlog3, Hlog2, Hlog1, <- !(assoc_L (++)).
Qed.

Lemma rewrite_text_terminal_run word w :
  ∃ w',
    rewrite_text os ModernTerminal word w = (Ok true, w') ∧
    log w' = log w ++ [Ev (SendInput 2 (key_press 0x23)); Ev (sleep 30)]
               ++ backspace_calls (length word) ++ [Ev (sleep 50)]
               ++ typing_calls (convert_text word) ++ [Ev (sleep 50)].
Proof.
  unfold rewrite_text. cbv zeta.
  destruct (logs_send_key_press 0x23 w) as (? & wa & Hruna & Hloga).
  rewrite (run_bind _ _ _ _ _ Hruna).
  destruct (logs_call (sleep 30) wa) as (? & wb & Hrunb & Hlogb).
  rewrite (run_bind _ _ _ _ _ Hrunb).
  destruct (logs_backspace_loop (length word) wb) as (? & w1 & Hrun1 & Hlog1).
  rewrite (run_bind _ _ _ _ _ Hrun1).
  destruct (logs_call (sleep 50) w1) as (? & w2 & Hrun2 & Hlog2).
  rewrite (run_bind _ _ _ _ _ Hrun2).
  destruct (logs_type_text (convert_text word) w2) as (? & w3 & Hrun3 & Hlog3).
  rewrite (run_bind _ _ _ _ _ Hrun3).
  destruct (logs_call (sleep 50) w3) as (? & w4 & Hrun4 & Hlog4).
  rewrite (run_bind _ _ _ _ _ Hrun4).
  exists w4. split; [done|].
  by rewrite Hlog4, Hlog3, Hlog2, Hlog1, Hlogb, Hloga, <- !(assoc_L (++)).
Qed.

(** A clipboard write of a text that encodes does not raise. *)
Lemma set_clipboard_text_encoded_run text text_bytes w :
  encode_utf_16_le (text ++ [0]) = Some text_bytes →
  ∃ ok w' l,
    set_clipboard_text os text w = (Ok ok, w') ∧ log w' = log w ++ l ∧
    sent l = [] ∧ posted l = [] ∧
    (ok = true →
     ∃ h_mem p_mem,
       l = [Ev (OpenClipboard None); Ev EmptyClipboard;
            Ev (GlobalAlloc 0x0002 (Z.of_nat (length text_bytes)));
            Ev (GlobalLock h_mem);
            Ev (memmove p_mem text_bytes (Z.of_nat (length text_bytes)));
            Ev (GlobalUnlock h_mem); Ev (SetClipboardData 13 h_mem);
            Ev CloseClipboard]).
Proof.
  intros Henc. unfold set_clipboard_text. rewrite Henc.
  unfold try_finally, os_call_, mbind, M_bind, mret, M_ret, os_call.
  run_os; run_done; (split_and!; [done|done|]); try discriminate.
  intros _. by eexists _, _.
Qed.

Lemma rewrite_text_plain_run word text_bytes w :
  encode_utf_16_le (convert_text word ++ [0]) = Some text_bytes →
  ∃ ok w_cb w' l,
    set_clipboard_text os (convert_text word) w = (Ok ok, w_cb) ∧
    rewrite_text os Plain word w = (Ok ok, w') ∧ log w' = log w ++ l ∧
    posted l = [] ∧
    if ok
    then ∃ h_mem p_mem,
           l = [Ev (OpenClipboard None); Ev EmptyClipboard;
                Ev (GlobalAlloc 0x0002 (Z.of_nat (length text_bytes)));
                Ev (GlobalLock h_mem);
                Ev (memmove p_mem text_bytes (Z.of_nat (length text_bytes)));
                Ev (GlobalUnlock h_mem); Ev (SetClipboardData 13 h_mem);
                Ev CloseClipboard]
               ++ [Ev (SendInput 4 (combo 0x11 0x56)); Ev (sleep 20)]
    else sent l = [].
Proof.
  intros Henc. unfold rewrite_text. cbv zeta.
  destruct (set_clipboard_text_encoded_run (convert_text word) text_bytes w Henc)
    as (ok & w1 & l & Hrun & Hlog & Hsent & Hposted & Hok).
  rewrite (run_bind _ _ _ _ _ Hrun). destruct ok; cbn [negb].
  - destruct (Hok eq_refl) as (h_mem & p_mem & ->).
    destruct (logs_send_ctrl_key 0x56 w1) as (? & w2 & Hrun2 & Hlog2).
    rewrite (run_bind _ _ _ _ _ Hrun2).
    destruct (logs_call (sleep 20) w2) as (? & w3 & Hrun3 & Hlog3).
    rewrite (run_bind _ _ _ _ _ Hrun3).
    eexists true, w1, w3, _. split; [done|]. split; [done|]. split.
    + rewrite Hlog3, Hlog2, Hlog, <- !(assoc_L (++)). reflexivity.
    + split; [reflexivity|]. by exists h_mem, p_mem.
  - by exists false, w1, w1, l.
Qed.

(** C2, amended.  The word of the scenario is detected as RU and converts
    to helli, not hello: its last letter sits on the key of i (the word
    that converts to hello ends in the letter on the key of o).  In the
    LegacyConsole and ModernTerminal paths the replacement issues exactly
    five backspace presses (after one End press in the terminal), then five
    Unicode injections; from the world [w_sw] so reached it asks the system
    for the foreground window and, when the system names one, posts it one
    layout change request for the EN layout, and nothing when it names
    none.  In the Plain path it issues no backspace and no injection: it
    writes helli, encoded with its terminator, to the clipboard; when the
    write succeeds it pastes with one Ctrl+V and then makes the same request
    in the same way; when the write fails it sends and posts nothing and the
    attempt returns [False]. *)
Theorem hello_scenario w0 category hwnd w w1 :
  enters os w0 category hwnd w →
  acquire os category hwnd w = (Ok (Some (py "руддш")), w1) →
  detect_layout (py "руддш") = ru ∧
  convert_text (py "руддш") = py "helli" ∧
  convert_text (py "руддщ") = py "hello" ∧
  ∃ ok w_sw l,
    rewrite_text os category (py "руддш") w1 = (Ok ok, w_sw) ∧
    log w_sw = log w1 ++ l ∧
    posted l = [] ∧
    match category with
    | LegacyConsole =>
      ok = true ∧
      l = backspace_calls 5 ++ [Ev (sleep 50)] ++ typing_calls (py "helli")
            ++ [Ev (sleep 50)] ∧
      sent l = replicate 5 backspace_press ++ (unicode_press <$> py "helli")
    | ModernTerminal =>
      ok = true ∧
      l = [Ev (SendInput 2 (key_press 0x23)); Ev (sleep 30)]
            ++ backspace_calls 5 ++ [Ev (sleep 50)] ++ typing_calls (py "helli")
            ++ [Ev (sleep 50)] ∧
      sent l = key_press 0x23 :: replicate 5 backspace_press
                 ++ (unicode_press <$> py "helli")
    | Plain =>
      (∃ w_cb, set_clipboard_text os (py "helli") w1 = (Ok ok, w_cb)) ∧
      if ok
      then (∃ h_mem p_mem,
              l = [Ev (OpenClipboard None); Ev EmptyClipboard;
                   Ev (GlobalAlloc 0x0002 12); Ev (GlobalLock h_mem);
                   Ev (memmove p_mem [104; 0; 101; 0; 108; 0; 108; 0; 105; 0; 0; 0] 12);
                   Ev (GlobalUnlock h_mem); Ev (SetClipboardData 13 h_mem);
                   Ev CloseClipboard;
                   Ev (SendInput 4 (combo 0x11 0x56)); Ev (sleep 20)]) ∧
           sent l = [combo 0x11 0x56]
      else sent l = []
    end ∧
    if ok
    then ∃ w2,
           switch_keyboard_layout os en w_sw = (Ok tt, w2) ∧
           convert_selected_text os w0 = (Ok true, w2) ∧
           log w2 = log w_sw ++ switch_calls (foreground_at os w_sw) en ∧
           sent (switch_calls (foreground_at os w_sw) en) = [] ∧
           posted (switch_calls (foreground_at os w_sw) en) =
             if truthy (foreground_at os w_sw)
             then [(foreground_at os w_sw, 0x0050, 0, HKL_EN)] else []
    else convert_selected_text os w0 = (Ok false, w_sw).
Proof.
  intros Henter Hacq.
  assert (Hd : detect_layout (py "руддш") = ru) by (vm_compute; reflexivity).
  assert (Hc : convert_text (py "руддш") = py "helli") by (vm_compute; reflexivity).
  split; [done|]. split; [done|]. split; [by vm_compute|].
  assert (Hne : convert_text (py "руддш") ≠ py "руддш") by by rewrite Hc.
  assert (Hpath : convert_selected_text os w0 =
            (ok ← rewrite_text os category (py "руддш");
             if (ok : bool) then switch_keyboard_layout os en;; mret true
             else mret false) w1).
  { rewrite (enters_run _ _ _ _ Henter), (convert_as_run _ _ _ _ _ Hacq).
    rewrite (replace_rewrite_text category _ w1 Hne). by rewrite Hd. }
  assert (Hswitch : ∀ w_sw,
            rewrite_text os category (py "руддш") w1 = (Ok true, w_sw) →
            ∃ w2,
              switch_keyboard_layout os en w_sw = (Ok tt, w2) ∧
              convert_selected_text os w0 = (Ok true, w2) ∧
              log w2 = log w_sw ++ switch_calls (foreground_at os w_sw) en ∧
              sent (switch_calls (foreground_at os w_sw) en) = [] ∧
              posted (switch_calls (foreground_at os w_sw) en) =
                if truthy (foreground_at os w_sw)
                then [(foreground_at os w_sw, 0x0050, 0, HKL_EN)] else []).
  { intros w_sw Hrun.
    destruct (switch_keyboard_layout_at en w_sw) as (w2 & Hrun2 & Hlog2).
    exists w2. split; [exact Hrun2|]. split.
    - by rewrite Hpath, (run_bind _ _ _ _ _ Hrun), (run_bind _ _ _ _ _ Hrun2).
    - split; [exact Hlog2|]. split; [apply sent_switch_calls|].
      apply posted_switch_calls. }
  destruct category.
  - assert (Henc : encode_utf_16_le (convert_text (py "руддш") ++ [0])
                   = Some [104; 0; 101; 0; 108; 0; 108; 0; 105; 0; 0; 0])
      by (vm_compute; reflexivity).
    destruct (rewrite_text_plain_run (py "руддш") _ w1 Henc)
      as (ok & w_cb & w_sw & l & Hcb & Hrun & Hlog & Hposted & Hl).
    rewrite Hc in Hcb.
    exists ok, w_sw, l. split; [exact Hrun|]. split; [exact Hlog|].
    split; [exact Hposted|]. destruct ok.
    + destruct Hl as (h_mem & p_mem & ->).
      split; [|exact (Hswitch w_sw Hrun)].
      split; [by exists w_cb|]. split; [by exists h_mem, p_mem|reflexivity].
    + split; [split; [by exists w_cb|exact Hl]|].
      by rewrite Hpath, (run_bind _ _ _ _ _ Hrun).
  - destruct (rewrite_text_console_run (py "руддш") w1) as (w_sw & Hrun & Hlog).
    rewrite Hc in Hlog. change (length (py "руддш")) with 5%nat in Hlog.
    eexists true, w_sw, _. split; [exact Hrun|]. split; [exact Hlog|].
    rewrite !sent_app, !posted_app, sent_backspace_calls, sent_typing_calls,
      posted_backspace_calls, posted_typing_calls.
    split; [reflexivity|]. split; [|exact (Hswitch w_sw Hrun)].
    split; [done|]. split; [done|].
    cbn [sent omap sent_batch app]. by rewrite app_nil_r.
  - destruct (rewrite_text_terminal_run (py "руддш") w1) as (w_sw & Hrun & Hlog).
    rewrite Hc in Hlog. change (length (py "руддш")) with 5%nat in Hlog.
    eexists true, w_sw, _. split; [exact Hrun|]. split; [exact Hlog|].
    rewrite !sent_app, !posted_app, sent_backspace_calls, sent_typing_calls,
      posted_backspace_calls, posted_typing_calls.
    split; [reflexivity|]. split; [|exact (Hswitch w_sw Hrun)].
    split; [done|]. split; [done|].
    cbn [sent omap sent_batch app]. by rewrite app_nil_r.
Qed.
End EngineFacts.

(** * The properties on the scripted desktop *)

(** C1, as stated, fails for the Plain category: with the six-letter
    selection ghbdtn in an ordinary text field the attempt succeeds, and the
    only synthetic input it sends is the copy combo of the acquisition and
    one Ctrl+V; no backspace press, no Unicode injection. *)
Lemma plain_path_sends_no_backspace :
  let w0 := text_field [py "ghbdtn"] in
  let run := convert_selected_text desktop_os w0 in
  (classify desktop_os 5 (get_foreground_hwnd desktop_os w0).2).1 = Ok Plain ∧
  run.1 = Ok true ∧
  length (py "ghbdtn") = 6%nat ∧
  convert_text (py "ghbdtn") = py "привет" ∧
  sent (log run.2) = [combo 0x11 0x2D; combo 0x11 0x56] ∧
  (backspace_press ∉ sent (log run.2)) ∧
  Forall (λ char, unicode_press char ∉ sent (log run.2)) (py "привет").
Proof. cbv zeta. split_and!; compute_done. Qed.

Lemma replacement_by_category_witness :
  let word := py "ghbdtn" in
  let console := console_window 1 1 11 (py "C:\> ghbdtn") in
  let in_console :=
    (classify desktop_os 7 (get_foreground_hwnd desktop_os console).2).2 in
  let read := (console_acquire desktop_os 7 in_console).2 in
  let field := text_field [word] in
  let in_field :=
    (classify desktop_os 5 (get_foreground_hwnd desktop_os field).2).2 in
  let copied := (plain_acquire desktop_os in_field).2 in
  (∃ w2 l,
     convert_selected_text desktop_os console = (Ok true, w2) ∧
     log w2 = log read ++ l ∧
     sent l = replicate (length word) backspace_press
                ++ (unicode_press <$> convert_text word)) ∧
  (∃ r w2 l,
     convert_selected_text desktop_os field = (r, w2) ∧
     log w2 = log copied ++ l ∧
     (backspace_press ∉ sent l) ∧
     (∀ char, unicode_press char ∉ sent l)).
Proof.
  intros word console in_console read field in_field copied.
  assert (Hne : convert_text word ≠ word) by compute_done.
  assert (Hconsole : enters desktop_os console LegacyConsole 7 in_console).
  { exists (get_foreground_hwnd desktop_os console).2.
    split; vm_compute; reflexivity. }
  assert (Hread : console_acquire desktop_os 7 in_console = (Ok (Some word), read))
    by (vm_compute; reflexivity).
  assert (Hfield : enters desktop_os field Plain 5 in_field).
  { exists (get_foreground_hwnd desktop_os field).2.
    split; vm_compute; reflexivity. }
  assert (Hcopied : plain_acquire desktop_os in_field = (Ok (Some word), copied))
    by (vm_compute; reflexivity).
  split.
  - destruct (proj1 (replacement_by_category desktop_os console 7 in_console
                       word read Hne) Hconsole Hread)
      as (w2 & l & Hrun & _ & Hlog & _ & Hsent).
    exists w2, l. exact (conj Hrun (conj Hlog Hsent)).
  - destruct (proj2 (replacement_by_category desktop_os field 5 in_field
                       word copied Hne) Hfield Hcopied)
      as (r & w2 & l & Hrun & Hlog & _ & _ & Hback & Huni).
    exists r, w2, l. exact (conj Hrun (conj Hlog (conj Hback Huni))).
Defined.

(** C2, as stated, fails twice.  The scenario word converts to helli, not
    hello; and in an ordinary text field (Plain) the replacement of that
    word issues no backspace press and no Unicode injection at all, only the
    copy combo of the acquisition and one Ctrl+V. *)
Lemma hello_scenario_fails :
  let w0 := text_field [py "руддш"] in
  let run := convert_selected_text desktop_os w0 in
  convert_text (py "руддш") = py "helli" ∧
  convert_text (py "руддш") ≠ py "hello" ∧
  (classify desktop_os 5 (get_foreground_hwnd desktop_os w0).2).1 = Ok Plain ∧
  run.1 = Ok true ∧
  sent (log run.2) = [combo 0x11 0x2D; combo 0x11 0x56] ∧
  posted (log run.2) = [(5, 0x0050, 0, HKL_EN)].
Proof. cbv zeta. split_and!; compute_done. Qed.

Lemma hello_scenario_witness :
  let w0 := terminal_window [py "  руддш "] in
  ∃ w2,
    convert_selected_text desktop_os w0 = (Ok true, w2) ∧
    sent (log w2) =
      [ [key_input 0x11 0; key_input 0x10 0; key_input 0x43 0;
         key_input 0x43 0x0002; key_input 0x10 0x0002; key_input 0x11 0x0002];
        key_press 0x23 ]
      ++ replicate 5 backspace_press ++ (unicode_press <$> py "helli") ∧
    posted (log w2) = [(6, 0x0050, 0, HKL_EN)].
Proof.
  intros w0.
  pose (wa := (get_foreground_hwnd desktop_os w0).2).
  pose (w := (classify desktop_os 6 wa).2).
  pose (w1 := (terminal_acquire desktop_os w).2).
  assert (Henter : enters desktop_os w0 ModernTerminal 6 w)
    by (exists wa; split; vm_compute; reflexivity).
  assert (Hacq : acquire desktop_os ModernTerminal 6 w = (Ok (Some (py "руддш")), w1))
    by (vm_compute; reflexivity).
  destruct (hello_scenario desktop_os w0 ModernTerminal 6 w w1 Henter Hacq)
    as (_ & _ & _ & ok & w_sw & l & _ & _ & _ & (-> & _) & w2 & _ & Hrun & _).
  exists w2. split; [exact Hrun|].
  assert (Hw2 : w2 = (convert_selected_text desktop_os w0).2) by by rewrite Hrun.
  rewrite Hw2. split; vm_compute; reflexivity.
Defined.

Lemma unchanged_text_aborts_witness :
  let w0 := text_field [py "12345"] in
  let w1 := (plain_primary_copy desktop_os
               (classify desktop_os 5 (get_foreground_hwnd desktop_os w0).2).2).2 in
  convert_text (py "12345") = py "12345" ∧
  convert_selected_text desktop_os w0 = (Ok false, w1) ∧
  sent (log w1) = [combo 0x11 0x2D].
Proof.
  intros w0 w1.
  pose (wa := (get_foreground_hwnd desktop_os w0).2).
  pose (w := (classify desktop_os 5 wa).2).
  assert (Henter : enters desktop_os w0 Plain 5 w)
    by (exists wa; split; vm_compute; reflexivity).
  assert (Hacq : acquire desktop_os Plain 5 w = (Ok (Some (py "12345")), w1))
    by (vm_compute; reflexivity).
  assert (Heq : convert_text (py "12345") = py "12345") by (vm_compute; reflexivity).
  split; [exact Heq|]. split; [|vm_compute; reflexivity].
  exact (proj1 (unchanged_text_aborts desktop_os w0 Plain 5 w (py "12345") w1
                  Henter Hacq Heq)).
Defined.

Lemma plain_fallback_once_witness :
  let w0 := text_field [[]; []] in
  ∃ w2,
    convert_selected_text desktop_os w0 = (Ok false, w2) ∧
    sent (log w2) = [combo 0x11 0x2D; ctrl_shift_left; combo 0x11 0x2D].
Proof.
  intros w0.
  pose (wa := (get_foreground_hwnd desktop_os w0).2).
  pose (w := (classify desktop_os 5 wa).2).
  assert (Henter : enters desktop_os w0 Plain 5 w)
    by (exists wa; split; vm_compute; reflexivity).
  destruct (plain_fallback_once desktop_os w0 5 w Henter)
    as (t1 & w1 & Hrun1 & _ & Hfallback).
  assert (Ht1 : t1 = None).
  { assert (H : Ok t1 = (plain_primary_copy desktop_os w).1) by by rewrite Hrun1.
    vm_compute in H. by injection H. }
  subst t1. destruct (Hfallback eq_refl) as (t2 & w2 & reading & Hrun2 & _ & _ & _ & Hfail).
  assert (Hw1 : w1 = (plain_primary_copy desktop_os w).2) by by rewrite Hrun1.
  assert (Ht2 : t2 = None).
  { assert (H : Ok t2 = (plain_fallback_copy desktop_os w1).1) by by rewrite Hrun2.
    rewrite Hw1 in H. vm_compute in H. by injection H. }
  subst t2. exists w2. split; [exact (Hfail eq_refl)|].
  assert (Hw2 : w2 = (convert_selected_text desktop_os w0).2) by by rewrite (Hfail eq_refl).
  rewrite Hw2. vm_compute. reflexivity.
Defined.

Lemma classify_by_class_name_witness :
  let w0 := console_window 1 1 11 (py "C:\> ghbdtn") in
  ∃ w', classify desktop_os 7 (get_foreground_hwnd desktop_os w0).2
          = (Ok LegacyConsole, w').
Proof.
  intros w0.
  pose (w := (get_foreground_hwnd desktop_os w0).2).
  assert (Hfg : get_foreground_hwnd desktop_os w0 = (Ok 7, w))
    by (vm_compute; reflexivity).
  destruct (classify_by_class_name desktop_os 7 (py "ConsoleWindowClass") w0 w Hfg)
    as (category & w' & Hrun & _ & Hlegacy & _); [vm_compute; reflexivity..|].
  exists w'. subst w. rewrite Hrun. f_equal. f_equal. by apply Hlegacy.
Defined.

(** C8 on the scripted console: when [GetConsoleScreenBufferInfo] fails,
    and when the cursor is at column zero, [get_console_last_word] returns
    [None] with the console still attached: the only [FreeConsole] is the
    one before [AttachConsole].  The normal path and the blank row do
    detach.  [None] is what comes back for column zero, for a blank row and
    for a failed attach. *)
Theorem console_left_attached_on_early_return :
  let row := py "C:\> ghbdtn" in
  let info_fails := get_console_last_word desktop_os 7 (console_window 1 0 11 row) in
  let column_zero := get_console_last_word desktop_os 7 (console_window 1 1 0 row) in
  let blank_row := get_console_last_word desktop_os 7 (console_window 1 1 4 (py "     ")) in
  let attach_fails := get_console_last_word desktop_os 7 (console_window 0 1 11 row) in
  let normal := get_console_last_word desktop_os 7 (console_window 1 1 11 row) in
  info_fails.1 = Ok None ∧
  log info_fails.2 =
    [Ev (GetWindowThreadProcessId 7); Ev FreeConsole; Ev (AttachConsole 4242);
     Ev (GetStdHandle (-11)); Ev (GetConsoleScreenBufferInfo 7)] ∧
  attachments (log info_fails.2) = [false; true] ∧
  column_zero.1 = Ok None ∧
  log column_zero.2 =
    [Ev (GetWindowThreadProcessId 7); Ev FreeConsole; Ev (AttachConsole 4242);
     Ev (GetStdHandle (-11)); Ev (GetConsoleScreenBufferInfo 7)] ∧
  attachments (log column_zero.2) = [false; true] ∧
  blank_row.1 = Ok None ∧
  attachments (log blank_row.2) = [false; true; false] ∧
  attach_fails.1 = Ok None ∧
  normal.1 = Ok (Some (py "ghbdtn")) ∧
  attachments (log normal.2) = [false; true; false].
Proof. cbv zeta. split_and!; vm_compute; reflexivity. Qed.

(** * Further properties of the layout mapper *)

Lemma occurrences_app t s1 s2 :
  occurrences t (s1 ++ s2) = (occurrences t s1 + occurrences t s2)%nat.
Proof. induction s1 as [|c s1 IH]; cbn; [done|]. rewrite IH. lia. Qed.

Lemma occurrences_zero t s : occurrences t s = 0%nat ↔ Forall (.∉ t) s.
Proof.
  split; [|apply occurrences_none].
  induction s as [|c s IH]; cbn; [by constructor|].
  case_decide; [lia|]. intros Hz. constructor; [done|]. apply IH. lia.
Qed.

Lemma translate_app d s1 s2 : translate d (s1 ++ s2) = translate d s1 ++ translate d s2.
Proof. unfold translate. apply fmap_app. Qed.

(** No character of a table is opposite itself in the other table. *)
Lemma translation_moves a c :
  c ∈ table a → default c (translation a !! c) ≠ c.
Proof.
  revert c. destruct a; cbn [table translation].
  - apply (proj1 (Forall_forall (λ c, default c (EN_TO_RU !! c) ≠ c) EN_CHARS)).
    compute_done.
  - apply (proj1 (Forall_forall (λ c, default c (RU_TO_EN !! c) ≠ c) RU_CHARS)).
    compute_done.
Qed.

Lemma translate_fixed a s :
  translate (translation a) s = s ↔ Forall (.∉ table a) s.
Proof.
  unfold translate. induction s as [|c s IH]; cbn [fmap list_fmap].
  - split; [by constructor|done].
  - rewrite Forall_cons, <- IH. split.
    + intros [= Hc Hs]. split; [|done].
      intros Hin. by apply (translation_moves a c Hin).
    + intros [Hc Hs]. rewrite Hs. by rewrite translation_outside.
Qed.

(** X1.  The conversion leaves a text as it is (the nothing-to-convert
    outcome of every path) exactly when the text has no character of either
    table. *)
Theorem convert_text_unchanged_iff (s : str) :
  convert_text s = s ↔ Forall (λ c, (c ∉ EN_CHARS) ∧ (c ∉ RU_CHARS)) s.
Proof.
  rewrite convert_text_translation. rewrite translate_fixed.
  rewrite detect_layout_occurrences. split.
  - case_decide as Hle; cbn [table]; intros Hout.
    + pose proof (occurrences_none _ _ Hout) as Hen.
      assert (Hru : Forall (.∉ RU_CHARS) s) by (apply occurrences_zero; lia).
      apply Forall_and. done.
    + pose proof (occurrences_none _ _ Hout). lia.
  - intros [Hen Hru]%Forall_and. by case_decide.
Qed.

(** X2.  Texts detected alike concatenate into a text detected the same
    way, and the conversion of the concatenation is the concatenation of the
    conversions. *)
Theorem convert_text_app (s t : str) :
  detect_layout s = detect_layout t →
  detect_layout (s ++ t) = detect_layout s ∧
  convert_text (s ++ t) = convert_text s ++ convert_text t.
Proof.
  intros Hst.
  assert (Hd : detect_layout (s ++ t) = detect_layout s).
  { revert Hst. rewrite !detect_layout_occurrences, !occurrences_app.
    repeat case_decide; try done; lia. }
  split; [done|].
  by rewrite !convert_text_translation, Hd, <- Hst, translate_app.
Qed.

Lemma convert_text_app_witness :
  let s := py "ghbdtn " in
  let t := py "vbh" in
  detect_layout s = detect_layout t ∧
  convert_text (s ++ t) = convert_text s ++ convert_text t.
Proof.
  intros s t.
  assert (H : detect_layout s = detect_layout t) by (vm_compute; reflexivity).
  exact (conj H (proj2 (convert_text_app s t H))).
Defined.

(** X3.  Characters of neither table (digits, spaces, ...) have no say in
    the detection: dropping them from a text does not change its detected
    layout. *)
Theorem detect_layout_ignores_other_characters (s : str) :
  detect_layout (List.filter (λ c, char_in c EN_CHARS || char_in c RU_CHARS) s)
  = detect_layout s.
Proof.
  assert (H : ∀ t, t = EN_CHARS ∨ t = RU_CHARS →
    occurrences t (List.filter (λ c, char_in c EN_CHARS || char_in c RU_CHARS) s)
    = occurrences t s).
  { intros t Ht. induction s as [|c s IH]; [done|]. cbn [List.filter occurrences].
    unfold char_in at 1 2.
    destruct (decide (c ∈ EN_CHARS)) as [Hen|Hen], (decide (c ∈ RU_CHARS)) as [Hru|Hru];
      rewrite ?(bool_decide_eq_true_2 _ Hen), ?(bool_decide_eq_false_2 _ Hen),
        ?(bool_decide_eq_true_2 _ Hru), ?(bool_decide_eq_false_2 _ Hru);
      cbn [orb occurrences]; rewrite ?IH; try done.
    destruct Ht as [-> | ->]; by rewrite decide_False by done. }
  rewrite !detect_layout_occurrences, !H by auto. done.
Qed.

Lemma occurrences_lt t s : Exists (.∉ t) s → (occurrences t s < length s)%nat.
Proof.
  induction 1 as [c s Hc|c s _ IH]; cbn.
  - pose proof (occurrences_le t s). rewrite decide_False by done. lia.
  - case_decide; lia.
Qed.

(** X4.  A text drawn from the table of the layout detected for it comes
    out drawn from the other table: what was typed in the wrong layout is, once
    converted, in the alphabet of the layout the engine switches to.  The
    converted text is in turn detected as that other layout when it has a
    character outside the first table; a converted text of shared
    punctuation only is detected as EN, whichever way it went. *)
Theorem convert_text_changes_alphabet (a : layout) (s : str) :
  Forall (.∈ table a) s → detect_layout s = a →
  Forall (.∈ table (other a)) (convert_text s) ∧
  (Exists (.∉ table a) (convert_text s) → detect_layout (convert_text s) = other a) ∧
  (Forall (.∈ table a) (convert_text s) → detect_layout (convert_text s) = en).
Proof.
  intros Hs Ha.
  assert (Hinto : Forall (.∈ table (other a)) (convert_text s)).
  { rewrite convert_text_translation, Ha. exact (translate_into_other a s Hs). }
  split; [exact Hinto|]. clear Hs Ha. revert Hinto.
  generalize (convert_text s). intros t.
  destruct a; cbn [table other]; intros Hinto.
  - split.
    + intros Hex. rewrite detect_layout_occurrences.
      rewrite (proj1 (occurrences_all _ _) Hinto), decide_False; [done|].
      by apply Nat.lt_nge, occurrences_lt.
    + exact (detect_layout_pure_en t).
  - split; intros _; exact (detect_layout_pure_en t Hinto).
Qed.

Lemma convert_text_changes_alphabet_witness :
  let s := py "ghbdtn" in
  Forall (.∈ table en) s ∧ detect_layout s = en ∧
  Forall (.∈ table (other en)) (convert_text s) ∧
  detect_layout (convert_text s) = ru.
Proof.
  intros s.
  assert (H1 : Forall (.∈ table en) s) by compute_done.
  assert (H2 : detect_layout s = en) by (vm_compute; reflexivity).
  destruct (convert_text_changes_alphabet en s H1 H2) as (Hinto & Hother & _).
  split; [exact H1|]. split; [exact H2|]. split; [exact Hinto|].
  apply Hother. apply Exists_cons_hd. cbn [table]. compute_done.
Defined.

(** The two directions of the conversion, table by table. *)
Lemma convert_text_en s : detect_layout s = en → convert_text s = translate EN_TO_RU s.
Proof. intros H. unfold convert_text. by rewrite H, decide_True. Qed.

Lemma convert_text_ru s : detect_layout s = ru → convert_text s = translate RU_TO_EN s.
Proof. intros H. unfold convert_text. by rewrite H, decide_False. Qed.

Lemma translate_EN_TO_RU_back s :
  Forall (.∈ EN_CHARS) s →
  Forall (.∈ RU_CHARS) (translate EN_TO_RU s) ∧
  translate RU_TO_EN (translate EN_TO_RU s) = s.
Proof.
  assert (Hchar : Forall (λ c,
    default c (EN_TO_RU !! c) ∈ RU_CHARS ∧
    default (default c (EN_TO_RU !! c)) (RU_TO_EN !! default c (EN_TO_RU !! c)) = c)
    EN_CHARS) by compute_done.
  unfold translate. induction 1 as [|c s Hc Hs [IH1 IH2]]; [by split|].
  destruct (proj1 (Forall_forall _ _) Hchar c Hc) as [Hin Hback].
  cbn [fmap list_fmap]. split; [by constructor|]. by rewrite Hback, IH2.
Qed.

Lemma translate_RU_TO_EN_back s :
  Forall (.∈ RU_CHARS) s →
  Forall (.∈ EN_CHARS) (translate RU_TO_EN s) ∧
  translate EN_TO_RU (translate RU_TO_EN s) = s.
Proof.
  assert (Hchar : Forall (λ c,
    default c (RU_TO_EN !! c) ∈ EN_CHARS ∧
    default (default c (RU_TO_EN !! c)) (EN_TO_RU !! default c (RU_TO_EN !! c)) = c)
    RU_CHARS) by compute_done.
  unfold translate. induction 1 as [|c s Hc Hs [IH1 IH2]]; [by split|].
  destruct (proj1 (Forall_forall _ _) Hchar c Hc) as [Hin Hback].
  cbn [fmap list_fmap]. split; [by constructor|]. by rewrite Hback, IH2.
Qed.

(** X5.  Words convert back: a text of EN-table characters with at least
    one character other than the six that become shared punctuation
    (slash, question mark, at, dollar, caret, ampersand), and a text of
    RU-table characters with at least one character outside the EN table,
    both return to themselves when converted twice. *)
Theorem convert_text_word_round_trip (s : str) :
  (Forall (.∈ EN_CHARS) s ∧ Exists (.∉ py "/?@$^&") s)
  ∨ (Forall (.∈ RU_CHARS) s ∧ Exists (.∉ EN_CHARS) s) →
  convert_text (convert_text s) = s.
Proof.
  intros [[Hen Hex]|[Hru Hex]].
  - destruct (translate_EN_TO_RU_back s Hen) as [Hinto Hback].
    rewrite (convert_text_en s (detect_layout_pure_en s Hen)).
    rewrite convert_text_ru; [done|].
    rewrite detect_layout_occurrences.
    rewrite (proj1 (occurrences_all _ _) Hinto), decide_False; [done|].
    apply Nat.lt_nge, occurrences_lt.
    clear -Hen Hex. unfold translate. induction Hex as [c s Hc|c s _ IH].
    + cbn [fmap list_fmap]. apply Exists_cons_hd.
      apply Forall_cons in Hen as [Hin _]. revert c Hin Hc.
      apply (proj1 (Forall_forall
        (λ c, c ∉ py "/?@$^&" → default c (EN_TO_RU !! c) ∉ EN_CHARS) EN_CHARS)).
      compute_done.
    + cbn [fmap list_fmap]. apply Exists_cons_tl, IH.
      by apply Forall_cons in Hen as [_ ?].
  - destruct (translate_RU_TO_EN_back s Hru) as [Hinto Hback].
    assert (Hd : detect_layout s = ru).
    { rewrite detect_layout_occurrences.
      rewrite (proj1 (occurrences_all _ _) Hru), decide_False; [done|].
      by apply Nat.lt_nge, occurrences_lt. }
    rewrite (convert_text_ru s Hd).
    by rewrite (convert_text_en _ (detect_layout_pure_en _ Hinto)).
Qed.

Lemma convert_text_word_round_trip_witness :
  let s := py "руддщ?" in
  (Forall (.∈ RU_CHARS) s ∧ Exists (.∉ EN_CHARS) s) ∧
  convert_text (convert_text s) = s.
Proof.
  intros s.
  assert (H : Forall (.∈ RU_CHARS) s ∧ Exists (.∉ EN_CHARS) s) by compute_done.
  exact (conj H (convert_text_word_round_trip s (or_intror H))).
Defined.

(** * Further properties of the synthetic input driver *)

Section DriverFacts.
Context {St : Type} (os : OS St).
Implicit Types (w : World St) (l : list event).

Lemma logs_send_two_modifier_combo mod1_vk mod2_vk key_vk :
  logs (send_two_modifier_combo os mod1_vk mod2_vk key_vk)
    [Ev (SendInput 6 (two_modifier_batch mod1_vk mod2_vk key_vk))].
Proof.
  unfold send_two_modifier_combo, two_modifier_batch. cbv zeta.
  destruct (bool_decide _);
    [exact (logs_send_input_keys os
       [(mod1_vk, 0); (mod2_vk, 0); (key_vk, 0x0001); (key_vk, Z.lor 0x0001 0x0002);
        (mod2_vk, 0x0002); (mod1_vk, 0x0002)])
    |exact (logs_send_input_keys os
       [(mod1_vk, 0); (mod2_vk, 0); (key_vk, 0); (key_vk, Z.lor 0 0x0002);
        (mod2_vk, 0x0002); (mod1_vk, 0x0002)])].
Qed.

Lemma is_key_up_key_input vk flags :
  is_key_up (key_input vk flags) = Z.testbit (DWORD flags) 1.
Proof. reflexivity. Qed.

Lemma play_down held vk flags batch :
  Z.testbit (DWORD flags) 1 = false →
  play held (key_input vk flags :: batch) = play (WORD vk :: held) batch.
Proof. intros Hdown. cbn [play]. by rewrite is_key_up_key_input, Hdown. Qed.


(** Releasing the first of two different modifiers before the second does
    not play. *)
Lemma play_crossed_release held mod1_vk mod2_vk :
  WORD mod1_vk ≠ WORD mod2_vk →
  play held [key_input mod1_vk 0; key_input mod2_vk 0;
             key_input mod1_vk 0x0002; key_input mod2_vk 0x0002] = None.
Proof.
  intros Hne. rewrite !play_down by reflexivity. cbn [play].
  rewrite is_key_up_key_input.
  change (Z.testbit (DWORD 2) 1) with true.
  change (wVk (ki (key_input mod1_vk 2))) with (WORD mod1_vk).
  cbn [release]. by rewrite decide_False by done.
Qed.


Lemma typed_app l1 l2 : typed (l1 ++ l2) = typed l1 ++ typed l2.
Proof. unfold typed. by rewrite sent_app, bind_app. Qed.

Lemma typed_typing_calls text : typed (typing_calls text) = WORD <$> text.
Proof.
  unfold typing_calls. induction text as [|char text IH]; [done|].
  change ((char :: text) ≫= ?f) with (f char ++ (text ≫= f)).
  rewrite typed_app, IH. reflexivity.
Qed.

Lemma WORD_small c : 0 ≤ c < 2 ^ 16 → WORD c = c.
Proof. intros H. unfold WORD. by apply Z.mod_small. Qed.

(** X7.  The calls of [type_text] are, for each character in turn, one
    [SendInput] of two events and one sleep of 10 ms, and nothing else; the
    two events are a key down and a key up, both flagged [KEYEVENTF_UNICODE],
    with virtual key 0 and the character in the scan code.  What is injected
    for a character is its code point modulo 2^16: the text itself when all
    its characters are in the Basic Multilingual Plane, and a different
    character (never a surrogate pair) for each character above it. *)
Theorem type_text_injects_code_units (text : str) w :
  ∃ w' l,
    type_text os text w = (Ok tt, w') ∧ log w' = log w ++ l ∧
    l = (text ≫= λ char, [Ev (SendInput 2 (unicode_press char)); Ev (sleep 10)]) ∧
    (∀ char,
       (λ i, (wVk (ki i), wScan (ki i), is_unicode i, is_key_up i))
         <$> unicode_press char
       = [(0, char mod 2 ^ 16, true, false); (0, char mod 2 ^ 16, true, true)]) ∧
    length (sent l) = length text ∧
    typed l = (λ char, char mod 2 ^ 16) <$> text ∧
    (Forall (λ char, 0 ≤ char < 2 ^ 16) text → typed l = text) ∧
    (∀ i char, text !! i = Some char → 2 ^ 16 ≤ char →
       ∃ unit, typed l !! i = Some unit ∧ unit < 2 ^ 16 ∧ unit ≠ char).
Proof.
  destruct (logs_type_text os text w) as ([] & w' & Hrun & Hlog).
  exists w', (typing_calls text). split_and!; [done|done|reflexivity|reflexivity|..].
  - by rewrite sent_typing_calls, length_fmap.
  - apply typed_typing_calls.
  - intros Hbmp. rewrite typed_typing_calls. clear Hrun Hlog.
    induction Hbmp as [|c t Hc Ht IH]; [done|].
    rewrite fmap_cons. f_equal; [by apply WORD_small|exact IH].
  - intros i char Hi Hbig. exists (WORD char).
    rewrite typed_typing_calls, list_lookup_fmap, Hi. split; [done|].
    unfold WORD. pose proof (Z.mod_pos_bound char (2 ^ 16)). lia.
Qed.

Lemma is_extended_key_input vk flags :
  is_extended (key_input vk flags) = Z.testbit (DWORD flags) 0.
Proof. reflexivity. Qed.

(** X8.  Only [send_two_modifier_combo] marks extended keys: the two events
    of its key carry [KEYEVENTF_EXTENDEDKEY] exactly when the key is an
    arrow, Insert, Delete, Home, End, Page Up or Page Down, and the events of
    its modifiers never do.  [send_key_press] and [send_key_combo] never set
    the flag, whatever the key. *)
Theorem extended_flag_placement (mod1_vk mod2_vk key_vk : Z) :
  (is_extended <$> two_modifier_batch mod1_vk mod2_vk key_vk)
    = (let extended :=
         bool_decide (key_vk ∈ ({[0x25; 0x26; 0x27; 0x28; 0x2D; 0x2E; 0x24; 0x23;
                                  0x21; 0x22]} : gset Z)) in
       [false; false; extended; extended; false; false])
  ∧ (is_extended <$> key_press key_vk) = [false; false]
  ∧ (is_extended <$> combo mod1_vk key_vk) = [false; false; false; false]
  ∧ logs (send_two_modifier_combo os mod1_vk mod2_vk key_vk)
      [Ev (SendInput 6 (two_modifier_batch mod1_vk mod2_vk key_vk))]
  ∧ logs (send_key_press os key_vk) [Ev (SendInput 2 (key_press key_vk))]
  ∧ logs (send_key_combo os mod1_vk key_vk) [Ev (SendInput 4 (combo mod1_vk key_vk))].
Proof.
  split_and!; [|reflexivity|reflexivity|apply logs_send_two_modifier_combo
               |apply logs_send_key_press|apply logs_send_key_combo].
  unfold two_modifier_batch. cbv zeta. destruct (bool_decide _); reflexivity.
Qed.

(** X9.  [switch_keyboard_layout] asks the system for the foreground
    window exactly once and makes at most one more call: when the window it
    is given is not null, one [PostMessageW] of [WM_INPUTLANGCHANGEREQUEST]
    to that window, with wParam 0 and [HKL_EN] for ['en'], [HKL_RU] for
    ['ru'], the two layouts the engine passes; when it is null, nothing.  It
    sends no input. *)
Theorem switch_keyboard_layout_posts_once (to_lang : layout) w :
  let hwnd := (os Z GetForegroundWindow (os_state w)).1 in
  let hkl := match to_lang with en => 0x04090409 | ru => 0x04190419 end in
  ∃ w' l,
    switch_keyboard_layout os to_lang w = (Ok tt, w') ∧ log w' = log w ++ l ∧
    l = Ev GetForegroundWindow ::
        (if decide (hwnd = 0) then [] else [Ev (PostMessageW hwnd 0x0050 0 hkl)]) ∧
    sent l = [] ∧
    posted l = (if decide (hwnd = 0) then [] else [(hwnd, 0x0050, 0, hkl)]).
Proof.
  unfold switch_keyboard_layout, get_foreground_hwnd, os_call_, mbind, M_bind,
    mret, M_ret, os_call. cbv zeta.
  destruct (os Z GetForegroundWindow (os_state w)) as [hwnd s1].
  cbn [fst snd os_state log]. unfold truthy.
  destruct (decide (hwnd = 0)) as [->|Hne].
  - cbn [Z.eqb negb]. eexists _, _. split; [reflexivity|]. cbn [log].
    split; [reflexivity|]. done.
  - rewrite (proj2 (Z.eqb_neq hwnd 0) Hne). cbn [negb os_state log].
    destruct (os Z (PostMessageW hwnd 80 0 _) s1) as [r s2].
    eexists _, _. split; [reflexivity|]. cbn [log].
    rewrite <- (assoc_L (++)). split; [reflexivity|]. by destruct to_lang.
Qed.
End DriverFacts.

(** * Further properties of the clipboard mediator *)

Section ClipboardFacts.
Context {St : Type} (os : OS St).
Implicit Types (w : World St) (l : list event).

(** X10.  [get_clipboard_text] and [clear_clipboard] never raise and never
    leave the clipboard open: when [OpenClipboard] fails it is the only call
    they make (and the text is [None]); when it succeeds the log has exactly
    one open and one close and ends with the [CloseClipboard], on every
    path. *)
Theorem clipboard_reads_release w :
  let opened := (os Z (OpenClipboard None) (os_state w)).1 in
  (∃ t w' l,
     get_clipboard_text os w = (Ok t, w') ∧ log w' = log w ++ l ∧
     if decide (opened = 0) then l = [Ev (OpenClipboard None)] ∧ t = None
     else brackets l = [true; false] ∧ head l = Some (Ev (OpenClipboard None)) ∧
          last l = Some (Ev CloseClipboard))
  ∧ (∃ w' l,
       clear_clipboard os w = (Ok tt, w') ∧ log w' = log w ++ l ∧
       l = if decide (opened = 0) then [Ev (OpenClipboard None)]
           else [Ev (OpenClipboard None); Ev EmptyClipboard; Ev CloseClipboard]).
Proof.
  cbv zeta. split.
  - unfold get_clipboard_text, try_finally, os_call_, mbind, M_bind, mret, M_ret,
      os_call. cbv zeta.
    destruct (os Z (OpenClipboard None) (os_state w)) as [opened s1].
    cbn [fst snd os_state log]. unfold truthy at 1.
    destruct (decide (opened = 0)) as [->|Hne].
    + cbn [Z.eqb negb]. eexists _, _, _. split; [reflexivity|]. by cbn [log].
    + rewrite (proj2 (Z.eqb_neq opened 0) Hne). cbn [negb].
      run_os; (eexists _, _, _; split; [reflexivity|]; cbn [log];
        rewrite <- ?(assoc_L (++)); split; [reflexivity|]; by split_and!).
  - unfold clear_clipboard, os_call_, mbind, M_bind, mret, M_ret, os_call.
    destruct (os Z (OpenClipboard None) (os_state w)) as [opened s1].
    cbn [fst snd os_state log]. unfold truthy at 1.
    destruct (decide (opened = 0)) as [->|Hne].
    + cbn [Z.eqb negb]. eexists _, _. split; [reflexivity|]. by cbn [log].
    + rewrite (proj2 (Z.eqb_neq opened 0) Hne). cbn [negb].
      run_os. eexists _, _. split; [reflexivity|]. cbn [log].
      by rewrite <- ?(assoc_L (++)).
Qed.

Lemma utf16_units_None c : utf16_units c = None ↔ 0xD800 ≤ c ≤ 0xDFFF.
Proof.
  unfold utf16_units. destruct (bool_decide_reflect (0xD800 ≤ c ≤ 0xDFFF)).
  - done.
  - by destruct (c <? 65536).
Qed.

Lemma mapM_utf16_units_None s :
  mapM utf16_units s = None ↔ Exists (λ c, 0xD800 ≤ c ≤ 0xDFFF) s.
Proof.
  induction s as [|c s IH].
  - split; [done|]. intros H. by apply Exists_nil in H.
  - rewrite Exists_cons, <- IH, <- utf16_units_None. cbn [mapM].
    destruct (utf16_units c); cbn.
    + destruct (mapM utf16_units s); cbn; split; try done; try by right.
      intros [?|?]; done.
    + split; [by left|done].
Qed.

Lemma encode_utf_16_le_None s :
  encode_utf_16_le s = None ↔ Exists (λ c, 0xD800 ≤ c ≤ 0xDFFF) s.
Proof.
  rewrite <- mapM_utf16_units_None. unfold encode_utf_16_le.
  by destruct (mapM utf16_units s).
Qed.

(** X11.  [set_clipboard_text] raises [UnicodeEncodeError] before making
    any call exactly when the text has a lone surrogate code point.
    Otherwise it never raises and never leaves the clipboard open; once the
    open has succeeded the clipboard is emptied whether or not the write then
    succeeds, so a [False] result after a successful open leaves it empty:
    the log then stops at the failed [GlobalAlloc] or [GlobalLock] and goes
    straight to [CloseClipboard]. *)
Theorem set_clipboard_text_releases (text : str) w :
  let opened := (os Z (OpenClipboard None) (os_state w)).1 in
  (Exists (λ c, 0xD800 ≤ c ≤ 0xDFFF) text →
     set_clipboard_text os text w = (Raise UnicodeEncodeError, w))
  ∧ (Forall (λ c, ¬ 0xD800 ≤ c ≤ 0xDFFF) text →
     ∃ ok w' l,
       set_clipboard_text os text w = (Ok ok, w') ∧ log w' = log w ++ l ∧
       if decide (opened = 0) then l = [Ev (OpenClipboard None)] ∧ ok = false
       else
         brackets l = [true; false] ∧
         l !! 1%nat = Some (Ev EmptyClipboard) ∧
         last l = Some (Ev CloseClipboard) ∧
         (ok = false →
          ∃ size,
            l = [Ev (OpenClipboard None); Ev EmptyClipboard;
                 Ev (GlobalAlloc 0x0002 size); Ev CloseClipboard]
            ∨ ∃ h_mem,
                l = [Ev (OpenClipboard None); Ev EmptyClipboard;
                     Ev (GlobalAlloc 0x0002 size); Ev (GlobalLock h_mem);
                     Ev CloseClipboard])).
Proof.
  cbv zeta. split.
  - intros Hsur. unfold set_clipboard_text.
    assert (Henc : encode_utf_16_le (text ++ [0]) = None).
    { apply encode_utf_16_le_None, Exists_app. by left. }
    by rewrite Henc.
  - intros Hok. unfold set_clipboard_text.
    destruct (encode_utf_16_le (text ++ [0])) as [text_bytes|] eqn:Henc.
    2: { apply encode_utf_16_le_None, Exists_app in Henc as [Hex|Hex].
         - exfalso. apply Exists_exists in Hex as (c & Hc & Hsur).
           by apply (proj1 (Forall_forall _ _) Hok c Hc).
         - exfalso. apply Exists_cons in Hex as [?|Hex]; [lia|].
           by apply Exists_nil in Hex. }
    unfold try_finally, os_call_, mbind, M_bind, mret, M_ret, os_call. cbv zeta.
    destruct (os Z (OpenClipboard None) (os_state w)) as [opened s1].
    cbn [fst snd os_state log]. unfold truthy at 1.
    destruct (decide (opened = 0)) as [->|Hne].
    + cbn [Z.eqb negb]. eexists _, _, _. split; [reflexivity|]. by cbn [log].
    + rewrite (proj2 (Z.eqb_neq opened 0) Hne). cbn [negb].
      run_os; (eexists _, _, _; split; [reflexivity|]; cbn [log];
        rewrite <- ?(assoc_L (++)); split; [reflexivity|];
        split_and!; [done|done|done|]); try discriminate; intros _.
      * eexists. right. by eexists.
      * eexists. by left.
Qed.
End ClipboardFacts.

Lemma set_clipboard_text_releases_witness :
  let w := text_field [] in
  Forall (λ c, ¬ 0xD800 ≤ c ≤ 0xDFFF) (py "привет") ∧
  ∃ ok w' l,
    set_clipboard_text desktop_os (py "привет") w = (Ok ok, w') ∧
    log w' = log w ++ l ∧ brackets l = [true; false].
Proof.
  intros w.
  assert (H : Forall (λ c, ¬ 0xD800 ≤ c ≤ 0xDFFF) (py "привет")).
  { repeat constructor; compute; intros [? ?]; congruence. }
  split; [exact H|].
  destruct (proj2 (set_clipboard_text_releases desktop_os (py "привет") w) H)
    as (ok & w' & l & Hrun & Hlog & Hl).
  exists ok, w', l. split; [exact Hrun|]. split; [exact Hlog|]. exact (proj1 Hl).
Defined.

Lemma type_text_injects_code_units_witness :
  let text := py "привет" in
  Forall (λ char, 0 ≤ char < 2 ^ 16) text ∧
  ∃ w', type_text desktop_os text (text_field []) = (Ok tt, w') ∧
        typed (log w') = text.
Proof.
  intros text.
  assert (Hbmp : Forall (λ char, 0 ≤ char < 2 ^ 16) text) by compute_done.
  split; [exact Hbmp|].
  destruct (type_text_injects_code_units desktop_os text (text_field []))
    as (w' & l & Hrun & Hlog & _ & _ & _ & _ & Htyped & _).
  exists w'. split; [exact Hrun|]. rewrite Hlog. exact (Htyped Hbmp).
Defined.

(** * Further properties of the console buffer reader *)












Section ConsoleFacts.
Context {St : Type} (os : OS St).
Implicit Types (w : World St) (l : list event).

End ConsoleFacts.


(** * Further properties of the conversion paths *)

Section PathFacts.
Context {St : Type} (os : OS St).
Implicit Types (w : World St) (l : list event) (P : event → Prop).

Lemma emits_ret {A} P (a : A) : emits P (mret a : M St A).
Proof. intros w. exists (Ok a), w, []. by rewrite app_nil_r. Qed.

Lemma emits_raise {A} P (e : exn) : emits P (raise e : M St A).
Proof. intros w. exists (Raise e), w, []. by rewrite app_nil_r. Qed.

Lemma emits_call {R} P (c : call R) : P (Ev c) → emits P (os_call os c).
Proof.
  intros Hc w. unfold os_call. destruct (os R c (os_state w)) as [r s].
  eexists _, _, [Ev c]. split; [reflexivity|]. split; [reflexivity|].
  by constructor.
Qed.

Lemma emits_bind {A B} P (m : M St A) (f : A → M St B) :
  emits P m → (∀ a, emits P (f a)) → emits P (m ≫= f).
Proof.
  intros Hm Hf w. destruct (Hm w) as (r & w1 & l1 & Hrun & Hlog & Hl1).
  unfold mbind, M_bind. rewrite Hrun. destruct r as [a|e].
  - destruct (Hf a w1) as (r2 & w2 & l2 & Hrun2 & Hlog2 & Hl2).
    exists r2, w2, (l1 ++ l2). split; [exact Hrun2|].
    split; [by rewrite Hlog2, Hlog, (assoc_L (++))|by apply Forall_app].
  - by exists (Raise e), w1, l1.
Qed.

Lemma emits_for {A} P (items : list A) (body : A → M St unit) :
  (∀ a, emits P (body a)) → emits P (for_ items body).
Proof.
  intros Hbody. induction items as [|a items IH]; cbn [for_].
  - apply emits_ret.
  - apply emits_bind; [apply Hbody|]. intros _. exact IH.
Qed.

Lemma emits_try_finally {A} P (body : M St A) (final : M St unit) :
  emits P body → emits P final → emits P (try_finally body final).
Proof.
  intros Hbody Hfinal w.
  destruct (Hbody w) as (r & w1 & l1 & Hrun & Hlog & Hl1).
  destruct (Hfinal w1) as (r2 & w2 & l2 & Hrun2 & Hlog2 & Hl2).
  unfold try_finally. rewrite Hrun, Hrun2.
  destruct r2 as [[]|e]; eexists _, w2, (l1 ++ l2);
    (split; [reflexivity|]);
    (split; [by rewrite Hlog2, Hlog, (assoc_L (++))|by apply Forall_app]).
Qed.

Lemma emits_logs {A} P (m : M St A) l : logs m l → Forall P l → emits P m.
Proof.
  intros Hm Hl w. destruct (Hm w) as (a & w' & Hrun & Hlog).
  by exists (Ok a), w', l.
Qed.
End PathFacts.

(** Breaks a computation into its calls; [leaf] settles each call. *)
Ltac emits_with leaf :=
  repeat first
    [ apply emits_ret
    | apply emits_raise
    | leaf
    | apply emits_bind; [|intros ?]
    | apply emits_for; intros ?
    | apply emits_try_finally
    | match goal with
      | |- emits _ (if ?b then _ else _) => destruct b
      | |- emits _ (match ?x with _ => _ end) => destruct x
      end ].

Section PathFootprints.
Context {St : Type} (os : OS St).
Implicit Types (w : World St) (l : list event).

Lemma convert_as_no_clipboard hwnd :
  emits (λ e, clipboard_call e = false) (convert_as os LegacyConsole hwnd).
Proof.
  unfold convert_as, acquire, replace, console_acquire, console_replace,
    get_console_last_word, type_text, switch_keyboard_layout, get_foreground_hwnd,
    send_key_press, send_input_keys, os_call_.
  cbv zeta. emits_with ltac:(apply emits_call; reflexivity).
Qed.

Lemma convert_as_no_console category hwnd :
  category ≠ LegacyConsole →
  emits (λ e, console_call e = false) (convert_as os category hwnd).
Proof.
  intros Hcat. destruct category; [|done|].
  - unfold convert_as, acquire, replace, plain_acquire, plain_primary_copy,
      plain_fallback_copy, plain_replace, clear_clipboard, get_clipboard_text,
      set_clipboard_text, switch_keyboard_layout, get_foreground_hwnd,
      send_ctrl_key, send_key_combo, send_two_modifier_combo, send_input_keys,
      os_call_.
    cbv zeta. emits_with ltac:(apply emits_call; reflexivity).
  - unfold convert_as, acquire, replace, terminal_acquire, terminal_replace,
      clear_clipboard, get_clipboard_text, type_text, switch_keyboard_layout,
      get_foreground_hwnd, send_key_press, send_two_modifier_combo,
      send_input_keys, os_call_.
    cbv zeta. emits_with ltac:(apply emits_call; reflexivity).
Qed.

(** X13.  Each conversion path keeps to its own mechanism: once the
    foreground window is classified, a LegacyConsole attempt makes no
    clipboard call at all (no open, read, write, allocation or lock), and a
    Plain or ModernTerminal attempt makes no console call (no attach, free,
    handle or buffer query), whatever the operating system answers and
    whether the attempt succeeds, fails or raises. *)
Theorem paths_keep_to_their_mechanism w0 category hwnd w r w' :
  enters os w0 category hwnd w →
  convert_selected_text os w0 = (r, w') →
  ∃ l, log w' = log w ++ l ∧
       match category with
       | LegacyConsole => Forall (λ e, clipboard_call e = false) l ∧ brackets l = []
       | _ => Forall (λ e, console_call e = false) l ∧ attachments l = []
       end.
Proof.
  intros Henter Hrun. rewrite (enters_run os _ _ _ _ Henter) in Hrun.
  assert (Hquiet : ∀ l, Forall (λ e, console_call e = false) l → attachments l = []).
  { intros l Hl. induction Hl as [|[R c] l Hc _ IH]; [done|].
    destruct c; try discriminate Hc; exact IH. }
  assert (Hclosed : ∀ l, Forall (λ e, clipboard_call e = false) l → brackets l = []).
  { intros l Hl. induction Hl as [|[R c] l Hc _ IH]; [done|].
    destruct c; try discriminate Hc; exact IH. }
  assert (Hfoot : ∃ l, log w' = log w ++ l ∧
            match category with
            | LegacyConsole => Forall (λ e, clipboard_call e = false) l
            | _ => Forall (λ e, console_call e = false) l
            end).
  { destruct category.
    - destruct (convert_as_no_console Plain hwnd ltac:(done) w)
        as (r' & w2 & l & Hrun' & Hlog & Hl).
      rewrite Hrun in Hrun'. injection Hrun' as <- <-. by exists l.
    - destruct (convert_as_no_clipboard hwnd w) as (r' & w2 & l & Hrun' & Hlog & Hl).
      rewrite Hrun in Hrun'. injection Hrun' as <- <-. by exists l.
    - destruct (convert_as_no_console ModernTerminal hwnd ltac:(done) w)
        as (r' & w2 & l & Hrun' & Hlog & Hl).
      rewrite Hrun in Hrun'. injection Hrun' as <- <-. by exists l. }
  destruct Hfoot as (l & Hlog & Hl). exists l. split; [exact Hlog|].
  destruct category; (split; [exact Hl|]); [apply Hquiet|apply Hclosed|apply Hquiet];
    exact Hl.
Qed.
End PathFootprints.

Lemma paths_keep_to_their_mechanism_witness :
  let w0 := console_window 1 1 11 (py "C:\> ghbdtn") in
  let w := (classify desktop_os 7 (get_foreground_hwnd desktop_os w0).2).2 in
  ∃ w' l,
    convert_selected_text desktop_os w0 = (Ok true, w') ∧
    log w' = log w ++ l ∧
    Forall (λ e, clipboard_call e = false) l.
Proof.
  intros w0 w.
  assert (Henter : enters desktop_os w0 LegacyConsole 7 w)
    by (exists (get_foreground_hwnd desktop_os w0).2; split; vm_compute; reflexivity).
  assert (Hrun : ∃ w', convert_selected_text desktop_os w0 = (Ok true, w'))
    by (eexists; vm_compute; reflexivity).
  destruct Hrun as [w' Hrun].
  destruct (paths_keep_to_their_mechanism desktop_os w0 LegacyConsole 7 w _ _
              Henter Hrun) as (l & Hlog & Hl).
  exists w', l. split; [exact Hrun|]. split; [exact Hlog|]. exact (proj1 Hl).
Defined.

Section FailedAttempts.
Context {St : Type} (os : OS St).
Implicit Types (w : World St) (l : list event).

Lemma copies_only_call {R} (c : call R) :
  posted_message (Ev c) = None → sent_batch (Ev c) = None → copies_only (Ev c).
Proof. intros Hp Hs. split; [exact Hp|]. intros batch. by rewrite Hs. Qed.

Lemma copies_only_logs {A} (m : M St A) n batch :
  logs m [Ev (SendInput n batch)] → batch ∈ copy_shortcuts → emits copies_only m.
Proof.
  intros Hm Hbatch. apply (emits_logs _ _ _ Hm).
  constructor; [|constructor]. split; [reflexivity|]. by intros ? [= <-].
Qed.

Lemma copies_only_ctrl_insert : emits copies_only (send_ctrl_key os 0x2D).
Proof.
  apply (copies_only_logs _ _ _ (logs_send_ctrl_key os 0x2D)), list_elem_of_here.
Qed.

Lemma copies_only_ctrl_shift_left :
  emits copies_only (send_two_modifier_combo os 0x11 0x10 0x25).
Proof.
  apply (copies_only_logs _ _ _ (logs_select_previous_word os)).
  apply list_elem_of_further, list_elem_of_here.
Qed.

Lemma copies_only_ctrl_shift_c :
  emits copies_only (send_two_modifier_combo os 0x11 0x10 0x43).
Proof.
  apply (copies_only_logs _ _ _ (logs_send_two_modifier_combo os 0x11 0x10 0x43)).
  do 2 apply list_elem_of_further. apply list_elem_of_here.
Qed.

Ltac copies_leaf :=
  first [ exact copies_only_ctrl_insert
        | exact copies_only_ctrl_shift_left
        | exact copies_only_ctrl_shift_c
        | apply emits_call; apply copies_only_call; reflexivity ].

Lemma acquire_copies_only category hwnd :
  emits copies_only (acquire os category hwnd).
Proof.
  destruct category.
  - unfold acquire, plain_acquire, plain_primary_copy, plain_fallback_copy,
      clear_clipboard, get_clipboard_text, os_call_.
    cbv zeta. emits_with copies_leaf.
  - unfold acquire, console_acquire, get_console_last_word.
    cbv zeta. emits_with copies_leaf.
  - unfold acquire, terminal_acquire, clear_clipboard, get_clipboard_text, os_call_.
    cbv zeta. emits_with copies_leaf.
Qed.

Lemma classify_copies_only hwnd : emits copies_only (classify os hwnd).
Proof.
  unfold classify, is_console_window, is_classic_console, get_window_class.
  cbv zeta. emits_with copies_leaf.
Qed.

Lemma copies_only_sent_posted l :
  Forall copies_only l →
  posted l = [] ∧ Forall (λ batch, batch ∈ copy_shortcuts) (sent l).
Proof.
  induction 1 as [|e l [Hp Hs] _ [IHp IHs]]; [by split|].
  unfold posted, sent. cbn [omap list_omap]. rewrite Hp.
  fold (omap posted_message l) (omap sent_batch l). fold (posted l) (sent l).
  split; [exact IHp|].
  destruct (sent_batch e) as [batch|]; [|exact IHs].
  constructor; [by apply Hs|exact IHs].
Qed.

Lemma replace_failed_run category word w r w' :
  replace os category word w = (r, w') → r ≠ Ok true →
  ∃ l, log w' = log w ++ l ∧ sent l = [] ∧ posted l = [].
Proof.
  intros Hrun Hr.
  destruct (decide (nonempty word = true ∧ convert_text (text_of word) ≠ text_of word))
    as [[Hne Hchanged]|Hsame].
  - destruct word as [word|]; [|done]. cbn [text_of default] in Hchanged.
    destruct (replace_changed_run os category word w Hchanged)
      as (r' & w2 & l & Hrun' & Hlog & Hl).
    rewrite Hrun in Hrun'. injection Hrun' as <- <-.
    exists l. split; [exact Hlog|].
    destruct category.
    + destruct Hl as [[-> _]|[_ Hl]]; [done|exact Hl].
    + by destruct Hl as [-> _].
    + by destruct Hl as [-> _].
  - exists []. rewrite app_nil_r.
    assert (Hstay : replace os category word w = (Ok false, w)).
    { destruct word as [[|c word]|]; try by destruct category.
      apply replace_unchanged. cbn [text_of default].
      destruct (decide (convert_text (c :: word) = c :: word)) as [|Hne]; [done|].
      exfalso. apply Hsame. by split. }
    rewrite Hrun in Hstay. by injection Hstay as -> ->.
Qed.

(** X14.  An attempt that does not return [True] has left the text alone:
    whatever the window and whatever the operating system answers, when
    [convert_selected_text] returns [False] or raises, it has posted no
    layout change message and every batch it has sent is one of the copy
    and select shortcuts (Ctrl+Insert, Ctrl+Shift+Left, Ctrl+Shift+C); so it
    has sent no backspace, no Ctrl+V and has typed no character. *)
Theorem failed_attempt_leaves_text_alone w0 r w' :
  convert_selected_text os w0 = (r, w') →
  r ≠ Ok true →
  ∃ l, log w' = log w0 ++ l ∧
       posted l = [] ∧
       Forall (λ batch, batch ∈ copy_shortcuts) (sent l) ∧
       (backspace_press ∉ sent l) ∧
       (combo 0x11 0x56 ∉ sent l) ∧
       typed l = [].
Proof.
  intros Hrun Hr.
  assert (Hcopies : ∃ l, log w' = log w0 ++ l ∧ posted l = [] ∧
                         Forall (λ batch, batch ∈ copy_shortcuts) (sent l)).
  { rewrite convert_selected_text_stages in Hrun.
    destruct (emits_call os copies_only GetForegroundWindow
                (copies_only_call GetForegroundWindow eq_refl eq_refl) w0)
      as (r0 & wa & l0 & Hrun0 & Hlog0 & Hl0).
    change (os_call os GetForegroundWindow) with (get_foreground_hwnd os) in Hrun0.
    destruct r0 as [hwnd|e].
    2: { rewrite (run_bind_raise _ _ _ _ _ Hrun0) in Hrun. injection Hrun as <- <-.
         exists l0. split; [exact Hlog0|]. by apply copies_only_sent_posted. }
    rewrite (run_bind _ _ _ _ _ Hrun0) in Hrun.
    destruct (classify_copies_only hwnd wa) as (r1 & w & l1 & Hrun1 & Hlog1 & Hl1).
    destruct r1 as [category|e].
    2: { rewrite (run_bind_raise _ _ _ _ _ Hrun1) in Hrun. injection Hrun as <- <-.
         exists (l0 ++ l1). split; [by rewrite Hlog1, Hlog0, (assoc_L (++))|].
         by apply copies_only_sent_posted, Forall_app. }
    rewrite (run_bind _ _ _ _ _ Hrun1) in Hrun. unfold convert_as in Hrun.
    destruct (acquire_copies_only category hwnd w)
      as (r2 & w1 & l2 & Hrun2 & Hlog2 & Hl2).
    assert (Hpre : Forall copies_only (l0 ++ l1 ++ l2))
      by (by repeat apply Forall_app_2).
    apply copies_only_sent_posted in Hpre as [Hposted Hsent].
    destruct r2 as [word|e].
    2: { rewrite (run_bind_raise _ _ _ _ _ Hrun2) in Hrun. injection Hrun as <- <-.
         exists (l0 ++ l1 ++ l2).
         split; [by rewrite Hlog2, Hlog1, Hlog0, !(assoc_L (++))|done]. }
    rewrite (run_bind _ _ _ _ _ Hrun2) in Hrun.
    destruct (replace_failed_run category word w1 r w' Hrun Hr)
      as (l3 & Hlog3 & Hsent3 & Hposted3).
    exists ((l0 ++ l1 ++ l2) ++ l3).
    split; [by rewrite Hlog3, Hlog2, Hlog1, Hlog0, !(assoc_L (++))|].
    rewrite posted_app, sent_app, Hposted, Hposted3, Hsent3, !app_nil_r.
    by split. }
  destruct Hcopies as (l & Hlog & Hposted & Hsent).
  exists l. split; [exact Hlog|]. split; [exact Hposted|]. split; [exact Hsent|].
  split_and!.
  - intros Hin. apply (proj1 (Forall_forall _ _) Hsent) in Hin. revert Hin.
    apply (bool_decide_unpack _). vm_compute. exact I.
  - intros Hin. apply (proj1 (Forall_forall _ _) Hsent) in Hin. revert Hin.
    apply (bool_decide_unpack _). vm_compute. exact I.
  - unfold typed. clear Hlog Hposted.
    induction Hsent as [|batch batches Hbatch _ IH]; [done|].
    cbn [mbind list_bind]. change (batches ≫= injected = []) in IH.
    change (injected batch ++ (batches ≫= injected) = []). rewrite IH, app_nil_r.
    revert batch Hbatch. apply Forall_forall. by repeat constructor.
Qed.
End FailedAttempts.

Lemma failed_attempt_leaves_text_alone_witness :
  let w0 := text_field [py "12345"] in
  ∃ w' l,
    convert_selected_text desktop_os w0 = (Ok false, w') ∧
    log w' = log w0 ++ l ∧
    posted l = [] ∧ typed l = [].
Proof.
  intros w0.
  assert (Hrun : ∃ w', convert_selected_text desktop_os w0 = (Ok false, w'))
    by (eexists; vm_compute; reflexivity).
  destruct Hrun as [w' Hrun].
  destruct (failed_attempt_leaves_text_alone desktop_os w0 _ _ Hrun ltac:(discriminate))
    as (l & Hlog & Hposted & _ & _ & _ & Htyped).
  exists w', l. split; [exact Hrun|]. split; [exact Hlog|].
  split; [exact Hposted|exact Htyped].
Defined.

(** * Properties of the border overlay *)

Lemma KLID_COLORS_lookup (hkl_value : Z) :
  Overlay.KLID_COLORS !! hkl_value =
  if decide (hkl_value = 0xF0010409) then Some (py "#8B008B", py "US-Intl")
  else if decide (hkl_value = 0x04090409) then Some (py "#00CED1", py "US")
  else if decide (hkl_value = 0x04190419) then Some (py "#DC143C", py "RU")
  else None.
Proof.
  unfold Overlay.KLID_COLORS.
  repeat case_decide; subst; simplify_map_eq; reflexivity.
Qed.

Lemma LANG_COLORS_lookup (lang_id : Z) :
  Overlay.LANG_COLORS !! lang_id =
  if decide (lang_id = 0x0409) then Some (py "#3498db", py "EN")
  else if decide (lang_id = 0x0419) then Some (py "#DC143C", py "RU")
  else None.
Proof.
  unfold Overlay.LANG_COLORS.
  repeat case_decide; subst; simplify_map_eq; reflexivity.
Qed.

Lemma low_word (hkl : Z) : Z.land (Z.land hkl 0xFFFFFFFF) 0xFFFF = hkl mod 2 ^ 16.
Proof.
  change 0xFFFFFFFF with (Z.ones 32). change 0xFFFF with (Z.ones 16).
  rewrite !Z.land_ones by lia.
  apply Z.mod_mod_divide. exists (2 ^ 16). reflexivity.
Qed.

(** X15.  The colour and name [get_keyboard_layout_for_hwnd] returns are
    decided by the low word of the layout handle, its language id, whatever
    the bits above bit 31: red RU exactly for 0x0419; one of the three
    English entries exactly for 0x0409 (the blue EN fallback when the handle
    is neither of the two English handles of [KLID_COLORS]); and the grey
    default exactly for every other language. *)
Theorem layout_shown_by_language_id (user32 : Overlay.User32) (hwnd : Z) :
  let hkl := Overlay.GetKeyboardLayout user32
               (Overlay.GetWindowThreadProcessId user32 hwnd) in
  let lang_id := hkl mod 2 ^ 16 in
  let shown := Overlay.get_keyboard_layout_for_hwnd user32 hwnd in
  (shown = (py "#DC143C", py "RU") ↔ lang_id = 0x0419) ∧
  (shown ∈ [(py "#8B008B", py "US-Intl"); (py "#00CED1", py "US");
            (py "#3498db", py "EN")] ↔ lang_id = 0x0409) ∧
  (shown = Overlay.DEFAULT_COLOR ↔ lang_id ≠ 0x0419 ∧ lang_id ≠ 0x0409) ∧
  (shown = (py "#3498db", py "EN") ↔
     lang_id = 0x0409 ∧ hkl mod 2 ^ 32 ≠ 0xF0010409 ∧ hkl mod 2 ^ 32 ≠ 0x04090409).
Proof.
  cbv zeta. unfold Overlay.get_keyboard_layout_for_hwnd. cbv zeta.
  set (hkl := Overlay.GetKeyboardLayout user32 _).
  rewrite KLID_COLORS_lookup, LANG_COLORS_lookup, low_word.
  change 0xFFFFFFFF with (Z.ones 32). rewrite Z.land_ones by lia.
  assert (Hlow : hkl mod 2 ^ 16 = (hkl mod 2 ^ 32) mod 2 ^ 16).
  { symmetry. apply Z.mod_mod_divide. exists (2 ^ 16). reflexivity. }
  rewrite Hlow. generalize (hkl mod 2 ^ 32). intros v. clear Hlow hkl.
  assert (Hne : NoDup [(py "#8B008B", py "US-Intl"); (py "#00CED1", py "US");
                       (py "#3498db", py "EN"); (py "#DC143C", py "RU");
                       Overlay.DEFAULT_COLOR])
    by (apply (bool_decide_unpack _); vm_compute; exact I).
  revert Hne. unfold Overlay.DEFAULT_COLOR.
  generalize (py "#8B008B", py "US-Intl") (py "#00CED1", py "US")
    (py "#3498db", py "EN") (py "#DC143C", py "RU") (py "#7f8c8d", py "??").
  intros intl us en_ ru_ unknown Hne.
  rewrite !NoDup_cons, !not_elem_of_cons in Hne.
  rewrite !elem_of_cons, elem_of_nil.
  destruct (decide (v = 0xF0010409)) as [->|H1].
  { change (4026598409 `mod` 2 ^ 16) with 1033. intuition (first [congruence | lia]). }
  destruct (decide (v = 0x04090409)) as [->|H2].
  { change (67699721 `mod` 2 ^ 16) with 1033. intuition (first [congruence | lia]). }
  destruct (decide (v = 0x04190419)) as [->|H3].
  { change (68748313 `mod` 2 ^ 16) with 1049. intuition (first [congruence | lia]). }
  destruct (decide (v `mod` 2 ^ 16 = 0x0409)) as [H4|H4].
  { rewrite H4. intuition (first [congruence | lia]). }
  destruct (decide (v `mod` 2 ^ 16 = 0x0419)) as [H5|H5].
  { rewrite H5. intuition (first [congruence | lia]). }
  intuition (first [congruence | lia]).
Qed.

Section OverlayFacts.
Import Overlay PrimFloat.

Lemma fmap_bind_list {A B C} (f : B → C) (g : A → list B) (l : list A) :
  f <$> (l ≫= g) = l ≫= (λ x, f <$> g x).
Proof.
  induction l as [|x l IH]; [done|].
  cbn [mbind list_bind]. change (f <$> g x ++ (l ≫= g) = (f <$> g x) ++ (l ≫= λ x, f <$> g x)).
  by rewrite fmap_app, IH.
Qed.

Lemma set_visible_init (e : Edge) (color : str) (work_area : Z * Z * Z * Z) :
  BorderWindow_set_visible true (BorderWindow_init e color work_area)
  = BorderWindow_init e color work_area.
Proof.
  destruct work_area as [[[work_left work_top] work_right] work_bottom].
  unfold BorderWindow_set_visible, BorderWindow_init. cbn [layers edge].
  f_equal. rewrite <- list_fmap_compose. apply list_fmap_ext.
  intros _ i _. by destruct e.
Qed.

Lemma set_visible_hidden (visible : bool) (border : BorderWindow) :
  BorderWindow_set_visible visible (BorderWindow_set_visible false border)
  = BorderWindow_set_visible visible border.
Proof.
  unfold BorderWindow_set_visible. cbn [layers edge]. f_equal.
  rewrite <- list_fmap_compose. apply list_fmap_ext. by intros _ layer _.
Qed.

Lemma set_visible_borders_for (visible : bool) monitors color (visible' : bool) :
  BorderWindow_set_visible visible <$> borders_for monitors color visible'
  = borders_for monitors color visible.
Proof.
  unfold borders_for. rewrite fmap_bind_list. apply list_bind_ext; [|done].
  intros work_area. rewrite <- list_fmap_compose. apply list_fmap_ext.
  intros _ e _. cbn.
  destruct visible'; [|rewrite set_visible_hidden];
    destruct visible; by rewrite ?set_visible_init.
Qed.

Lemma set_color_init color' (e : Edge) color (work_area : Z * Z * Z * Z) :
  BorderWindow_set_color color' (BorderWindow_init e color work_area)
  = BorderWindow_init e color' work_area.
Proof.
  destruct work_area as [[[work_left work_top] work_right] work_bottom].
  unfold BorderWindow_set_color, BorderWindow_init. cbn [layers edge].
  f_equal. rewrite <- list_fmap_compose. apply list_fmap_ext.
  intros _ i _. by destruct e.
Qed.

Lemma set_color_hidden color' (border : BorderWindow) :
  BorderWindow_set_color color' (BorderWindow_set_visible false border)
  = BorderWindow_set_visible false (BorderWindow_set_color color' border).
Proof.
  unfold BorderWindow_set_color, BorderWindow_set_visible. cbn [layers edge].
  f_equal. rewrite <- !list_fmap_compose. apply list_fmap_ext. by intros _ layer _.
Qed.

Lemma set_color_borders_for color' monitors color (visible : bool) :
  BorderWindow_set_color color' <$> borders_for monitors color visible
  = borders_for monitors color' visible.
Proof.
  unfold borders_for. rewrite fmap_bind_list. apply list_bind_ext; [|done].
  intros work_area. rewrite <- list_fmap_compose. apply list_fmap_ext.
  intros _ e _. cbn.
  destruct visible; by rewrite ?set_color_hidden, set_color_init.
Qed.

Lemma borders_create_borders user32 (self : LayoutIndicator) :
  borders (_create_borders user32 self)
  = borders_for (get_all_monitors user32)
      (or_else (current_color self) DEFAULT_COLOR.1) (shown self).
Proof.
  unfold _create_borders, borders_for, shown. cbn [borders SHOW_ALL_EDGES].
  apply list_bind_ext; [|done]. intros work_area. apply list_fmap_ext.
  intros _ e _. by destruct (borders_visible self), (fullscreen_hidden self).
Qed.

Lemma layout_is_entry user32 hwnd :
  get_keyboard_layout_for_hwnd user32 hwnd ∈ entries.
Proof.
  unfold get_keyboard_layout_for_hwnd. cbv zeta.
  rewrite KLID_COLORS_lookup, LANG_COLORS_lookup. unfold entries.
  repeat case_decide.
  - apply list_elem_of_here.
  - apply list_elem_of_further, list_elem_of_here.
  - do 2 apply list_elem_of_further. apply list_elem_of_here.
  - do 3 apply list_elem_of_further. apply list_elem_of_here.
  - do 2 apply list_elem_of_further. apply list_elem_of_here.
  - do 4 apply list_elem_of_further. apply list_elem_of_here.
Qed.

Lemma entries_name_of_colour color name name' :
  (color, name) ∈ entries → (color, name') ∈ entries → name = name'.
Proof.
  assert (Hall : Forall (λ a, Forall (λ b, a.1 = b.1 → a.2 = b.2) entries) entries).
  { apply (bool_decide_unpack _). vm_compute. exact I. }
  intros Ha Hb.
  exact (proj1 (Forall_forall _ _) (proj1 (Forall_forall _ _) Hall _ Ha) _ Hb eq_refl).
Qed.

Lemma entries_truthy color name (d d' : str) :
  (color, name) ∈ entries →
  or_else (Some color) d = color ∧ or_else (Some name) d' = name.
Proof.
  assert (Hall : Forall (λ a, a.1 ≠ [] ∧ a.2 ≠ []) entries).
  { apply (bool_decide_unpack _). vm_compute. exact I. }
  intros Ha. destruct (proj1 (Forall_forall _ _) Hall _ Ha) as [Hc Hn].
  cbn in Hc, Hn. by destruct color, name.
Qed.

Lemma create_borders_eq user32 (self : LayoutIndicator) :
  _create_borders user32 self =
  {| borders := borders_for (get_all_monitors user32)
                  (or_else (current_color self) DEFAULT_COLOR.1) (shown self);
     current_color := current_color self;
     current_name := current_name self;
     running := running self;
     tray_icon := tray_icon self;
     borders_visible := borders_visible self;
     fullscreen_hidden := fullscreen_hidden self;
     current_monitors := Some (get_all_monitors user32) |}.
Proof. rewrite <- borders_create_borders. reflexivity. Qed.

Lemma check_layout_steps (HAS_TRAY : bool) user32 (self : LayoutIndicator) :
  _check_layout HAS_TRAY user32 self =
  if negb (running self) then self
  else
    track_layout HAS_TRAY
      (get_keyboard_layout_for_hwnd user32 (get_foreground_hwnd user32))
      (track_fullscreen (is_fullscreen user32 (get_foreground_hwnd user32))
         (refresh_borders user32 self)).
Proof. reflexivity. Qed.

Lemma refresh_borders_spec (HAS_TRAY : bool) user32 (self : LayoutIndicator) :
  consistent HAS_TRAY self →
  refresh_borders user32 self =
  {| borders := borders_for (get_all_monitors user32)
                  (or_else (current_color self) DEFAULT_COLOR.1) (shown self);
     current_color := current_color self;
     current_name := current_name self;
     running := running self;
     tray_icon := tray_icon self;
     borders_visible := borders_visible self;
     fullscreen_hidden := fullscreen_hidden self;
     current_monitors := Some (get_all_monitors user32) |}.
Proof.
  intros (monitors & Hm & Hb & _). unfold refresh_borders. cbv zeta.
  case_bool_decide as Hmon; [apply create_borders_eq|].
  rewrite <- Hmon in Hm. injection Hm as <-.
  destruct self as [bs cc cn run tray bv fh cm]. unfold shown in *.
  cbn [borders current_color current_name running tray_icon borders_visible
       fullscreen_hidden current_monitors] in *.
  by rewrite Hb, Hmon.
Qed.

Lemma track_fullscreen_spec (fullscreen : bool) monitors color (self : LayoutIndicator) :
  borders self = borders_for monitors color (shown self) →
  track_fullscreen fullscreen self =
  {| borders := borders_for monitors color (borders_visible self && negb fullscreen);
     current_color := current_color self;
     current_name := current_name self;
     running := running self;
     tray_icon := tray_icon self;
     borders_visible := borders_visible self;
     fullscreen_hidden := fullscreen;
     current_monitors := current_monitors self |}.
Proof.
  destruct self as [bs cc cn run tray bv fh cm]. unfold shown, track_fullscreen.
  cbn [borders borders_visible fullscreen_hidden]. intros ->.
  destruct fullscreen, fh, bv;
    cbn [negb andb set_fullscreen_hidden set_borders borders current_color current_name
         running tray_icon borders_visible fullscreen_hidden current_monitors];
    by rewrite ?set_visible_borders_for.
Qed.

Lemma track_layout_spec (HAS_TRAY : bool) color name monitors (visible : bool)
    (self : LayoutIndicator) :
  (color, name) ∈ entries →
  borders self = borders_for monitors (or_else (current_color self) DEFAULT_COLOR.1) visible →
  ((current_color self = None ∧ current_name self = None) ∨
   ∃ color name, (color, name) ∈ entries ∧
     current_color self = Some color ∧ current_name self = Some name) →
  match tray_icon self with
  | None => True
  | Some tray =>
    HAS_TRAY = true ∧
    tray = {| icon := or_else (current_color self) DEFAULT_COLOR.1;
              title := py "Layout: " ++ or_else (current_name self) (py "?") |}
  end →
  track_layout HAS_TRAY (color, name) self =
  {| borders := borders_for monitors color visible;
     current_color := Some color;
     current_name := Some name;
     running := running self;
     tray_icon := (λ _, {| icon := color; title := py "Layout: " ++ name |})
                    <$> tray_icon self;
     borders_visible := borders_visible self;
     fullscreen_hidden := fullscreen_hidden self;
     current_monitors := current_monitors self |}.
Proof.
  intros Hentry Hb Hcn Htray.
  destruct (entries_truthy color name DEFAULT_COLOR.1 (py "?") Hentry) as [Hcolor Hname].
  revert Hb Hcn Htray Hcolor Hname.
  generalize (py "?") DEFAULT_COLOR.1. intros unknown default.
  destruct self as [bs cc cn run tray bv fh cm]. unfold track_layout, _update_tray_icon.
  generalize (py "Layout: "). intros prefix.
  cbn [borders current_color current_name running tray_icon borders_visible
       fullscreen_hidden current_monitors].
  intros -> Hcn Htray Hcolor Hname.
  case_bool_decide as Hc.
  - rewrite set_color_borders_for. destruct tray as [tray|].
    + destruct Htray as [-> _]. reflexivity.
    + reflexivity.
  - subst cc.
    destruct Hcn as [[? _]|(c & n & Hin & [= <-] & ->)]; [done|].
    rewrite (entries_name_of_colour _ _ _ Hin Hentry) in *.
    rewrite Hcolor. destruct tray as [tray|]; [|reflexivity].
    destruct Htray as [_ ->]. cbn [fmap option_fmap option_map].
    by rewrite Hcolor, Hname.
Qed.

(** What one run of [_check_layout] leaves, from a consistent state. *)
Lemma check_layout_spec (HAS_TRAY : bool) user32 (self : LayoutIndicator) :
  consistent HAS_TRAY self → running self = true →
  let layout := get_keyboard_layout_for_hwnd user32 (get_foreground_hwnd user32) in
  let fullscreen := is_fullscreen user32 (get_foreground_hwnd user32) in
  _check_layout HAS_TRAY user32 self =
  {| borders := borders_for (get_all_monitors user32) layout.1
                  (borders_visible self && negb fullscreen);
     current_color := Some layout.1;
     current_name := Some layout.2;
     running := true;
     tray_icon := (λ _, {| icon := layout.1; title := py "Layout: " ++ layout.2 |})
                    <$> tray_icon self;
     borders_visible := borders_visible self;
     fullscreen_hidden := fullscreen;
     current_monitors := Some (get_all_monitors user32) |}.
Proof.
  intros Hcons Hrun. cbv zeta. rewrite check_layout_steps, Hrun. cbn [negb].
  pose proof (layout_is_entry user32 (get_foreground_hwnd user32)) as Hentry.
  destruct (get_keyboard_layout_for_hwnd user32 (get_foreground_hwnd user32))
    as [color name].
  rewrite (refresh_borders_spec HAS_TRAY user32 self Hcons).
  destruct Hcons as (monitors & Hm & Hb & Hcn & Htray).
  erewrite track_fullscreen_spec by reflexivity.
  erewrite (track_layout_spec HAS_TRAY color name); [|exact Hentry|reflexivity|exact Hcn|exact Htray].
  cbn [running fst snd]. by rewrite Hrun.
Qed.

Lemma consistent_check_layout (HAS_TRAY : bool) user32 (self : LayoutIndicator) :
  consistent HAS_TRAY self → consistent HAS_TRAY (_check_layout HAS_TRAY user32 self).
Proof.
  intros Hcons. destruct (running self) eqn:Hrun.
  2: { by rewrite check_layout_steps, Hrun. }
  rewrite (check_layout_spec HAS_TRAY user32 self Hcons Hrun).
  pose proof (layout_is_entry user32 (get_foreground_hwnd user32)) as Hentry.
  destruct (get_keyboard_layout_for_hwnd user32 (get_foreground_hwnd user32))
    as [color name].
  destruct (entries_truthy color name DEFAULT_COLOR.1 (py "?") Hentry) as [Hcolor Hname].
  destruct Hcons as (_ & _ & _ & _ & Htray).
  exists (get_all_monitors user32). unfold shown.
  cbn [borders current_color current_name running tray_icon borders_visible
       fullscreen_hidden current_monitors fst snd].
  rewrite Hcolor, Hname. split_and!; [done|done|right; by exists color, name|].
  destruct (tray_icon self) as [tray|]; [|done]. by destruct Htray as [-> _].
Qed.

Lemma consistent_toggle_borders (HAS_TRAY : bool) (self : LayoutIndicator) :
  consistent HAS_TRAY self → consistent HAS_TRAY (toggle_borders self).
Proof.
  intros (monitors & Hm & Hb & Hcn & Htray). exists monitors.
  destruct self as [bs cc cn run tray bv fh cm]. unfold shown, toggle_borders in *.
  cbn [borders current_color current_name running tray_icon borders_visible
       fullscreen_hidden current_monitors] in *.
  subst bs. destruct fh, bv;
    cbn [negb andb set_borders borders current_color current_name running tray_icon
         borders_visible fullscreen_hidden current_monitors];
    by rewrite ?set_visible_borders_for.
Qed.

Lemma consistent_on_quit (HAS_TRAY : bool) (self : LayoutIndicator) :
  consistent HAS_TRAY self → consistent HAS_TRAY (on_quit self).
Proof. intros (monitors & Hcons). by exists monitors. Qed.

Lemma consistent_setup_tray (self : LayoutIndicator) :
  consistent true self → consistent true (_setup_tray self).
Proof. intros (monitors & Hm & Hb & Hcn & _). by exists monitors. Qed.

Lemma consistent_handle (HAS_TRAY : bool) (self : LayoutIndicator) (e : Event) :
  consistent HAS_TRAY self → consistent HAS_TRAY (handle HAS_TRAY self e).
Proof.
  destruct e; cbn [handle];
    eauto using consistent_check_layout, consistent_toggle_borders, consistent_on_quit.
Qed.

Lemma constructed_check_layout (HAS_TRAY : bool) user32 (self : LayoutIndicator) :
  consistent HAS_TRAY self → constructed HAS_TRAY self →
  constructed HAS_TRAY (_check_layout HAS_TRAY user32 self).
Proof.
  intros Hcons [Hcolor Htray]. destruct (running self) eqn:Hrun.
  2: { by rewrite check_layout_steps, Hrun. }
  rewrite (check_layout_spec HAS_TRAY user32 self Hcons Hrun).
  split; cbn [current_color tray_icon]; [by eexists|].
  rewrite <- Htray. by rewrite fmap_is_Some.
Qed.

Lemma constructed_handle (HAS_TRAY : bool) (self : LayoutIndicator) (e : Event) :
  consistent HAS_TRAY self → constructed HAS_TRAY self →
  constructed HAS_TRAY (handle HAS_TRAY self e).
Proof.
  intros Hcons Hself. destruct e; cbn [handle].
  - by apply constructed_check_layout.
  - destruct Hself as [Hcolor Htray]. unfold toggle_borders. cbv zeta.
    cbn [fullscreen_hidden]. by destruct (negb (fullscreen_hidden self)).
  - exact Hself.
Qed.

Lemma init_consistent (HAS_TRAY : bool) user32 :
  consistent HAS_TRAY (__init__ HAS_TRAY user32) ∧
  constructed HAS_TRAY (__init__ HAS_TRAY user32).
Proof.
  unfold __init__. cbv zeta.
  set (self0 := _create_borders user32 _).
  assert (Hcons0 : consistent HAS_TRAY self0).
  { exists (get_all_monitors user32). unfold self0. rewrite create_borders_eq.
    cbn [borders current_color current_name running tray_icon borders_visible
         fullscreen_hidden current_monitors]. split_and!; [done|done|by left|done]. }
  assert (Hrun0 : running self0 = true) by reflexivity.
  assert (Htray0 : tray_icon self0 = None) by reflexivity.
  pose proof (consistent_check_layout HAS_TRAY user32 self0 Hcons0) as Hcons1.
  pose proof (check_layout_spec HAS_TRAY user32 self0 Hcons0 Hrun0) as Hspec.
  cbv zeta in Hspec. rewrite Htray0 in Hspec.
  set (self1 := _check_layout HAS_TRAY user32 self0) in *. clearbody self1.
  destruct HAS_TRAY.
  - split; [by apply consistent_setup_tray|].
    split; cbn [_setup_tray current_color tray_icon]; [by rewrite Hspec|by split].
  - split; [exact Hcons1|]. rewrite Hspec. split; cbn [current_color tray_icon]; [done|].
    split; [by intros []|done].
Qed.

Lemma after_consistent (HAS_TRAY : bool) user32 (events : list Event) :
  consistent HAS_TRAY (after HAS_TRAY user32 events) ∧
  constructed HAS_TRAY (after HAS_TRAY user32 events).
Proof.
  unfold after. induction events as [|e events [IHcons IHself]] using rev_ind.
  - apply init_consistent.
  - rewrite foldl_snoc. split.
    + by apply consistent_handle.
    + by apply constructed_handle.
Qed.

Lemma borders_for_layers monitors color (visible : bool) border layer :
  border ∈ borders_for monitors color visible → layer ∈ layers border →
  bg layer = color ∧
  alpha layer = if visible then base_alpha layer else 0%float.
Proof.
  unfold borders_for. intros Hborder Hlayer.
  apply list_elem_of_bind in Hborder as (work_area & Hborder & _).
  apply list_elem_of_fmap in Hborder as (e & -> & _).
  destruct work_area as [[[work_left work_top] work_right] work_bottom].
  destruct visible.
  - cbn [BorderWindow_init layers] in Hlayer.
    apply list_elem_of_fmap in Hlayer as (i & -> & _). by destruct e.
  - cbn [BorderWindow_set_visible BorderWindow_init layers] in Hlayer.
    rewrite <- list_fmap_compose in Hlayer.
    apply list_elem_of_fmap in Hlayer as (i & -> & _). by destruct e.
Qed.

Lemma length_borders_for monitors color (visible : bool) :
  length (borders_for monitors color visible) = (4 * length monitors)%nat.
Proof.
  unfold borders_for. induction monitors as [|work_area monitors IH]; [done|].
  rewrite bind_cons, length_app, IH, length_fmap. cbn [length]. lia.
Qed.

(** X16.  [is_fullscreen] compares the window with the full rectangle of
    its monitor, not with the work area: a window reported fullscreen is at
    least as wide and as tall as the monitor, and a window that stays within
    a work area smaller than the monitor (a maximised window beside a
    taskbar) is never fullscreen; neither is the null window. *)
Theorem fullscreen_means_covering_the_monitor (user32 : User32) (hwnd : Z) :
  let window := (GetWindowRect user32 hwnd).2 in
  let info := (GetMonitorInfoW user32 (MonitorFromWindow user32 hwnd 2)).2 in
  let monitor := rcMonitor info in
  let work := rcWork info in
  (is_fullscreen user32 hwnd = true →
     hwnd ≠ 0 ∧
     right monitor - left monitor ≤ right window - left window ∧
     bottom monitor - top monitor ≤ bottom window - top window) ∧
  (left work ≤ left window → top work ≤ top window →
   right window ≤ right work → bottom window ≤ bottom work →
   left monitor ≤ left work → top monitor ≤ top work →
   right work ≤ right monitor → bottom work ≤ bottom monitor →
   work ≠ monitor →
   is_fullscreen user32 hwnd = false).
Proof.
  cbv zeta. unfold is_fullscreen. cbv zeta. unfold truthy.
  destruct (GetWindowRect user32 hwnd) as [ok window].
  destruct (GetMonitorInfoW user32 (MonitorFromWindow user32 hwnd 2)) as [ok' info].
  cbn [fst snd]. split.
  - destruct (hwnd =? 0) eqn:Hhwnd; cbn [negb]; [done|].
    destruct (negb (negb (ok =? 0))); [done|].
    destruct (negb (negb (MonitorFromWindow user32 hwnd 2 =? 0))); [done|].
    destruct (negb (negb (ok' =? 0))); [done|].
    intros Hcover. apply Z.eqb_neq in Hhwnd.
    repeat (apply andb_prop in Hcover as [Hcover ?]). lia.
  - intros ? ? ? ? ? ? ? ? Hwork.
    destruct (negb (negb (hwnd =? 0))); [done|].
    destruct (negb (negb (ok =? 0))); [done|].
    destruct (negb (negb (MonitorFromWindow user32 hwnd 2 =? 0))); [done|].
    destruct (negb (negb (ok' =? 0))); [done|].
    apply not_true_is_false. intros Hcover.
    repeat (apply andb_prop in Hcover as [Hcover ?]).
    apply Hwork. destruct (rcWork info), (rcMonitor info). cbn in *.
    f_equal; lia.
Qed.

Lemma fullscreen_means_covering_the_monitor_witness :
  let maximised := {| left := 0; top := 0; right := 1920; bottom := 1040 |} in
  let screen := {| left := 0; top := 0; right := 1920; bottom := 1080 |} in
  is_fullscreen (single_monitor 0x04090409 maximised) 5 = false ∧
  is_fullscreen (single_monitor 0x04090409 screen) 5 = true ∧
  right screen - left screen = 1920.
Proof.
  intros maximised screen.
  pose proof (fullscreen_means_covering_the_monitor
                (single_monitor 0x04090409 maximised) 5) as [_ Hwork].
  pose proof (fullscreen_means_covering_the_monitor
                (single_monitor 0x04090409 screen) 5) as [Hcover _].
  split; [|split; [reflexivity|]].
  - apply Hwork; cbn; try lia. discriminate.
  - destruct (Hcover eq_refl) as (_ & Hwide & _). cbn in Hwide. cbn. lia.
Defined.

(** X17.  Whatever the timer and the tray menu do after the construction,
    the indicator stays consistent: it has a colour and a name that form one
    entry of the colour tables; its windows are exactly the borders of the
    recorded monitors, four per monitor, every layer in that colour and shown
    at its own opacity when borders are enabled and no fullscreen window
    hides them, at opacity 0 otherwise; and the tray icon, present exactly
    when pystray was imported, shows that colour and name. *)
Theorem indicator_stays_consistent (HAS_TRAY : bool) (user32 : User32)
    (events : list Event) :
  let self := after HAS_TRAY user32 events in
  ∃ monitors color name,
    current_monitors self = Some monitors ∧
    current_color self = Some color ∧
    current_name self = Some name ∧
    (color, name) ∈ entries ∧
    borders self = borders_for monitors color (shown self) ∧
    length (borders self) = (4 * length monitors)%nat ∧
    (∀ border layer, border ∈ borders self → layer ∈ layers border →
       bg layer = color ∧
       alpha layer = if shown self then base_alpha layer else 0%float) ∧
    tray_icon self =
      if HAS_TRAY then Some {| icon := color; title := py "Layout: " ++ name |}
      else None.
Proof.
  cbv zeta.
  destruct (after_consistent HAS_TRAY user32 events)
    as [(monitors & Hm & Hb & Hcn & Htray) [[color Hcolor] Hhas]].
  destruct Hcn as [[Hnone _]|(color' & name & Hentry & Hcolor' & Hname)]; [congruence|].
  assert (color' = color) as -> by congruence.
  destruct (entries_truthy color name DEFAULT_COLOR.1 (py "?") Hentry) as [Hc Hn].
  rewrite Hcolor, Hc in Hb. rewrite Hcolor, Hname, Hc, Hn in Htray.
  exists monitors, color, name.
  split_and!; [exact Hm|exact Hcolor|exact Hname|exact Hentry|exact Hb| | |].
  - rewrite Hb. apply length_borders_for.
  - rewrite Hb. apply borders_for_layers.
  - destruct (tray_icon (after HAS_TRAY user32 events)) as [tray|].
    + destruct Htray as [-> ->]. reflexivity.
    + destruct HAS_TRAY; [|done]. by destruct (proj2 Hhas eq_refl).
Qed.

(** X18.  A timer tick brings a running indicator in line with the desktop
    of that moment: the recorded monitors are those enumerated now, the
    borders are hidden exactly when the foreground window is fullscreen or
    the user has switched them off, colour and name are those of the
    foreground window's keyboard layout, every border is in that colour, and
    the tray icon shows it; the manual toggle is left as it was. *)
Theorem check_layout_tracks_the_desktop (HAS_TRAY : bool) (user32_0 user32 : User32)
    (events : list Event) :
  let self := after HAS_TRAY user32_0 events in
  let layout := get_keyboard_layout_for_hwnd user32 (get_foreground_hwnd user32) in
  let fullscreen := is_fullscreen user32 (get_foreground_hwnd user32) in
  running self = true →
  _check_layout HAS_TRAY user32 self =
  {| borders := borders_for (get_all_monitors user32) layout.1
                  (borders_visible self && negb fullscreen);
     current_color := Some layout.1;
     current_name := Some layout.2;
     running := true;
     tray_icon :=
       if HAS_TRAY then Some {| icon := layout.1; title := py "Layout: " ++ layout.2 |}
       else None;
     borders_visible := borders_visible self;
     fullscreen_hidden := fullscreen;
     current_monitors := Some (get_all_monitors user32) |}.
Proof.
  cbv zeta. intros Hrun.
  destruct (after_consistent HAS_TRAY user32_0 events) as [Hcons [_ Hhas]].
  rewrite (check_layout_spec HAS_TRAY user32 _ Hcons Hrun). f_equal.
  destruct (tray_icon (after HAS_TRAY user32_0 events)) as [tray|].
  - by rewrite (proj1 Hhas ltac:(by eexists)).
  - destruct HAS_TRAY; [|done]. by destruct (proj2 Hhas eq_refl).
Qed.

Lemma check_layout_tracks_the_desktop_witness :
  let window := {| left := 100; top := 100; right := 900; bottom := 700 |} in
  let screen := {| left := 0; top := 0; right := 1920; bottom := 1080 |} in
  let self := after true (single_monitor 0x04090409 window) [ToggleBorders] in
  running self = true ∧
  fullscreen_hidden (_check_layout true (single_monitor 0x04190419 screen) self) = true ∧
  current_name (_check_layout true (single_monitor 0x04190419 screen) self)
    = Some (py "RU").
Proof.
  intros window screen self.
  assert (Hrun : running self = true) by reflexivity.
  split; [exact Hrun|]. unfold self in *.
  rewrite (check_layout_tracks_the_desktop true (single_monitor 0x04090409 window)
             (single_monitor 0x04190419 screen) [ToggleBorders] Hrun).
  split; reflexivity.
Defined.

Lemma lookup_range (n : Z) (i : nat) (k : Z) :
  range n !! i = Some k ↔ k = Z.of_nat i ∧ Z.of_nat i < n.
Proof. unfold range. rewrite lookup_seqZ. by rewrite Z.add_0_l. Qed.

(** X19.  The six layers of a border are one pixel thick, lie side by
    side without overlap, and cover exactly the band that starts at the
    border's edge of the work area, runs [BORDER_THICKNESS] pixels toward
    the inside and spans the work area along the edge.  So every pixel of
    the work area within [BORDER_THICKNESS] of the edge is covered; and
    when the work area is at least [BORDER_THICKNESS] deep across the edge,
    the pixels covered are exactly those, all inside the work area.  (In a
    thinner work area the band reaches past the opposite edge.) *)
Theorem border_layers_tile_the_strip (e : Edge) (color : str)
    (work_area : Z * Z * Z * Z) (px py_ : Z) :
  let border := BorderWindow_init e color work_area in
  let covered := ∃ layer, layer ∈ layers border ∧ covers layer px py_ in
  length (layers border) = 6%nat ∧
  (covered ↔ along_edge e work_area px py_ ∧ near_edge e work_area px py_) ∧
  (in_strip e work_area px py_ → covered) ∧
  (deep_enough e work_area → (covered ↔ in_strip e work_area px py_)) ∧
  (∀ i j layer_i layer_j,
     layers border !! i = Some layer_i → layers border !! j = Some layer_j →
     covers layer_i px py_ → covers layer_j px py_ → i = j).
Proof.
  cbv zeta. destruct work_area as [[[work_left work_top] work_right] work_bottom].
  unfold BorderWindow_init. cbn [layers].
  match goal with |- context [?f <$> range _] => set (layer_at := f) end.
  assert (Hcovers : ∀ i, covers (layer_at i) px py_ ↔
            match e with
            | Top => work_left ≤ px < work_right ∧ py_ = work_top + i
            | Bottom => work_left ≤ px < work_right ∧ py_ = work_bottom - 6 + i
            | Left => px = work_left + i ∧ work_top ≤ py_ < work_bottom
            | Right => px = work_right - 6 + i ∧ work_top ≤ py_ < work_bottom
            end).
  { intros i. unfold layer_at, covers, BORDER_THICKNESS.
    destruct e; cbn [BorderLayer_init geometry]; lia. }
  clearbody layer_at.
  assert (Hband : (∃ layer, layer ∈ layer_at <$> range BORDER_THICKNESS ∧
                            covers layer px py_) ↔
                  along_edge e (work_left, work_top, work_right, work_bottom) px py_ ∧
                  near_edge e (work_left, work_top, work_right, work_bottom) px py_).
  { unfold along_edge, near_edge, BORDER_THICKNESS. split.
    - intros (layer & Hlayer & Hcov).
      apply list_elem_of_fmap in Hlayer as (i & -> & Hi).
      apply elem_of_seqZ in Hi. apply Hcovers in Hcov. destruct e; lia.
    - intros Hin.
      exists (layer_at match e with
                       | Top => py_ - work_top
                       | Bottom => py_ - (work_bottom - 6)
                       | Left => px - work_left
                       | Right => px - (work_right - 6)
                       end).
      split.
      + apply list_elem_of_fmap_2, elem_of_seqZ. destruct e; lia.
      + apply Hcovers. destruct e; lia. }
  split; [by rewrite length_fmap|]. split; [exact Hband|].
  rewrite Hband. unfold in_strip, in_work_area, along_edge, near_edge, deep_enough,
    BORDER_THICKNESS.
  split; [destruct e; lia|]. split; [destruct e; lia|].
  intros i j layer_i layer_j Hi Hj Hcov_i Hcov_j.
  apply list_lookup_fmap_Some in Hi as (ki & -> & Hi).
  apply list_lookup_fmap_Some in Hj as (kj & -> & Hj).
  apply lookup_range in Hi as [-> _]. apply lookup_range in Hj as [-> _].
  apply Hcovers in Hcov_i. apply Hcovers in Hcov_j. destruct e; lia.
Qed.

Lemma border_layers_tile_the_strip_witness :
  let screen := (0, 0, 1920, 1040) in
  let sliver := (100, 50, 103, 52) in
  deep_enough Bottom screen ∧
  ((∃ layer, layer ∈ layers (BorderWindow_init Bottom [] screen) ∧
             covers layer 7 1036) ↔ in_strip Bottom screen 7 1036) ∧
  ¬ deep_enough Top sliver ∧
  (∃ layer, layer ∈ layers (BorderWindow_init Top [] sliver) ∧ covers layer 100 53) ∧
  ¬ in_work_area sliver 100 53.
Proof.
  intros screen sliver.
  assert (Hdeep : deep_enough Bottom screen) by (cbn; unfold BORDER_THICKNESS; lia).
  destruct (border_layers_tile_the_strip Bottom [] screen 7 1036)
    as (_ & _ & _ & Hstrip & _).
  destruct (border_layers_tile_the_strip Top [] sliver 100 53)
    as (_ & Hband & _).
  split; [exact Hdeep|]. split; [exact (Hstrip Hdeep)|].
  split; [cbn; unfold BORDER_THICKNESS; lia|].
  split; [apply Hband; cbn; unfold BORDER_THICKNESS; lia|].
  cbn. lia.
Defined.

(** X20.  Opacity falls off from the boundary of the work area inward, on
    every edge: the outermost layer of a border has exactly
    [BORDER_OPACITY_OUTER], each layer further in is strictly less opaque
    than the one before, none is below [BORDER_OPACITY_INNER], and the
    innermost one stays above it by a rounding error; a new layer is shown
    at its base opacity. *)
Theorem border_opacity_falls_inward (e : Edge) (color : str)
    (work_area : Z * Z * Z * Z) (i j : nat) (layer_i layer_j : BorderLayer) :
  let border := BorderWindow_init e color work_area in
  layers border !! i = Some layer_i →
  layers border !! j = Some layer_j →
  alpha layer_i = base_alpha layer_i ∧
  (depth e (Z.of_nat i) = 0 → base_alpha layer_i = BORDER_OPACITY_OUTER) ∧
  (depth e (Z.of_nat i) < depth e (Z.of_nat j) →
   (base_alpha layer_j <? base_alpha layer_i)%float = true) ∧
  (BORDER_OPACITY_INNER <=? base_alpha layer_i)%float = true ∧
  (depth e (Z.of_nat i) = BORDER_THICKNESS - 1 →
   (BORDER_OPACITY_INNER <? base_alpha layer_i)%float = true).
Proof.
  cbv zeta. destruct work_area as [[[work_left work_top] work_right] work_bottom].
  unfold BorderWindow_init. cbn [layers]. intros Hi Hj.
  apply list_lookup_fmap_Some in Hi as (ki & -> & Hi).
  apply list_lookup_fmap_Some in Hj as (kj & -> & Hj).
  apply lookup_range in Hi as [-> Hi]. apply lookup_range in Hj as [-> Hj].
  unfold BORDER_THICKNESS in Hi, Hj.
  assert (Hcases : ∀ n : nat, Z.of_nat n < 6 → n ∈ [0; 1; 2; 3; 4; 5]%nat).
  { intros n Hn. do 6 (destruct n as [|n]; [set_solver|]). lia. }
  apply Hcases in Hi, Hj. clear Hcases.
  repeat (apply elem_of_cons in Hi as [->|Hi]); [..|by apply elem_of_nil in Hi];
    (repeat (apply elem_of_cons in Hj as [->|Hj]); [..|by apply elem_of_nil in Hj]);
    destruct e; vm_compute; split_and!; (reflexivity || discriminate || (intros; reflexivity)).
Qed.

Lemma border_opacity_falls_inward_witness :
  let border := BorderWindow_init Bottom (py "#DC143C") (0, 0, 1920, 1040) in
  ∃ inner outer,
    layers border !! 0%nat = Some inner ∧ layers border !! 5%nat = Some outer ∧
    base_alpha outer = BORDER_OPACITY_OUTER ∧
    (base_alpha inner <? base_alpha outer)%float = true.
Proof.
  intros border. eexists _, _.
  assert (Hinner : layers border !! 0%nat = Some _) by reflexivity.
  assert (Houter : layers border !! 5%nat = Some _) by reflexivity.
  split; [exact Hinner|]. split; [exact Houter|].
  destruct (border_opacity_falls_inward Bottom (py "#DC143C") (0, 0, 1920, 1040)
              5 0 _ _ Houter Hinner) as (_ & Hout & Hless & _).
  split; [exact (Hout eq_refl)|apply Hless; reflexivity].
Defined.
End OverlayFacts.

(** * The cost of a replacement *)

Lemma slept_app (l1 l2 : list event) : slept (l1 ++ l2) = slept l1 + slept l2.
Proof.
  induction l1 as [|e l1 IH]; [done|].
  cbn [app slept foldr]. fold (slept (l1 ++ l2)) (slept l1). lia.
Qed.

Lemma slept_backspace_calls (n : nat) : slept (backspace_calls n) = 10 * Z.of_nat n.
Proof.
  unfold backspace_calls. induction n as [|n IH]; [done|].
  change (slept ([Ev (SendInput 2 backspace_press); Ev (sleep 10)]
                 ++ mjoin (replicate n [Ev (SendInput 2 backspace_press); Ev (sleep 10)]))
          = 10 * Z.of_nat (S n)).
  rewrite slept_app, IH.
  change (slept [Ev (SendInput 2 backspace_press); Ev (sleep 10)]) with 10. lia.
Qed.

Lemma slept_typing_calls (text : str) : slept (typing_calls text) = 10 * Z.of_nat (length text).
Proof.
  unfold typing_calls. induction text as [|char text IH]; [done|].
  rewrite bind_cons, slept_app, IH.
  change (slept [Ev (SendInput 2 (unicode_press char)); Ev (sleep 10)]) with 10.
  cbn [length]. lia.
Qed.

Lemma slept_switch_calls hwnd to_lang : slept (switch_calls hwnd to_lang) = 0.
Proof. unfold switch_calls. by destruct (truthy hwnd). Qed.

Section ReplacementCost.
Context {St : Type} (os : OS St).
Implicit Types (w : World St) (l : list event).

(** X21.  What replacing a word of [n] characters costs, whatever the
    operating system answers.  LegacyConsole: 2 n batches of input ([n]
    backspaces, then [n] characters, the conversion keeping the length) and
    100 + 20 n ms of sleep; ModernTerminal: one more batch (End) and 30 ms
    more; Plain, when it succeeds: one batch (Ctrl+V) and 20 ms, whatever
    the length. *)
Theorem replacement_cost category (word : str) w :
  convert_text word ≠ word →
  ∃ r w' l,
    replace os category (Some word) w = (r, w') ∧ log w' = log w ++ l ∧
    match category with
    | LegacyConsole =>
      length (sent l) = (2 * length word)%nat ∧
      slept l = 100 + 20 * Z.of_nat (length word)
    | ModernTerminal =>
      length (sent l) = (1 + 2 * length word)%nat ∧
      slept l = 130 + 20 * Z.of_nat (length word)
    | Plain =>
      r = Ok true → length (sent l) = 1%nat ∧ slept l = 20
    end.
Proof.
  intros Hchanged.
  destruct (replace_changed_run os category word w Hchanged)
    as (r & w' & l & Hrun & Hlog & Hl).
  exists r, w', l. split; [exact Hrun|]. split; [exact Hlog|].
  pose proof (length_convert_text word) as Hlen.
  destruct category.
  - intros ->. destruct Hl as [[_ (text_bytes & h_mem & p_mem & hwnd' & _ & ->)]|[Hr _]];
      [|done].
    rewrite !sent_app, !slept_app, sent_switch_calls, slept_switch_calls. by split.
  - destruct Hl as (_ & hwnd' & ->).
    rewrite !sent_app, !slept_app, sent_backspace_calls, sent_typing_calls,
      sent_switch_calls, slept_backspace_calls, slept_typing_calls, slept_switch_calls.
    rewrite !length_app, length_replicate, length_fmap, Hlen.
    change (slept [Ev (sleep 50)]) with 50.
    change (sent [Ev (sleep 50)]) with (@nil (list INPUT)). cbn [length]. split; lia.
  - destruct Hl as (_ & hwnd' & ->).
    rewrite !sent_app, !slept_app, sent_backspace_calls, sent_typing_calls,
      sent_switch_calls, slept_backspace_calls, slept_typing_calls, slept_switch_calls.
    rewrite !length_app, length_replicate, length_fmap, Hlen.
    change (slept [Ev (sleep 50)]) with 50.
    change (slept [Ev (SendInput 2 (key_press 35)); Ev (sleep 30)]) with 30.
    change (sent [Ev (sleep 50)]) with (@nil (list INPUT)).
    change (sent [Ev (SendInput 2 (key_press 35)); Ev (sleep 30)]) with [key_press 35].
    cbn [length]. split; lia.
Qed.
End ReplacementCost.

Lemma replacement_cost_witness :
  ∃ r w' l,
    convert_text (py "ghbdtn") ≠ py "ghbdtn" ∧
    replace desktop_os LegacyConsole (Some (py "ghbdtn"))
      (console_window 1 1 11 (py "C:\> ghbdtn")) = (r, w') ∧
    log w' = l ∧ length (sent l) = 12%nat ∧ slept l = 220.
Proof.
  assert (Hchanged : convert_text (py "ghbdtn") ≠ py "ghbdtn")
    by (vm_compute; discriminate).
  destruct (replacement_cost desktop_os LegacyConsole (py "ghbdtn")
              (console_window 1 1 11 (py "C:\> ghbdtn")) Hchanged)
    as (r & w' & l & Hrun & Hlog & Hsent & Hslept).
  exists r, w', l. split; [exact Hchanged|]. split; [exact Hrun|].
  split; [exact Hlog|]. split; [exact Hsent|exact Hslept].
Defined.

(** * The bytes written to the clipboard *)





Section ClipboardBytes.
Context {St : Type} (os : OS St).
Implicit Types (w : World St) (l : list event).

End ClipboardBytes.

